(** * A task tracker served as HTML fragments: the task service, the
    fragment renderers and the API router of [server.ts].

    The development follows the second revision of [server.ts] (the one
    built around [class TaskService]).  Strings are sequences of code
    units, restricted here to the range 0..255; dates are their
    [getTime()] value in milliseconds; the [Map] of tasks is an
    association list in insertion order, which is the order a JavaScript
    [Map] iterates in. *)

From Stdlib Require Import String Ascii List Bool ZArith NArith Lia.
From Stdlib Require Import Permutation Sorted DecimalString DecimalN.
Import ListNotations.

Open Scope list_scope.
Open Scope string_scope.

(** ** JavaScript strings *)

Module Js.

(** The double quote and the line feed, written by code. *)
Definition dq : string := String "034"%char "".
Definition nl : string := String "010"%char "".

(** A template literal is the concatenation of its chunks and holes. *)
Definition template (pieces : list string) : string := String.concat "" pieces.

(** [WhiteSpace] and [LineTerminator] code units below 256: TAB, LF, VT,
    FF, CR, SP and NBSP. *)
Definition isWhiteSpace (c : ascii) : bool :=
  let n := nat_of_ascii c in
  ((9 <=? n) && (n <=? 13))%nat || (n =? 32)%nat || (n =? 160)%nat.

Fixpoint trimStart (s : string) : string :=
  match s with
  | String c s' => if isWhiteSpace c then trimStart s' else s
  | EmptyString => EmptyString
  end.

Fixpoint trimEnd (s : string) : string :=
  match s with
  | EmptyString => EmptyString
  | String c s' =>
      match trimEnd s' with
      | EmptyString => if isWhiteSpace c then EmptyString else String c EmptyString
      | r => String c r
      end
  end.

(** [String.prototype.trim] *)
Definition trim (s : string) : string := trimEnd (trimStart s).

(** [String.prototype.startsWith] *)
Definition startsWith (s searchString : string) : bool := String.prefix searchString s.

(** [String.prototype.split] on a one-character separator. *)
Fixpoint split (sep : ascii) (s : string) : list string :=
  match s with
  | EmptyString => [EmptyString]
  | String c s' =>
      if Ascii.eqb c sep then EmptyString :: split sep s'
      else match split sep s' with
           | seg :: segs => String c seg :: segs
           | [] => [String c EmptyString]
           end
  end.

(** [Number.prototype.toString] on a non-negative integer below 10^21,
    where the result is the decimal numeral. *)
Definition Number_toString (n : N) : string :=
  NilEmpty.string_of_uint (N.to_uint n).

(** A number is a double.  The integers up to 2^53 are doubles; above, a
    double is an integer of 53 bits times a power of two, and an integer
    in between is rounded to the nearest of them, to the one with the even
    53-bit integer when it is half way. *)
Definition roundToDouble (m : N) : N :=
  if (m <=? 9007199254740992)%N then m
  else
    let e := (N.log2 m - 52)%N in
    let q := (m / 2 ^ e)%N in
    let r := (m mod 2 ^ e)%N in
    let half := (2 ^ (e - 1))%N in
    if (r <? half)%N then (q * 2 ^ e)%N
    else if (half <? r)%N then ((q + 1) * 2 ^ e)%N
    else if N.even q then (q * 2 ^ e)%N
    else ((q + 1) * 2 ^ e)%N.

(** [a + b] on numbers that hold non-negative integers, with a sum below
    2^1024: the sum, rounded. *)
Definition Number_add (a b : N) : N := roundToDouble (a + b).

(** Number of occurrences of a code unit. *)
Fixpoint count (c : ascii) (s : string) : nat :=
  match s with
  | EmptyString => 0
  | String c' s' => (if Ascii.eqb c c' then 1 else 0) + count c s'
  end.

(** [needle] occurs in [hay] as a contiguous substring. *)
Definition occurs (needle hay : string) : Prop :=
  exists pre post, hay = pre ++ needle ++ post.

(** [String.prototype.includes] *)
Fixpoint includes (hay needle : string) : bool :=
  String.prefix needle hay ||
  match hay with
  | EmptyString => false
  | String _ hay' => includes hay' needle
  end.

(** Dynamically typed values, as far as the service inspects them. *)
Inductive Value : Type :=
| Undefined
| Null
| Bool (b : bool)
| Num (n : Z)
| Str (s : string).

(** [ToBoolean] *)
Definition truthy (v : Value) : bool :=
  match v with
  | Undefined | Null => false
  | Bool b => b
  | Num n => negb (n =? 0)%Z
  | Str s => negb (s =? "")
  end.

(** [typeof v === 'string'] *)
Definition isString (v : Value) : bool :=
  match v with Str _ => true | _ => false end.

(** [v !== undefined] *)
Definition isDefined (v : Value) : bool :=
  match v with Undefined => false | _ => true end.

(** The string held by a value; read only behind a [typeof] guard. *)
Definition asString (v : Value) : string :=
  match v with Str s => s | _ => "" end.

(** [Array.prototype.includes] on an array of strings. *)
Definition Array_includes (arr : list string) (v : Value) : bool :=
  match v with
  | Str s => existsb (String.eqb s) arr
  | _ => false
  end.

(** [QuoteJSONString] on code units below 256. *)
Definition hexDigit (n : nat) : ascii :=
  ascii_of_nat (if (n <? 10)%nat then 48 + n else 87 + n).

Definition quoteChar (c : ascii) : string :=
  let n := nat_of_ascii c in
  if (n =? 8)%nat then "\b"
  else if (n =? 9)%nat then "\t"
  else if (n =? 10)%nat then "\n"
  else if (n =? 12)%nat then "\f"
  else if (n =? 13)%nat then "\r"
  else if (n =? 34)%nat then "\" ++ dq
  else if (n =? 92)%nat then "\\"
  else if (n <? 32)%nat then
      "\u00" ++ String (hexDigit (n / 16)) (String (hexDigit (n mod 16)) "")
  else String c "".

Fixpoint quoteChars (s : string) : string :=
  match s with
  | EmptyString => EmptyString
  | String c s' => quoteChar c ++ quoteChars s'
  end.

Definition QuoteJSONString (s : string) : string := dq ++ quoteChars s ++ dq.

End Js.
Import Js.

(** ** HTML escaping *)

(** Modelled from the spec: [htmlEscape] is imported from [./html_utils.ts],
    which is not among the sources.  The spec asks that interpolated text be
    escaped against HTML injection: angle brackets, quotes and ampersands.
    Each of those characters is replaced by its character reference. *)
Definition escapeChar (c : ascii) : string :=
  let n := nat_of_ascii c in
  if (n =? 38)%nat then "&amp;"
  else if (n =? 60)%nat then "&lt;"
  else if (n =? 62)%nat then "&gt;"
  else if (n =? 34)%nat then "&quot;"
  else if (n =? 39)%nat then "&#39;"
  else String c "".

Fixpoint htmlEscape (s : string) : string :=
  match s with
  | EmptyString => EmptyString
  | String c s' => escapeChar c ++ htmlEscape s'
  end.

(** ** Tasks *)

Definition TaskId := string.

(** [TaskPriority] is a union of string literals; at run time a priority
    is a string, checked against [TASK_PRIORITIES]. *)
Definition TASK_PRIORITIES : list string := ["low"; "medium"; "high"].

Record Task : Type := mkTask {
  id : TaskId;
  title : string;
  description : string;
  priority : string;
  completed : bool;
  createdAt : Z
}.

(** [{ ...task, title, description, priority }] *)
Definition withText (task : Task) (title' description' priority' : string) : Task :=
  mkTask (id task) title' description' priority' (completed task) (createdAt task).

(** [{ ...task, completed }] *)
Definition withCompleted (task : Task) (completed' : bool) : Task :=
  mkTask (id task) (title task) (description task) (priority task) completed'
    (createdAt task).

(** ** Fragment renderers *)

Definition taskToHtml (task : Task) : string :=
  let taskClass := if completed task then "task-complete" else "" in
  let badgeVariant :=
    if priority task =? "high" then "danger"
    else if priority task =? "medium" then "primary"
    else "success" in
  template [
     nl;
     "    <div id="; dq; "task-"; htmlEscape (id task); dq; " class="; dq; "task-item"; dq; ">"; nl;
     "      <div>"; nl;
     "        <sl-checkbox"; nl;
     "          "; (if completed task then "checked" else ""); nl;
     "          hx-put="; dq; "/api/tasks/"; htmlEscape (id task); "/toggle"; dq; nl;
     "          hx-trigger="; dq; "change"; dq; nl;
     "          hx-swap="; dq; "outerHTML"; dq; nl;
     "          hx-target="; dq; "#task-"; htmlEscape (id task); dq; ">"; nl;
     "          <span class="; dq; taskClass; dq; ">"; htmlEscape (title task); "</span>"; nl;
     "        </sl-checkbox>"; nl;
     "        <div style="; dq; "margin-left: 1.75rem; color: var(--sl-color-neutral-600); font-size: 0.875rem;"; dq; ">"; nl;
     "          "; htmlEscape (description task); nl;
     "        </div>"; nl;
     "      </div>"; nl;
     "      "; nl;
     "      <div>"; nl;
     "        <sl-badge variant="; dq; badgeVariant; dq; ">"; htmlEscape (priority task); "</sl-badge>"; nl;
     "        <sl-dropdown>"; nl;
     "          <sl-button slot="; dq; "trigger"; dq; " size="; dq; "small"; dq; " variant="; dq; "neutral"; dq; " circle>"; nl;
     "            <sl-icon name="; dq; "three-dots-vertical"; dq; "></sl-icon>"; nl;
     "          </sl-button>"; nl;
     "          <sl-menu>"; nl;
     "            <sl-menu-item hx-get="; dq; "/api/tasks/"; htmlEscape (id task); "/edit"; dq; " hx-target="; dq; "#task-"; htmlEscape (id task); dq; " hx-swap="; dq; "outerHTML"; dq; ">"; nl;
     "              <sl-icon slot="; dq; "prefix"; dq; " name="; dq; "pencil"; dq; "></sl-icon>"; nl;
     "              Edit"; nl;
     "            </sl-menu-item>"; nl;
     "            <sl-menu-item hx-delete="; dq; "/api/tasks/"; htmlEscape (id task); dq; " hx-target="; dq; "#task-"; htmlEscape (id task); dq; " hx-swap="; dq; "outerHTML"; dq; " hx-confirm="; dq; "Are you sure you want to delete this task?"; dq; ">"; nl;
     "              <sl-icon slot="; dq; "prefix"; dq; " name="; dq; "trash"; dq; "></sl-icon>"; nl;
     "              Delete"; nl;
     "            </sl-menu-item>"; nl;
     "          </sl-menu>"; nl;
     "        </sl-dropdown>"; nl;
     "      </div>"; nl;
     "    </div>"; nl;
     "  "
  ].

Definition taskEditFormHtml (task : Task) : string :=
  template [
     nl;
     "    <form class="; dq; "task-form edit-task-form"; dq; nl;
     "          hx-put="; dq; "/api/tasks/"; htmlEscape (id task); dq; nl;
     "          hx-target="; dq; "#task-"; htmlEscape (id task); dq; nl;
     "          hx-swap="; dq; "outerHTML"; dq; ">"; nl;
     "      "; nl;
     "      <sl-input name="; dq; "title"; dq; " required placeholder="; dq; "Task title"; dq; " value="; dq; htmlEscape (title task); dq; "></sl-input>"; nl;
     "      "; nl;
     "      <sl-textarea name="; dq; "description"; dq; " placeholder="; dq; "Description"; dq; ">"; htmlEscape (description task); "</sl-textarea>"; nl;
     "      "; nl;
     "      <sl-select name="; dq; "priority"; dq; " placeholder="; dq; "Select priority"; dq; " value="; dq; htmlEscape (priority task); dq; ">"; nl;
     "        <sl-option value="; dq; "low"; dq; ">Low</sl-option>"; nl;
     "        <sl-option value="; dq; "medium"; dq; ">Medium</sl-option>"; nl;
     "        <sl-option value="; dq; "high"; dq; ">High</sl-option>"; nl;
     "      </sl-select>"; nl;
     "      "; nl;
     "      <div class="; dq; "form-actions"; dq; ">"; nl;
     "        <sl-button "; nl;
     "          type="; dq; "button"; dq; " "; nl;
     "          variant="; dq; "neutral"; dq; nl;
     "          hx-get="; dq; "/api/tasks/"; htmlEscape (id task); dq; nl;
     "          hx-target="; dq; "#task-"; htmlEscape (id task); dq; nl;
     "          hx-swap="; dq; "outerHTML"; dq; ">"; nl;
     "          Cancel"; nl;
     "        </sl-button>"; nl;
     "        <sl-button type="; dq; "submit"; dq; " variant="; dq; "primary"; dq; ">Save</sl-button>"; nl;
     "      </div>"; nl;
     "    </form>"; nl;
     "  "
  ].

(** ** The task store *)

(** [Map<TaskId, Task>] in insertion order: [set] on a key already there
    replaces the value in place, on a new key appends the entry. *)
Module JsMap.

Definition t : Type := list (TaskId * Task).

Definition empty : t := [].

Fixpoint get (k : TaskId) (m : t) : option Task :=
  match m with
  | [] => None
  | (k', v) :: m' => if k =? k' then Some v else get k m'
  end.

Definition has (k : TaskId) (m : t) : bool :=
  match get k m with Some _ => true | None => false end.

Fixpoint set (k : TaskId) (v : Task) (m : t) : t :=
  match m with
  | [] => [(k, v)]
  | (k', v') :: m' => if k =? k' then (k, v) :: m' else (k', v') :: set k v m'
  end.

Fixpoint delete (k : TaskId) (m : t) : t :=
  match m with
  | [] => []
  | (k', v') :: m' => if k =? k' then m' else (k', v') :: delete k m'
  end.

Definition keys (m : t) : list TaskId := map fst m.

Definition values (m : t) : list Task := map snd m.

End JsMap.

(** The fields of [class TaskService].  [nextId] is a number that holds a
    non-negative integer. *)
Record TaskService : Type := mkService {
  taskStore : JsMap.t;
  nextId : N
}.

(** ** Methods as state transformers that may throw *)

Inductive Outcome (A : Type) : Type :=
| Return (a : A)
| Throw (message : string).

Arguments Return {A} a.
Arguments Throw {A} message.

Definition M (A : Type) : Type := TaskService -> Outcome A * TaskService.

Definition ret {A : Type} (a : A) : M A := fun this => (Return a, this).

Definition throw {A : Type} (message : string) : M A := fun this => (Throw message, this).

Definition bind {A B : Type} (m : M A) (k : A -> M B) : M B :=
  fun this =>
    match m this with
    | (Return a, this') => k a this'
    | (Throw message, this') => (Throw message, this')
    end.

(** [try { m } catch (e) { handler(e.message) }] *)
Definition tryCatch {A : Type} (m : M A) (handler : string -> M A) : M A :=
  fun this =>
    match m this with
    | (Return a, this') => (Return a, this')
    | (Throw message, this') => handler message this'
    end.

(** A value or exception produced outside the service. *)
Definition lift {A : Type} (o : Outcome A) : M A := fun this => (o, this).

Declare Scope monad_scope.
Delimit Scope monad_scope with monad.
Notation "x <- m ;; k" := (bind m (fun x => k))
  (at level 61, m at next level, right associativity) : monad_scope.
Notation "m ;; k" := (bind m (fun _ => k))
  (at level 61, right associativity) : monad_scope.
Open Scope monad_scope.

(** [if (cond) throw new Error(message);] *)
Definition throwIf (cond : bool) (message : string) : M unit :=
  if cond then throw message else ret tt.

(** [this.taskStore.get(id)] *)
Definition storeGet (id : TaskId) : M (option Task) :=
  fun this => (Return (JsMap.get id (taskStore this)), this).

(** [this.taskStore.set(id, task)] *)
Definition storeSet (id : TaskId) (task : Task) : M unit :=
  fun this => (Return tt, mkService (JsMap.set id task (taskStore this)) (nextId this)).

(** [this.taskStore.delete(id)]: tells whether the key was there. *)
Definition storeDelete (id : TaskId) : M bool :=
  fun this =>
    (Return (JsMap.has id (taskStore this)),
     mkService (JsMap.delete id (taskStore this)) (nextId this)).

(** [this.nextId++]: the old value is the result, and the counter becomes
    the old value plus one as a number, which is the old value again once
    the counter has come to 2^53. *)
Definition postIncrementNextId : M N :=
  fun this =>
    (Return (nextId this), mkService (taskStore this) (Number_add (nextId this) 1)).

(** ** TaskService *)

(** The [data] argument of [createTask] and [updateTask]; a field left out
    is [Undefined]. *)
Record TaskData : Type := mkData {
  data_title : Value;
  data_description : Value;
  data_priority : Value
}.

Definition priorityMessage : string :=
  "Invalid task data: Priority must be one of " ++ String.concat ", " TASK_PRIORITIES ++ ".".

(** [createTask(data, id?, completed?, createdAt?)]; [now] is what
    [new Date()] reads when [createdAt] is left out. *)
Definition createTask (data : TaskData) (id : option TaskId)
    (completed : option bool) (createdAt : option Z) (now : Z) : M Task :=
  throwIf (negb (truthy (data_title data))
           || negb (isString (data_title data))
           || (trim (asString (data_title data)) =? ""))
    "Invalid task data: Title is required and cannot be empty." ;;
  throwIf (negb (Array_includes TASK_PRIORITIES (data_priority data)))
    priorityMessage ;;
  throwIf (negb (isString (data_description data)))
    "Invalid task data: Description must be a string." ;;
  let idGiven := match id with Some i => negb (i =? "") | None => false end in
  throwIf (negb idGiven && negb (Array_includes TASK_PRIORITIES (data_priority data)))
    priorityMessage ;;
  newId <- (match id with
            | Some i => if i =? "" then n <- postIncrementNextId ;; ret (Number_toString n)
                        else ret i
            | None => n <- postIncrementNextId ;; ret (Number_toString n)
            end) ;;
  let task := {|
    id := newId;
    title := trim (asString (data_title data));
    description := asString (data_description data);
    priority := asString (data_priority data);
    completed := match completed with Some b => b | None => false end;
    createdAt := match createdAt with Some d => d | None => now end
  |} in
  storeSet newId task ;;
  ret task.

Definition seedInitialTasks (now1 now2 now3 : Z) : M unit :=
  let initialTasksData := [
    mkData (Str "Complete the project setup")
           (Str "Initial setup for the Shoelace and HTMX demo")
           (Str "medium");
    mkData (Str "Research Web Components")
           (Str "Look into Shoelace and other component libraries")
           (Str "low");
    mkData (Str "Implement server endpoints")
           (Str "Create the API for task management")
           (Str "high")
  ] in
  let nth i := List.nth i initialTasksData (mkData Undefined Undefined Undefined) in
  createTask (nth 0%nat) (Some "1") (Some false) (Some now1) now1 ;;
  createTask (nth 1%nat) (Some "2") (Some true) (Some (now2 - 86400000)%Z) now2 ;;
  createTask (nth 2%nat) (Some "3") (Some false) (Some now3) now3 ;;
  ret tt.

(** [new TaskService()]: the field initialisers, then the constructor body.
    [now1], [now2] and [now3] are the three clock readings of the seeding. *)
Definition newTaskService (now1 now2 now3 : Z) : TaskService :=
  snd (seedInitialTasks now1 now2 now3 (mkService JsMap.empty 4)).

(** [Array.prototype.sort] with a comparator: a stable sort, here by
    insertion.  [x] goes before the first element it does not compare
    greater than. *)
Fixpoint sortInsert {A : Type} (compare : A -> A -> Z) (x : A) (l : list A) : list A :=
  match l with
  | [] => [x]
  | y :: l' => if (compare x y <=? 0)%Z then x :: l else y :: sortInsert compare x l'
  end.

Fixpoint Array_sort {A : Type} (compare : A -> A -> Z) (l : list A) : list A :=
  match l with
  | [] => []
  | x :: l' => sortInsert compare x (Array_sort compare l')
  end.

(** [getAllTasks(status?)]; the argument is the raw query value. *)
Definition getAllTasks (status : option string) (this : TaskService) : list Task :=
  let tasks := JsMap.values (taskStore this) in
  let filteredTasks :=
    Array_sort (fun a b => (createdAt b - createdAt a)%Z)
      (filter (fun task =>
                 match status with
                 | Some s =>
                     if s =? "active" then negb (completed task)
                     else if s =? "completed" then completed task
                     else true
                 | None => true
                 end) tasks) in
  filteredTasks.

Definition getTaskById (id : TaskId) (this : TaskService) : option Task :=
  JsMap.get id (taskStore this).

(** [updateTask(id, data)]; the result is [None] for [undefined]. *)
Definition updateTask (id : TaskId) (data : TaskData) : M (option Task) :=
  found <- storeGet id ;;
  match found with
  | None => ret None
  | Some task =>
      throwIf (isDefined (data_title data)
               && (negb (isString (data_title data))
                   || (trim (asString (data_title data)) =? "")))
        "Invalid task data: Title cannot be empty." ;;
      throwIf (isDefined (data_priority data)
               && negb (Array_includes TASK_PRIORITIES (data_priority data)))
        priorityMessage ;;
      throwIf (isDefined (data_description data)
               && negb (isString (data_description data)))
        "Invalid task data: Description must be a string." ;;
      let updatedTask :=
        withText task
          (if isDefined (data_title data)
           then trim (asString (data_title data)) else title task)
          (if isDefined (data_description data)
           then asString (data_description data) else description task)
          (if isDefined (data_priority data)
           then asString (data_priority data) else priority task) in
      storeSet id updatedTask ;;
      ret (Some updatedTask)
  end.

Definition toggleTaskCompletion (id : TaskId) : M (option Task) :=
  found <- storeGet id ;;
  match found with
  | None => ret None
  | Some task =>
      let updatedTask := withCompleted task (negb (completed task)) in
      storeSet id updatedTask ;;
      ret (Some updatedTask)
  end.

Definition deleteTask (id : TaskId) : M bool := storeDelete id.

(** ** Requests and responses *)

(** Form fields, query parameters and headers: name and value pairs in
    order; [get] reads the first value of a name. *)
Definition Entries : Type := list (string * string).

Fixpoint entriesGet (name : string) (entries : Entries) : option string :=
  match entries with
  | [] => None
  | (k, v) :: rest => if name =? k then Some v else entriesGet name rest
  end.

Definition entriesHas (name : string) (entries : Entries) : bool :=
  match entriesGet name entries with Some _ => true | None => false end.

(** What a handler reads of a [Request]: the method, the path and query of
    its URL, and what [req.formData()] resolves to or rejects with. *)
Record Request : Type := mkRequest {
  method : string;
  pathname : string;
  searchParams : Entries;
  formData : Outcome Entries
}.

(** A [Response]: body ([None] for [null]), status and headers. *)
Record Response : Type := mkResponse {
  body : option string;
  status : Z;
  headers : Entries
}.

Definition DEFAULT_CORS_HEADERS : Entries := [
  ("Access-Control-Allow-Origin", "*");
  ("Access-Control-Allow-Methods", "GET, POST, PUT, DELETE, OPTIONS");
  ("Access-Control-Allow-Headers", "Content-Type")
].

(** [{ ...DEFAULT_CORS_HEADERS, "Content-Type": contentType }] *)
Definition headersWith (contentType : string) : Entries :=
  (DEFAULT_CORS_HEADERS ++ [("Content-Type", contentType)])%list.

(** [JSON.stringify({ error: message })] *)
Definition JSON_stringify_error (message : string) : string :=
  "{" ++ QuoteJSONString "error" ++ ":" ++ QuoteJSONString message ++ "}".

(** The statuses that go without a body: 101, 204, 205 and 304. *)
Definition isNullBodyStatus (status : Z) : bool :=
  ((status =? 101) || (status =? 204) || (status =? 205) || (status =? 304))%Z.

(** [new Response(body, { status, headers })] with an integer status, as
    the runtime, Deno, has it.  The status is converted to an
    [unsigned short], that is, taken modulo 2^16; the constructor throws a
    [RangeError] when the result is outside 200..599 and is not 101, and a
    [TypeError] when a body comes with a status that goes without one.
    (The Fetch standard has the [RangeError] for 101 as well; with a body
    the constructor throws on 101 either way.)  The messages of the two
    errors are the runtime's own; the names of the error classes stand for
    them here. *)
Definition newResponse (body : option string) (status : Z) (headers : Entries)
    : Outcome Response :=
  let status := (status mod 65536)%Z in
  if (((status <? 200) || (599 <? status)) && negb (status =? 101))%Z
  then Throw "RangeError"
  else match body with
       | Some _ =>
           if isNullBodyStatus status then Throw "TypeError"
           else Return (mkResponse body status headers)
       | None => Return (mkResponse body status headers)
       end.

Definition jsonErrorResponse (message : string) (status : Z) : Outcome Response :=
  newResponse (Some (JSON_stringify_error message)) status (headersWith "application/json").

(** The [alertHtml] of [htmlErrorResponse]. *)
Definition alertHtml (message variant : string) : string :=
  template [
     nl;
     "    <sl-alert variant="; dq; variant; dq; " open closable>"; nl;
     "      <sl-icon slot="; dq; "icon"; dq; " name="; dq; (if variant =? "danger" then "exclamation-octagon" else "exclamation-triangle"); dq; "></sl-icon>"; nl;
     "      "; htmlEscape message; nl;
     "    </sl-alert>"; nl;
     "  "
  ].

Definition htmlErrorResponse (message : string) (status : Z) (variant : string)
    : Outcome Response :=
  newResponse (Some (alertHtml message variant)) status (headersWith "text/html").

(** [new Response(html, { headers: { ...DEFAULT_CORS_HEADERS,
    "Content-Type": "text/html" } })]; the status defaults to 200, which
    the constructor accepts with any body. *)
Definition htmlResponse (html : string) : Response :=
  mkResponse (Some html) 200 (headersWith "text/html").

(** ** Path patterns *)

(** [\w] *)
Definition isWordChar (c : ascii) : bool :=
  let n := nat_of_ascii c in
  ((48 <=? n) && (n <=? 57))%nat || ((65 <=? n) && (n <=? 90))%nat
  || (n =? 95)%nat || ((97 <=? n) && (n <=? 122))%nat.

(** The longest run of word characters at the head of a string, and what
    follows it. *)
Fixpoint spanWord (s : string) : string * string :=
  match s with
  | EmptyString => (EmptyString, EmptyString)
  | String c s' =>
      if isWordChar c then let (w, r) := spanWord s' in (String c w, r)
      else (EmptyString, s)
  end.

Fixpoint stripPrefix (p s : string) : option string :=
  match p, s with
  | EmptyString, _ => Some s
  | String a p', String b s' => if Ascii.eqb a b then stripPrefix p' s' else None
  | String _ _, EmptyString => None
  end.

(** [path.match(/^\/api\/tasks\/\w+SUFFIX$/)] as a truth value, for the
    suffixes of the route table: none, [/edit] and [/toggle].  What follows
    [\w+] is the end of the path or a slash, neither of them a word
    character, so [\w+] can only take the whole run. *)
Definition matchTaskPath (suffix path : string) : bool :=
  match stripPrefix "/api/tasks/" path with
  | Some rest => let (w, r) := spanWord rest in negb (w =? "") && (r =? suffix)
  | None => false
  end.

(** [getPathParams(pattern, path)]: a segment of the path that is missing
    reads as [undefined], here [None]. *)
Fixpoint collectParams (patternSegments urlSegments : list string)
    : list (string * option string) :=
  match patternSegments with
  | [] => []
  | p :: ps =>
      let rest := collectParams ps (tl urlSegments) in
      if startsWith p ":"
      then (substring 1 (String.length p - 1) p, hd_error urlSegments) :: rest
      else rest
  end.

Definition getPathParams (pattern path : string) : list (string * option string) :=
  collectParams (split "/" pattern) (split "/" path).

(** [params.id].  Behind a route's regular expression the segment is
    always there; the model reads a missing one as the empty string, which
    is never the key of a task. *)
Definition params_id (params : list (string * option string)) : TaskId :=
  match find (fun e => fst e =? "id") (rev params) with
  | Some (_, Some v) => v
  | _ => ""
  end.

(** ** API endpoint handlers *)

(** [x || fallback] on an optional string. *)
Definition orElse (x : option string) (fallback : string) : string :=
  match x with
  | Some s => if s =? "" then fallback else s
  | None => fallback
  end.

(** An optional string as a value: [None] is [undefined]. *)
Definition ofOption (x : option string) : Value :=
  match x with Some s => Str s | None => Undefined end.

Definition emptyStateHtml : string :=
  template [
     nl;
     "      <sl-alert variant="; dq; "neutral"; dq; " open>"; nl;
     "        <sl-icon slot="; dq; "icon"; dq; " name="; dq; "info-circle"; dq; "></sl-icon>"; nl;
     "        No tasks found. Add your first task above."; nl;
     "      </sl-alert>"; nl;
     "    "
  ].

Definition getTasksHandler (req : Request) : M Response :=
  fun this =>
    let status := entriesGet "status" (searchParams req) in
    let filteredTasks := getAllTasks status this in
    if (List.length filteredTasks =? 0)%nat
    then (Return (htmlResponse emptyStateHtml), this)
    else (Return (htmlResponse (String.concat "" (map taskToHtml filteredTasks))), this).

Definition createTaskHandler (req : Request) (now : Z) : M Response :=
  tryCatch
    (formData <- lift (formData req) ;;
     let taskData := mkData
       (Str (orElse (entriesGet "title" formData) ""))
       (Str (orElse (entriesGet "description" formData) ""))
       (Str (orElse (entriesGet "priority" formData) "medium")) in
     let taskData :=
       if negb (entriesHas "priority" formData)
       then mkData (data_title taskData) (data_description taskData) (Str "medium")
       else taskData in
     newTask <- createTask taskData None None None now ;;
     ret (htmlResponse (taskToHtml newTask)))
    (fun message =>
       if startsWith message "Invalid task data:"
       then lift (htmlErrorResponse message 400 "danger")
       else lift (htmlErrorResponse "Failed to create task due to an unexpected error." 500 "danger")).

Definition getTaskByIdHandler (req : Request) (id : TaskId) : M Response :=
  fun this =>
    match getTaskById id this with
    | None => (htmlErrorResponse "Task not found." 404 "danger", this)
    | Some task => (Return (htmlResponse (taskToHtml task)), this)
    end.

Definition updateTaskHandler (req : Request) (id : TaskId) : M Response :=
  tryCatch
    (formData <- lift (formData req) ;;
     let validTaskData := mkData
       (ofOption (entriesGet "title" formData))
       (ofOption (entriesGet "description" formData))
       (ofOption (entriesGet "priority" formData)) in
     updatedTask <- updateTask id validTaskData ;;
     match updatedTask with
     | None => lift (htmlErrorResponse "Task not found." 404 "danger")
     | Some task => ret (htmlResponse (taskToHtml task))
     end)
    (fun message =>
       if startsWith message "Invalid task data:"
       then lift (htmlErrorResponse message 400 "danger")
       else lift (htmlErrorResponse "Failed to update task due to an unexpected error." 500 "danger")).

Definition deleteTaskHandler (req : Request) (id : TaskId) : M Response :=
  success <- deleteTask id ;;
  if negb success
  then lift (jsonErrorResponse "Task not found or could not be deleted." 404)
  else lift (newResponse None 204 DEFAULT_CORS_HEADERS).

Definition getTaskEditFormHandler (req : Request) (id : TaskId) : M Response :=
  fun this =>
    match getTaskById id this with
    | None => (htmlErrorResponse "Task not found." 404 "danger", this)
    | Some task => (Return (htmlResponse (taskEditFormHtml task)), this)
    end.

Definition toggleTaskHandler (req : Request) (id : TaskId) : M Response :=
  updatedTask <- toggleTaskCompletion id ;;
  match updatedTask with
  | None => lift (htmlErrorResponse "Task not found." 404 "danger")
  | Some task => ret (htmlResponse (taskToHtml task))
  end.

(** ** The router *)

Definition handleApiRequest (req : Request) (path method : string) (now : Z) : M Response :=
  if (path =? "/api/tasks") && (method =? "GET") then
    getTasksHandler req
  else if (path =? "/api/tasks") && (method =? "POST") then
    createTaskHandler req now
  else if matchTaskPath "" path && (method =? "GET") then
    let params := getPathParams "/api/tasks/:id" path in
    getTaskByIdHandler req (params_id params)
  else if matchTaskPath "" path && (method =? "PUT") then
    let params := getPathParams "/api/tasks/:id" path in
    updateTaskHandler req (params_id params)
  else if matchTaskPath "" path && (method =? "DELETE") then
    let params := getPathParams "/api/tasks/:id" path in
    deleteTaskHandler req (params_id params)
  else if matchTaskPath "/edit" path && (method =? "GET") then
    let params := getPathParams "/api/tasks/:id/edit" path in
    getTaskEditFormHandler req (params_id params)
  else if matchTaskPath "/toggle" path && (method =? "PUT") then
    let params := getPathParams "/api/tasks/:id/toggle" path in
    toggleTaskHandler req (params_id params)
  else
    lift (jsonErrorResponse "API Endpoint Not Found" 404).

(** [handleRequest]; serving static files is left to its collaborator. *)
Definition handleRequest (serveStaticFile : Request -> string -> Response)
    (req : Request) (now : Z) : M Response :=
  let path := pathname req in
  let method := method req in
  if method =? "OPTIONS" then lift (newResponse None 204 DEFAULT_CORS_HEADERS)
  else if (path =? "/") || negb (startsWith path "/api") then ret (serveStaticFile req path)
  else handleApiRequest req path method now.

(** ** Static files *)

(** [Headers] names are compared without regard to letter case. *)
Definition toLowerChar (c : ascii) : ascii :=
  let n := nat_of_ascii c in
  if ((65 <=? n) && (n <=? 90))%nat then ascii_of_nat (n + 32) else c.

Fixpoint toLowerCase (s : string) : string :=
  match s with
  | EmptyString => EmptyString
  | String c s' => String (toLowerChar c) (toLowerCase s')
  end.

Definition sameName (a b : string) : bool := toLowerCase a =? toLowerCase b.

(** [headers.get(name)] *)
Fixpoint Headers_get (name : string) (hs : Entries) : option string :=
  match hs with
  | [] => None
  | (k, v) :: rest => if sameName name k then Some v else Headers_get name rest
  end.

(** [headers.set(name, value)]: any value the name had is dropped. *)
Definition Headers_set (name value : string) (hs : Entries) : Entries :=
  (filter (fun e => negb (sameName name (fst e))) hs ++ [(name, value)])%list.

(** What [serveFile(req, filePath)] of the standard library comes to: a
    response, or an exception that is [Deno.errors.NotFound] or another. *)
Inductive FileOutcome : Type :=
| FileResponse (r : Response)
| ThrowsNotFound
| ThrowsOther.

Section StaticFiles.

(** The collaborators of the standard library: [extname] of [path/mod.ts],
    [contentType] of [media_types] ([None] for [undefined]) and [serveFile]
    of [http/file_server.ts]. *)
Variable extname : string -> string.
Variable contentType : string -> option string.
Variable serveFile : Request -> string -> FileOutcome.

(** [serveStaticFile]; the response [serveFile] gave was built by the
    constructor, which accepts its status and body again. *)
Definition serveStaticFile (req : Request) (path : string) : Response :=
  let filePath := if path =? "/" then "./public/index.html" else "./public" ++ path in
  let fileExt := extname filePath in
  let responseContentType := orElse (contentType fileExt) "application/octet-stream" in
  match serveFile req filePath with
  | FileResponse fileResponse =>
      let newHeaders := Headers_set "Content-Type" responseContentType (headers fileResponse) in
      let newHeaders :=
        fold_left (fun hs e => Headers_set (fst e) (snd e) hs) DEFAULT_CORS_HEADERS newHeaders in
      mkResponse (body fileResponse) (status fileResponse) newHeaders
  | ThrowsNotFound =>
      mkResponse (Some "File Not Found") 404 (headersWith "text/plain")
  | ThrowsOther =>
      mkResponse (Some "Internal Server Error") 500 (headersWith "text/plain")
  end.

End StaticFiles.

(** ** The element builder of [shoelace_htmx_library.ts] *)

(** The library imports its [htmlEscape] from the module [html_escape] of
    deno.land, which is not among the sources either; it is taken to be the
    function [htmlEscape] above. *)

Module ShoelaceHTMX.

(** A value of an attributes object, [Record<string, any>]: a boolean, a
    string, a number (an integer here), [null], [undefined], or a value of
    another kind, known by what [String(value)] gives. *)
Inductive AttrValue : Type :=
| ABool (b : bool)
| AString (s : string)
| ANumber (n : Z)
| ANull
| AUndefined
| AOther (text : string).

(** An attributes object in the order [Object.entries] lists it, which is
    the order of insertion for keys that are not array indices. *)
Definition Attributes : Type := list (string * AttrValue).

(** [attributes[key] = value] *)
Fixpoint Object_set (key : string) (value : AttrValue) (attributes : Attributes)
    : Attributes :=
  match attributes with
  | [] => [(key, value)]
  | (k, v) :: rest =>
      if key =? k then (key, value) :: rest else (k, v) :: Object_set key value rest
  end.

(** [attributes[key]] *)
Fixpoint Object_get (key : string) (attributes : Attributes) : option AttrValue :=
  match attributes with
  | [] => None
  | (k, v) :: rest => if key =? k then Some v else Object_get key rest
  end.

(** [Number.prototype.toString] on an integer. *)
Definition Integer_toString (n : Z) : string := NilEmpty.string_of_int (Z.to_int n).

(** What one entry adds to [attributeStrings]. *)
Definition attributeString (entry : string * AttrValue) : list string :=
  let (key, value) := entry in
  match value with
  | ABool false => []
  | ABool true => [key]
  | AString s => [template [key; "="; dq; htmlEscape s; dq]]
  | ANumber n => [template [key; "="; dq; htmlEscape (Integer_toString n); dq]]
  | ANull | AUndefined => []
  | AOther text => [template [key; "="; dq; htmlEscape text; dq]]
  end.

Definition renderElement (tagName : string) (attributes : Attributes)
    (innerHTML : option string) : string :=
  let attributeStrings := flat_map attributeString attributes in
  let attrsString :=
    if (0 <? List.length attributeStrings)%nat
    then template [" "; String.concat " " attributeStrings]
    else "" in
  match innerHTML with
  | Some inner => template ["<"; tagName; attrsString; ">"; inner; "</"; tagName; ">"]
  | None => template ["<"; tagName; attrsString; "></"; tagName; ">"]
  end.

(** [if (x) attributes[key] = x] for an optional string. *)
Definition setString (key : string) (x : option string) (attributes : Attributes)
    : Attributes :=
  match x with
  | Some s => if s =? "" then attributes else Object_set key (AString s) attributes
  | None => attributes
  end.

(** [if (x) attributes[key] = true] for an optional boolean. *)
Definition setFlag (key : string) (x : option bool) (attributes : Attributes)
    : Attributes :=
  match x with
  | Some true => Object_set key (ABool true) attributes
  | _ => attributes
  end.

(** The options of [renderButton]; a field left out is [None], and
    [otherAttributes] is what the rest pattern collects: the properties
    under any other name. *)
Module SlButtonOptions.
Record t : Type := make {
  label : string;
  variant : option string;
  size : option string;
  type : option string;
  disabled : option bool;
  loading : option bool;
  outline : option bool;
  circle : option bool;
  id : option string;
  hxClick : option string;
  hxPost : option string;
  hxGet : option string;
  hxPut : option string;
  hxDelete : option string;
  hxTarget : option string;
  hxSwap : option string;
  hxIndicator : option string;
  hxConfirm : option string;
  otherAttributes : Attributes
}.
End SlButtonOptions.

Definition buttonAttributes (options : SlButtonOptions.t) : Attributes :=
  let attributes := SlButtonOptions.otherAttributes options in
  let attributes := setString "id" (SlButtonOptions.id options) attributes in
  let attributes := setString "variant" (SlButtonOptions.variant options) attributes in
  let attributes := setString "size" (SlButtonOptions.size options) attributes in
  let attributes := setString "type" (SlButtonOptions.type options) attributes in
  let attributes := setFlag "disabled" (SlButtonOptions.disabled options) attributes in
  let attributes := setFlag "loading" (SlButtonOptions.loading options) attributes in
  let attributes := setFlag "outline" (SlButtonOptions.outline options) attributes in
  let attributes := setFlag "circle" (SlButtonOptions.circle options) attributes in
  let attributes := setString "hx-click" (SlButtonOptions.hxClick options) attributes in
  let attributes := setString "hx-post" (SlButtonOptions.hxPost options) attributes in
  let attributes := setString "hx-get" (SlButtonOptions.hxGet options) attributes in
  let attributes := setString "hx-put" (SlButtonOptions.hxPut options) attributes in
  let attributes := setString "hx-delete" (SlButtonOptions.hxDelete options) attributes in
  let attributes := setString "hx-target" (SlButtonOptions.hxTarget options) attributes in
  let attributes := setString "hx-swap" (SlButtonOptions.hxSwap options) attributes in
  let attributes := setString "hx-indicator" (SlButtonOptions.hxIndicator options) attributes in
  let attributes := setString "hx-confirm" (SlButtonOptions.hxConfirm options) attributes in
  attributes.

Definition renderButton (options : SlButtonOptions.t) : string :=
  let attributes := buttonAttributes options in
  let escapedLabel := htmlEscape (SlButtonOptions.label options) in
  renderElement "sl-button" attributes (Some escapedLabel).

(** The options of [renderCheckbox]. *)
Module SlCheckboxOptions.
Record t : Type := make {
  label : option string;
  id : option string;
  name : option string;
  value : option string;
  checked : option bool;
  disabled : option bool;
  indeterminate : option bool;
  hxGet : option string;
  hxPost : option string;
  hxPut : option string;
  hxDelete : option string;
  hxPatch : option string;
  hxTrigger : option string;
  hxTarget : option string;
  hxSwap : option string;
  hxIndicator : option string;
  hxConfirm : option string;
  otherAttributes : Attributes
}.
End SlCheckboxOptions.

(** [x] as a truth value, for an optional string. *)
Definition given (x : option string) : bool :=
  match x with Some s => negb (s =? "") | None => false end.

Definition checkboxAttributes (options : SlCheckboxOptions.t) : Attributes :=
  let attributes := SlCheckboxOptions.otherAttributes options in
  let attributes := setString "id" (SlCheckboxOptions.id options) attributes in
  let attributes := setString "name" (SlCheckboxOptions.name options) attributes in
  let attributes := setString "value" (SlCheckboxOptions.value options) attributes in
  let attributes := setFlag "checked" (SlCheckboxOptions.checked options) attributes in
  let attributes := setFlag "disabled" (SlCheckboxOptions.disabled options) attributes in
  let attributes :=
    setFlag "indeterminate" (SlCheckboxOptions.indeterminate options) attributes in
  let hxActionSpecified :=
    given (SlCheckboxOptions.hxGet options) || given (SlCheckboxOptions.hxPost options)
    || given (SlCheckboxOptions.hxPut options) || given (SlCheckboxOptions.hxDelete options)
    || given (SlCheckboxOptions.hxPatch options) in
  let attributes :=
    if hxActionSpecified then
      let attributes :=
        Object_set "hx-trigger"
          (AString (orElse (SlCheckboxOptions.hxTrigger options) "sl-change")) attributes in
      let attributes := setString "hx-get" (SlCheckboxOptions.hxGet options) attributes in
      let attributes := setString "hx-post" (SlCheckboxOptions.hxPost options) attributes in
      let attributes := setString "hx-put" (SlCheckboxOptions.hxPut options) attributes in
      let attributes :=
        setString "hx-delete" (SlCheckboxOptions.hxDelete options) attributes in
      let attributes := setString "hx-patch" (SlCheckboxOptions.hxPatch options) attributes in
      attributes
    else setString "hx-trigger" (SlCheckboxOptions.hxTrigger options) attributes in
  let attributes := setString "hx-target" (SlCheckboxOptions.hxTarget options) attributes in
  let attributes := setString "hx-swap" (SlCheckboxOptions.hxSwap options) attributes in
  let attributes :=
    setString "hx-indicator" (SlCheckboxOptions.hxIndicator options) attributes in
  let attributes := setString "hx-confirm" (SlCheckboxOptions.hxConfirm options) attributes in
  attributes.

Definition renderCheckbox (options : SlCheckboxOptions.t) : string :=
  let attributes := checkboxAttributes options in
  let escapedLabel :=
    match SlCheckboxOptions.label options with
    | Some l => if l =? "" then "" else htmlEscape l
    | None => ""
    end in
  renderElement "sl-checkbox" attributes (Some escapedLabel).

End ShoelaceHTMX.

(** * Vocabulary of the properties *)

(** A matcher for the text [<script>]: the state is the number of pattern
    characters matched so far, 8 once the pattern has been seen.  The
    pattern holds [<] only in first position, so a mismatch falls back to
    state 1 on [<] and to state 0 otherwise. *)
Module ScriptTag.

Definition pattern : string := "<script>".

Definition step (q : nat) (c : ascii) : nat :=
  if (q =? 8)%nat then 8
  else match String.get q pattern with
         | Some c' =>
             if Ascii.eqb c c' then S q
             else if Ascii.eqb c "<" then 1 else 0
         | None => if Ascii.eqb c "<" then 1 else 0
         end.

Fixpoint run (q : nat) (s : string) : nat :=
  match s with
  | EmptyString => q
  | String c s' => run (step q c) s'
  end.

End ScriptTag.

(** The characters that open or close markup and attribute values. *)
Definition isMarkup (c : ascii) : bool :=
  Ascii.eqb c "<" || Ascii.eqb c ">" || Ascii.eqb c "034" || Ascii.eqb c "'".

(** The task with its user-supplied text removed. *)
Definition withoutText (task : Task) : Task :=
  withText task "" "" (priority task).

(** The title of the rendering test. *)
Definition scriptTitle : string := "<script>alert(1)</script>".

Definition exampleScriptTask : Task := mkTask "7" scriptTitle "a & b" "high" true 5.

(** The character references [htmlEscape] writes, and the texts in which
    every ampersand opens one of them. *)
Definition references : list string := ["&amp;"; "&lt;"; "&gt;"; "&quot;"; "&#39;"].

Fixpoint refsOnly (s : string) : bool :=
  match s with
  | EmptyString => true
  | String c s' =>
      (negb (Ascii.eqb c "&") || existsb (fun r => String.prefix r s) references)
      && refsOnly s'
  end.

(** A freshly seeded service. *)
Definition exampleService : TaskService := newTaskService 1000 1001 1002.

(** A blank string holds white space only. *)
Fixpoint blank (s : string) : bool :=
  match s with
  | EmptyString => true
  | String c s' => isWhiteSpace c && blank s'
  end.

(** [message.startsWith("Invalid task data:")], the test the handlers
    know a validation error by. *)
Definition isValidationMessage (message : string) : bool :=
  startsWith message "Invalid task data:".

(** The task a call [createTask(data)] stores, once [data] is valid. *)
Definition createdTask (data : TaskData) (now : Z) (this : TaskService) : Task :=
  mkTask (Number_toString (nextId this)) (trim (asString (data_title data)))
    (asString (data_description data)) (asString (data_priority data)) false now.

(** The record [updateTask(id, data)] stores in place of [task], once
    [data] is valid. *)
Definition updatedTask (task : Task) (data : TaskData) : Task :=
  withText task
    (if isDefined (data_title data) then trim (asString (data_title data)) else title task)
    (if isDefined (data_description data)
     then asString (data_description data) else description task)
    (if isDefined (data_priority data) then asString (data_priority data) else priority task).

(** The ways a supplied field breaks a rule of [updateTask]. *)
Inductive UpdateViolation (data : TaskData) : Prop :=
| title_empty_after_trim (s : string) :
    data_title data = Str s -> trim s = "" -> UpdateViolation data
| title_not_a_string :
    data_title data <> Undefined -> isString (data_title data) = false ->
    UpdateViolation data
| priority_not_enumerated :
    data_priority data <> Undefined ->
    ~ In (data_priority data) [Str "low"; Str "medium"; Str "high"] ->
    UpdateViolation data
| description_not_a_string :
    data_description data <> Undefined -> isString (data_description data) = false ->
    UpdateViolation data.

(** The public operations: [createTask] is called with its data only, the
    way [createTaskHandler] calls it. *)
Inductive Op : Type :=
| Create (data : TaskData) (now : Z)
| Update (id : TaskId) (data : TaskData)
| Toggle (id : TaskId)
| Delete (id : TaskId).

(** The service after an operation; an operation that throws leaves it as
    it was. *)
Definition perform (op : Op) (this : TaskService) : TaskService :=
  match op with
  | Create data now => snd (createTask data None None None now this)
  | Update id0 data => snd (updateTask id0 data this)
  | Toggle id0 => snd (toggleTaskCompletion id0 this)
  | Delete id0 => snd (deleteTask id0 this)
  end.

(** The states a service goes through: the seeded one, then one more
    operation at a time. *)
Inductive reachable : TaskService -> Prop :=
| reachable_new (now1 now2 now3 : Z) : reachable (newTaskService now1 now2 now3)
| reachable_perform (op : Op) (this : TaskService) :
    reachable this -> reachable (perform op this).

(** Where the counter stops: 2^53, the first integer whose successor is
    not a number. *)
Definition counterLimit : N := 9007199254740992.

(** What holds of every entry of a reachable store: the key is the id of
    the task and the numeral of a counter value handed out before, or of
    the limit. *)
Definition entryOk (next : N) (k : TaskId) (task : Task) : Prop :=
  id task = k
  /\ (exists n, (1 <= n)%N /\ (n < next \/ n = counterLimit)%N /\ k = Number_toString n)
  /\ blank (title task) = false
  /\ trim (title task) = title task.

(** The invariant of the service. *)
Record Invariant (this : TaskService) : Prop := mkInvariant {
  inv_counter : (4 <= nextId this <= counterLimit)%N;
  inv_keys : NoDup (JsMap.keys (taskStore this));
  inv_entries : forall k task, In (k, task) (taskStore this) -> entryOk (nextId this) k task
}.

(** A run that creates a padded title, renames it, and meets two blank
    titles on the way. *)
Definition exampleRun : TaskService :=
  perform (Update "4" (mkData (Str (" Tea" ++ nl)) Undefined Undefined))
    (perform (Update "4" (mkData (Str "  ") Undefined Undefined))
       (perform (Create (mkData (Str "  Buy milk ") (Str "") (Str "low")) 2000)
          (perform (Create (mkData (Str (nl ++ " ")) (Str "") (Str "low")) 1500)
             exampleService))).

(** The run that creates the same task until the counter stops: 2^53 - 4
    creates after the seeding. *)
Definition limitRun : TaskService :=
  N.iter (counterLimit - 4)
    (perform (Create (mkData (Str "Buy milk") (Str "") (Str "low")) 2000))
    exampleService.

(** A string of word characters only. *)
Fixpoint allWord (s : string) : bool :=
  match s with
  | EmptyString => true
  | String c s' => isWordChar c && allWord s'
  end.

(** What [\w+] matches in full: a non-empty string of word characters. *)
Definition isWordToken (s : string) : bool := negb (s =? "") && allWord s.

(** What may follow [\w+] in a route: the end of the path, or a character
    that is not a word character. *)
Definition endsToken (rest : string) : bool :=
  match rest with
  | EmptyString => true
  | String c _ => negb (isWordChar c)
  end.

(** The [Content-Type] header of a response. *)
Definition contentType (r : Response) : option string :=
  entriesGet "Content-Type" (headers r).

(** A method and path that one of the seven routes of [handleApiRequest]
    accepts. *)
Definition routed (path method : string) : bool :=
  (path =? "/api/tasks") && (method =? "GET")
  || (path =? "/api/tasks") && (method =? "POST")
  || matchTaskPath "" path && (method =? "GET")
  || matchTaskPath "" path && (method =? "PUT")
  || matchTaskPath "" path && (method =? "DELETE")
  || matchTaskPath "/edit" path && (method =? "GET")
  || matchTaskPath "/toggle" path && (method =? "PUT").

(** A DELETE on [/api/tasks/{id}] whose id is not in the store. *)
Definition deletesUnknownId (path method : string) (this : TaskService) : bool :=
  matchTaskPath "" path && (method =? "DELETE")
  && negb (JsMap.has (params_id (getPathParams "/api/tasks/:id" path)) (taskStore this)).

(** The response that carries an alert: what [htmlErrorResponse] builds
    when the constructor accepts the status. *)
Definition alertResponse (message : string) (status : Z) (variant : string) : Response :=
  mkResponse (Some (alertHtml message variant)) status (headersWith "text/html").

(** The response that carries the JSON error envelope: what
    [jsonErrorResponse] builds when the constructor accepts the status. *)
Definition envelopeResponse (message : string) (status : Z) : Response :=
  mkResponse (Some (JSON_stringify_error message)) status (headersWith "application/json").

(** The responses with an HTML body: a rendered fragment with status 200,
    or an alert with status 400, 404 or 500. *)
Inductive HtmlResponse : Response -> Prop :=
| html_fragment (html : string) : HtmlResponse (htmlResponse html)
| html_alert (message : string) (st : Z) :
    st = 400%Z \/ st = 404%Z \/ st = 500%Z ->
    HtmlResponse (alertResponse message st "danger").

(** ** Vocabulary of the further properties *)

(** Data that passes the three checks of [createTask]: the title is a
    string that is not empty after trimming, the priority is one of the
    three, the description is a string. *)
Definition validData (data : TaskData) : Prop :=
  (exists s, data_title data = Str s /\ trim s <> "")
  /\ In (data_priority data) [Str "low"; Str "medium"; Str "high"]
  /\ (exists d, data_description data = Str d).

(** The service after a sequence of operations. *)
Definition performAll (ops : list Op) (this : TaskService) : TaskService :=
  fold_left (fun s op => perform op s) ops this.

(** What a request handled by the API router leaves behind: the answer
    carries the three cross-origin headers first, a failure status comes
    with an unchanged service, and so does a GET. *)
Definition Harmless (method : string) (this : TaskService)
    (result : Outcome Response * TaskService) : Prop :=
  exists r this',
    result = (Return r, this')
    /\ firstn 3 (headers r) = DEFAULT_CORS_HEADERS
    /\ ((400 <= status r)%Z -> this' = this)
    /\ (method = "GET" -> this' = this).

(** An attribute value that [renderElement] writes out, by name alone or
    with a value. *)
Definition isRendered (v : ShoelaceHTMX.AttrValue) : bool :=
  match v with
  | ShoelaceHTMX.ABool false | ShoelaceHTMX.ANull | ShoelaceHTMX.AUndefined => false
  | _ => true
  end.

(** The same attribute with an empty text in place of its value. *)
Definition withoutValue (v : ShoelaceHTMX.AttrValue) : ShoelaceHTMX.AttrValue :=
  match v with
  | ShoelaceHTMX.AString _ | ShoelaceHTMX.ANumber _ | ShoelaceHTMX.AOther _ =>
      ShoelaceHTMX.AString ""
  | _ => v
  end.

(** Attribute names free of angle brackets. *)
Definition plainNames (attributes : ShoelaceHTMX.Attributes) : Prop :=
  Forall (fun e => count "<" (fst e) = 0 /\ count ">" (fst e) = 0) attributes.

(** A style sheet as [serveFile] may answer it, with a type of its own
    under a lower-case name and an entity tag. *)
Definition styleSheet : Response :=
  mkResponse (Some "body{margin:0}") 200
    [("content-type", "text/plain"); ("etag", "W/1a2b")].

Definition styleSheetRequest : Request :=
  mkRequest "GET" "/styles.css" [] (Return []).

(** How many entries of a header list go by a name, without regard to
    letter case. *)
Definition headerCount (name : string) (hs : Entries) : nat :=
  List.length (filter (fun e => sameName name (fst e)) hs).

(** The four names [serveStaticFile] sets. *)
Definition isSetByServer (name : string) : bool :=
  sameName name "Content-Type"
  || existsb (fun e => sameName name (fst e)) DEFAULT_CORS_HEADERS.

(** * Properties *)

(** ** The model at work *)

Example trim_padded : trim ("  Buy milk " ++ nl) = "Buy milk".
Proof. reflexivity. Qed.

Example split_edit_path :
  split "/" "/api/tasks/12/edit" = [""; "api"; "tasks"; "12"; "edit"].
Proof. reflexivity. Qed.

Example seeded_ids :
  map id (JsMap.values (taskStore exampleService)) = ["1"; "2"; "3"].
Proof. reflexivity. Qed.

(** The seeded list, newest first: task 2 is dated one day back. *)
Example seeded_list_order : map id (getAllTasks None exampleService) = ["3"; "1"; "2"].
Proof. reflexivity. Qed.

Example seeded_list_completed :
  map id (getAllTasks (Some "completed") exampleService) = ["2"]
  /\ map id (getAllTasks (Some "active") exampleService) = ["3"; "1"].
Proof. split; reflexivity. Qed.

Example first_created_task :
  fst (createTask (mkData (Str " Buy milk ") (Str "") (Str "low")) None None None 2000
         exampleService)
  = Return (mkTask "4" "Buy milk" "" "low" false 2000).
Proof. reflexivity. Qed.

Example create_rejects_unknown_priority :
  createTask (mkData (Str "Buy milk") (Str "") (Str "urgent")) None None None 2000
    exampleService
  = (Throw "Invalid task data: Priority must be one of low, medium, high.",
     exampleService).
Proof. reflexivity. Qed.

Example script_title_rendered_escaped :
  includes (taskToHtml exampleScriptTask) "<script>" = false
  /\ includes (taskToHtml exampleScriptTask) "&lt;script&gt;alert(1)&lt;/script&gt;" = true.
Proof. split; vm_compute; reflexivity. Qed.

(** GET [/api/tasks/999/edit] for a task that was never created. *)
Example edit_form_of_unknown_task :
  fst (handleApiRequest (mkRequest "GET" "/api/tasks/999/edit" [] (Return []))
         "/api/tasks/999/edit" "GET" 0 exampleService)
  = Return (alertResponse "Task not found." 404 "danger").
Proof. reflexivity. Qed.

(** DELETE [/api/tasks/1], then GET [/api/tasks/1]. *)
Example delete_then_get :
  let req := mkRequest "DELETE" "/api/tasks/1" [] (Return []) in
  let (r1, this1) := handleApiRequest req "/api/tasks/1" "DELETE" 0 exampleService in
  let (r2, _) := handleApiRequest req "/api/tasks/1" "GET" 0 this1 in
  r1 = Return (mkResponse None 204 DEFAULT_CORS_HEADERS)
  /\ r2 = Return (alertResponse "Task not found." 404 "danger").
Proof. split; reflexivity. Qed.

(** ** Facts about strings *)

Section StringFacts.

Lemma append_empty_r (s : string) : s ++ "" = s.
Proof. induction s as [|c s IH]; simpl; [reflexivity | now rewrite IH]. Qed.

Lemma append_assoc (s1 s2 s3 : string) : (s1 ++ s2) ++ s3 = s1 ++ (s2 ++ s3).
Proof. induction s1 as [|c s1 IH]; simpl; [reflexivity | now rewrite IH]. Qed.

Lemma template_cons (p : string) (ps : list string) :
  template (p :: ps) = p ++ template ps.
Proof.
  unfold template. destruct ps as [|p' ps]; simpl.
  - now rewrite append_empty_r.
  - reflexivity.
Qed.

Lemma template_app (ps qs : list string) :
  template (ps ++ qs)%list = template ps ++ template qs.
Proof.
  induction ps as [|p ps IH].
  - reflexivity.
  - change ((p :: ps) ++ qs)%list with (p :: (ps ++ qs))%list.
      now rewrite !template_cons, IH, append_assoc.
Qed.

Lemma count_app (c : ascii) (s1 s2 : string) :
  count c (s1 ++ s2) = count c s1 + count c s2.
Proof. induction s1 as [|c' s1 IH]; simpl; [reflexivity | rewrite IH; lia]. Qed.

Lemma count_template (c : ascii) (ps : list string) :
  count c (template ps) = list_sum (map (count c) ps).
Proof.
  induction ps as [|p ps IH]; [reflexivity |].
  rewrite template_cons, count_app, IH. reflexivity.
Qed.

End StringFacts.

(** ** Scanning for an opening script tag *)

Section ScriptTagFacts.

Import ScriptTag.

Lemma run_app (q : nat) (s1 s2 : string) : run q (s1 ++ s2) = run (run q s1) s2.
Proof. revert q; induction s1 as [|c s1 IH]; intros q; simpl; [reflexivity | apply IH]. Qed.

Lemma run_sink (s : string) : run 8 s = 8.
Proof. induction s as [|c s IH]; simpl; [reflexivity | exact IH]. Qed.

Lemma run_pattern (q : nat) : run q pattern = 8.
Proof. do 9 (destruct q as [|q]; [reflexivity |]). reflexivity. Qed.

(** The matcher reaches its final state on every text that holds the
    pattern. *)
Lemma occurs_run (s : string) : occurs pattern s -> run 0 s = 8.
Proof.
  intros (pre & post & ->).
  now rewrite run_app, run_app, run_pattern, run_sink.
Qed.

Lemma run_escapeChar (c : ascii) : run 0 (escapeChar c) = 0.
Proof. destruct c as [[] [] [] [] [] [] [] []]; reflexivity. Qed.

Lemma run_htmlEscape (s : string) : run 0 (htmlEscape s) = 0.
Proof.
  induction s as [|c s IH]; simpl; [reflexivity |].
  now rewrite run_app, run_escapeChar.
Qed.

Lemma run_template (ps : list string) :
  Forall (fun p => run 0 p = 0) ps -> run 0 (template ps) = 0.
Proof.
  induction 1 as [|p ps Hp _ IH]; [reflexivity |].
  now rewrite template_cons, run_app, Hp.
Qed.

Ltac pieces :=
  repeat first
      [ apply Forall_nil
      | apply Forall_cons;
        [ first [ reflexivity | apply run_htmlEscape ] | ] ].

Lemma run_taskToHtml (task : Task) : run 0 (taskToHtml task) = 0.
Proof.
  unfold taskToHtml. apply run_template.
  destruct (completed task), (priority task =? "high"),
      (priority task =? "medium"); pieces.
Qed.

Lemma run_taskEditFormHtml (task : Task) : run 0 (taskEditFormHtml task) = 0.
Proof. unfold taskEditFormHtml. apply run_template. pieces. Qed.

End ScriptTagFacts.

(** ** The task renderer escapes what it interpolates *)

Lemma isMarkup_cases (c : ascii) :
  isMarkup c = true -> c = "<"%char \/ c = ">"%char \/ c = "034"%char \/ c = "'"%char.
Proof.
  unfold isMarkup. rewrite !orb_true_iff, !Ascii.eqb_eq. tauto.
Qed.

Lemma count_escapeChar (c c' : ascii) :
  isMarkup c = true -> count c (escapeChar c') = 0.
Proof.
  intros H. apply isMarkup_cases in H.
  destruct H as [-> | [-> | [-> | ->]]];
    destruct c' as [[] [] [] [] [] [] [] []]; reflexivity.
Qed.

Lemma count_htmlEscape (c : ascii) (s : string) :
  isMarkup c = true -> count c (htmlEscape s) = 0.
Proof.
  intros H. induction s as [|c' s IH]; simpl; [reflexivity |].
  now rewrite count_app, count_escapeChar, IH.
Qed.

Lemma prefix_app (r s t : string) :
  String.prefix r s = true -> String.prefix r (s ++ t) = true.
Proof.
  revert s; induction r as [|c r IH]; intros s.
  - intros _. now destruct (s ++ t).
  - destruct s as [|c' s]; simpl; [discriminate |].
    destruct (ascii_dec c c'); [apply IH | discriminate].
Qed.

Lemma refsOnly_app (s1 s2 : string) :
  refsOnly s1 = true -> refsOnly s2 = true -> refsOnly (s1 ++ s2) = true.
Proof.
  intros H1 H2. revert H1. induction s1 as [|a s1 IH]; intros H1; [exact H2 |].
  change (String a s1 ++ s2) with (String a (s1 ++ s2)).
  cbn [refsOnly] in *. apply andb_true_iff in H1 as [Ha H1].
  apply andb_true_iff; split; [| now apply IH].
  apply orb_true_iff in Ha as [Ha | Ha]; apply orb_true_iff; [now left | right].
  apply existsb_exists in Ha as (r & Hr & Hp).
  apply existsb_exists. exists r; split; [exact Hr |].
  now apply (prefix_app r (String a s1) s2).
Qed.

Lemma refsOnly_escapeChar (c : ascii) : refsOnly (escapeChar c) = true.
Proof. destruct c as [[] [] [] [] [] [] [] []]; reflexivity. Qed.

Lemma refsOnly_htmlEscape (s : string) : refsOnly (htmlEscape s) = true.
Proof.
  induction s as [|c s IH]; [reflexivity |].
  simpl. apply refsOnly_app; [apply refsOnly_escapeChar | exact IH].
Qed.

Lemma refsOnly_template (ps : list string) :
  Forall (fun p => refsOnly p = true) ps -> refsOnly (template ps) = true.
Proof.
  induction 1 as [|p ps Hp _ IH]; [reflexivity |].
  rewrite template_cons. now apply refsOnly_app.
Qed.

Lemma refsOnly_taskToHtml (task : Task) : refsOnly (taskToHtml task) = true.
Proof.
  unfold taskToHtml. apply refsOnly_template.
  destruct (completed task), (priority task =? "high"),
    (priority task =? "medium");
    repeat first
      [ apply Forall_nil
      | apply Forall_cons;
        [ first [ reflexivity | apply refsOnly_htmlEscape ] | ] ].
Qed.

Lemma count_taskToHtml (c : ascii) (task : Task) :
  isMarkup c = true ->
  count c (taskToHtml task) = count c (taskToHtml (withoutText task)).
Proof.
  intros Hc. unfold taskToHtml.
  rewrite !count_template.
  cbn [withoutText withText id title description priority completed createdAt map list_sum htmlEscape].
  rewrite !(count_htmlEscape c _ Hc).
  reflexivity.
Qed.

(** A run of pieces of a template occurs in the text of the template. *)
Lemma occurs_template_window (ps : list string) (a n : nat) :
  occurs (template (firstn n (skipn a ps))) (template ps).
Proof.
  exists (template (firstn a ps)), (template (skipn n (skipn a ps))).
  rewrite <- !template_app, firstn_skipn, firstn_skipn. reflexivity.
Qed.

(** C1: the fragment [taskToHtml] renders carries the title and the
    description, and carries them only in escaped form.  For every task,
    the escaped title is the content of the [span] of the check box and the
    escaped description the content of the block below it; the number of
    angle brackets and quotes in the fragment is that of the same task
    without its title and description, every ampersand of the fragment
    opens a character reference, and the text [<script>] does not occur in
    it; for the title [<script>alert(1)</script>] the fragment holds the
    escaped title instead. *)
Theorem taskToHtml_escapes_text (task : Task) :
  occurs (template [">"; htmlEscape (title task); "</span>"]) (taskToHtml task)
  /\ occurs (template [">"; nl; "          "; htmlEscape (description task); nl;
                       "        </div>"])
       (taskToHtml task)
  /\ (forall c, isMarkup c = true ->
        count c (taskToHtml task) = count c (taskToHtml (withoutText task)))
  /\ refsOnly (taskToHtml task) = true
  /\ ~ occurs "<script>" (taskToHtml task)
  /\ (title task = scriptTitle ->
      occurs (template [">"; "&lt;script&gt;alert(1)&lt;/script&gt;"; "</span>"])
        (taskToHtml task)).
Proof.
  assert (Htitle : occurs (template [">"; htmlEscape (title task); "</span>"])
                     (taskToHtml task)).
  { unfold taskToHtml.
    match goal with
    | |- occurs _ (template ?ps) => exact (occurs_template_window ps 47 3)
    end. }
  split; [exact Htitle |].
  split.
  { unfold taskToHtml.
    match goal with
    | |- occurs _ (template ?ps) => exact (occurs_template_window ps 57 6)
    end. }
  split; [intros c Hc; now apply count_taskToHtml |].
  split; [apply refsOnly_taskToHtml |].
  split.
  - intros Hocc. apply occurs_run in Hocc.
    rewrite run_taskToHtml in Hocc. discriminate Hocc.
  - intros Ht. rewrite Ht in Htitle. exact Htitle.
Qed.

Lemma taskToHtml_escapes_text_witness :
  ~ occurs "<script>" (taskToHtml exampleScriptTask)
  /\ occurs (template [">"; "&lt;script&gt;alert(1)&lt;/script&gt;"; "</span>"])
       (taskToHtml exampleScriptTask)
  /\ occurs (template [">"; nl; "          "; "a &amp; b"; nl; "        </div>"])
       (taskToHtml exampleScriptTask).
Proof.
  destruct (taskToHtml_escapes_text exampleScriptTask)
    as (_ & Hdescription & _ & _ & Hno & Hesc).
  split; [exact Hno |]. split; [exact (Hesc eq_refl) | exact Hdescription].
Defined.

(** The edit form is free of the text [<script>] as well. *)
Lemma taskEditFormHtml_no_script (task : Task) :
  ~ occurs "<script>" (taskEditFormHtml task).
Proof.
  intros Hocc. apply occurs_run in Hocc.
  rewrite run_taskEditFormHtml in Hocc. discriminate Hocc.
Qed.

(** ** The store as a map *)

Section MapFacts.

Import JsMap.

Lemma get_set_eq (k : TaskId) (v : Task) (m : JsMap.t) : get k (set k v m) = Some v.
Proof.
  induction m as [|[k' v'] m IH]; simpl.
  - now rewrite String.eqb_refl.
  - destruct (String.eqb_spec k k') as [->|Hne]; simpl.
    + now rewrite String.eqb_refl.
    + apply String.eqb_neq in Hne. now rewrite Hne.
Qed.

Lemma get_set_ne (k k' : TaskId) (v : Task) (m : JsMap.t) :
  k <> k' -> get k' (set k v m) = get k' m.
Proof.
  intros Hne. induction m as [|[k0 v0] m IH]; simpl.
  - apply not_eq_sym, String.eqb_neq in Hne. now rewrite Hne.
  - destruct (String.eqb_spec k k0) as [->|Hk]; simpl.
    + apply not_eq_sym, String.eqb_neq in Hne. now rewrite Hne.
    + now rewrite IH.
Qed.

Lemma keys_set_present (k : TaskId) (v v0 : Task) (m : JsMap.t) :
  get k m = Some v0 -> keys (set k v m) = keys m.
Proof.
  induction m as [|[k' v'] m IH]; simpl; [discriminate |].
  destruct (String.eqb_spec k k') as [->|Hne]; simpl; [reflexivity |].
  intros H. f_equal. now apply IH.
Qed.

Lemma keys_set_absent (k : TaskId) (v : Task) (m : JsMap.t) :
  get k m = None -> keys (set k v m) = (keys m ++ [k])%list.
Proof.
  induction m as [|[k' v'] m IH]; simpl; [reflexivity |].
  destruct (String.eqb_spec k k') as [->|Hne]; simpl; [discriminate |].
  intros H. f_equal. now apply IH.
Qed.

Lemma get_None_keys (k : TaskId) (m : JsMap.t) : get k m = None <-> ~ In k (keys m).
Proof.
  induction m as [|[k' v'] m IH]; simpl; [tauto |].
  destruct (String.eqb_spec k k') as [->|Hne].
  - split; [discriminate | intros H; exfalso; apply H; now left].
  - rewrite IH. split; [intros H [E|E]; [now subst | now apply H] | tauto].
Qed.

Lemma get_In (k : TaskId) (v : Task) (m : JsMap.t) : get k m = Some v -> In (k, v) m.
Proof.
  induction m as [|[k' v'] m IH]; simpl; [discriminate |].
  destruct (String.eqb_spec k k') as [->|Hne].
  - intros [= ->]. now left.
  - intros H. right. now apply IH.
Qed.

Lemma In_get (k : TaskId) (v : Task) (m : JsMap.t) :
  NoDup (keys m) -> In (k, v) m -> get k m = Some v.
Proof.
  induction m as [|[k' v'] m IH]; simpl; [easy |].
  intros Hnd [E | Hin].
  - injection E as -> ->. now rewrite String.eqb_refl.
  - inversion Hnd as [|? ? Hk Hnd']; subst.
    destruct (String.eqb_spec k k') as [->|Hne].
    + exfalso. apply Hk. change k' with (fst (k', v)). now apply in_map.
    + now apply IH.
Qed.

Lemma In_set (k k' : TaskId) (v v' : Task) (m : JsMap.t) :
  In (k', v') (set k v m) -> (k', v') = (k, v) \/ In (k', v') m.
Proof.
  induction m as [|[k0 v0] m IH]; simpl.
  - intros [E | []]. now left.
  - destruct (String.eqb_spec k k0) as [->|Hne]; simpl.
    + intros [E | H]; [now left | now right; right].
    + intros [E | H]; [now right; left |].
      destruct (IH H) as [E | H']; [now left | now right; right].
Qed.

Lemma In_delete (k : TaskId) (e : TaskId * Task) (m : JsMap.t) :
  In e (delete k m) -> In e m.
Proof.
  induction m as [|[k0 v0] m IH]; simpl; [easy |].
  destruct (String.eqb_spec k k0) as [->|Hne]; simpl.
  - now right.
  - intros [E | H]; [now left | right; now apply IH].
Qed.

Lemma NoDup_keys_set (k : TaskId) (v : Task) (m : JsMap.t) :
  NoDup (keys m) -> NoDup (keys (set k v m)).
Proof.
  intros Hnd. destruct (get k m) as [v0|] eqn:Hg.
  - now rewrite (keys_set_present k v v0 m Hg).
  - rewrite (keys_set_absent k v m Hg).
    apply NoDup_rev in Hnd. rewrite <- (rev_involutive (keys m ++ [k])%list).
    apply NoDup_rev. rewrite rev_app_distr. simpl. constructor; [| exact Hnd].
    rewrite <- in_rev. now apply get_None_keys.
Qed.

Lemma NoDup_keys_delete (k : TaskId) (m : JsMap.t) :
  NoDup (keys m) -> NoDup (keys (delete k m)).
Proof.
  induction m as [|[k0 v0] m IH]; simpl; [easy |].
  intros Hnd. inversion Hnd as [|? ? Hk Hnd']; subst.
  destruct (String.eqb_spec k k0) as [->|Hne]; simpl; [exact Hnd' |].
  constructor; [| now apply IH].
  intros Hin. apply Hk. apply in_map_iff in Hin as ([k1 v1] & E & Hin).
  simpl in E; subst. change k0 with (fst (k0, v1)). apply in_map.
  now apply (In_delete k).
Qed.

(** Writing back the value that was there restores the map. *)
Lemma set_set_restore (k : TaskId) (v v0 : Task) (m : JsMap.t) :
  get k m = Some v0 -> set k v0 (set k v m) = m.
Proof.
  induction m as [|[k' v'] m IH]; simpl; [discriminate |].
  destruct (String.eqb_spec k k') as [->|Hne]; simpl.
  - intros [= ->]. now rewrite String.eqb_refl.
  - intros H. apply String.eqb_neq in Hne. rewrite Hne. f_equal. now apply IH.
Qed.

End MapFacts.

Lemma JsMap_get_entry (k : TaskId) (task : Task) (this : TaskService) :
  getTaskById k this = Some task -> In (k, task) (taskStore this).
Proof. apply get_In. Qed.

(** ** Toggling *)

Lemma withCompleted_twice (task : Task) :
  withCompleted (withCompleted task (negb (completed task)))
    (negb (completed (withCompleted task (negb (completed task))))) = task.
Proof. destruct task; unfold withCompleted; simpl. now rewrite negb_involutive. Qed.

Lemma toggle_present (id : TaskId) (this : TaskService) (task : Task) :
  getTaskById id this = Some task ->
  toggleTaskCompletion id this =
    (Return (Some (withCompleted task (negb (completed task)))),
     mkService (JsMap.set id (withCompleted task (negb (completed task))) (taskStore this))
       (nextId this)).
Proof.
  unfold getTaskById, toggleTaskCompletion, bind, storeGet. intros ->. reflexivity.
Qed.

Lemma toggle_absent (id : TaskId) (this : TaskService) :
  getTaskById id this = None -> toggleTaskCompletion id this = (Return None, this).
Proof.
  unfold getTaskById, toggleTaskCompletion, bind, storeGet. intros ->. reflexivity.
Qed.

(** C4: [toggleTaskCompletion] is an involution.  On an id of the store it
    returns the task with its flag flipped and stores it; a second call
    returns the original task and leaves the store as it was before the
    first.  On an id that is not in the store it returns [undefined] and
    changes nothing. *)
Theorem toggleTaskCompletion_involution (id : TaskId) (this : TaskService) :
  match getTaskById id this with
  | Some task =>
      exists flipped this1,
        toggleTaskCompletion id this = (Return (Some flipped), this1)
        /\ completed flipped = negb (completed task)
        /\ getTaskById id this1 = Some flipped
        /\ toggleTaskCompletion id this1 = (Return (Some task), this)
  | None => toggleTaskCompletion id this = (Return None, this)
  end.
Proof.
  destruct (getTaskById id this) as [task|] eqn:Hget; [| now apply toggle_absent].
  eexists _, _. split; [exact (toggle_present _ _ _ Hget) |].
  split; [reflexivity |].
  assert (Hget1 : getTaskById id
            (mkService (JsMap.set id (withCompleted task (negb (completed task)))
                          (taskStore this)) (nextId this))
          = Some (withCompleted task (negb (completed task))))
    by apply get_set_eq.
  split; [exact Hget1 |].
  rewrite (toggle_present _ _ _ Hget1). cbn [taskStore nextId].
  rewrite withCompleted_twice, (set_set_restore _ _ _ _ Hget).
  now destruct this.
Qed.

(** C9: on an id of the store, [toggleTaskCompletion] replaces the task by
    one that differs from it in [completed] only, and leaves every other
    task, the order of the entries and the id counter as they were. *)
Theorem toggleTaskCompletion_frame (id0 : TaskId) (this : TaskService) (task : Task) :
  getTaskById id0 this = Some task ->
  exists updated this',
    toggleTaskCompletion id0 this = (Return (Some updated), this')
    /\ getTaskById id0 this' = Some updated
    /\ completed updated = negb (completed task)
    /\ id updated = id task
    /\ title updated = title task
    /\ description updated = description task
    /\ priority updated = priority task
    /\ createdAt updated = createdAt task
    /\ (forall id', id' <> id0 -> getTaskById id' this' = getTaskById id' this)
    /\ JsMap.keys (taskStore this') = JsMap.keys (taskStore this)
    /\ nextId this' = nextId this.
Proof.
  intros Hget. eexists _, _. split; [exact (toggle_present _ _ _ Hget) |].
  split; [apply get_set_eq |].
  repeat (split; [reflexivity |]).
  split; [| split; [| reflexivity]].
  - intros id' Hne. apply get_set_ne. now apply not_eq_sym.
  - cbn [taskStore]. now apply (keys_set_present _ _ task).
Qed.

Lemma toggleTaskCompletion_frame_witness :
  exists updated this',
    toggleTaskCompletion "1" exampleService = (Return (Some updated), this')
    /\ getTaskById "1" this' = Some updated
    /\ completed updated = negb false
    /\ id updated = "1"
    /\ title updated = "Complete the project setup"
    /\ description updated = "Initial setup for the Shoelace and HTMX demo"
    /\ priority updated = "medium"
    /\ createdAt updated = 1000%Z
    /\ (forall id', id' <> "1" -> getTaskById id' this' = getTaskById id' exampleService)
    /\ JsMap.keys (taskStore this') = JsMap.keys (taskStore exampleService)
    /\ nextId this' = nextId exampleService.
Proof.
  exact (toggleTaskCompletion_frame "1" exampleService
           (mkTask "1" "Complete the project setup"
              "Initial setup for the Shoelace and HTMX demo" "medium" false 1000)
           eq_refl).
Defined.

(** ** Trimming *)

Lemma trimStart_blank (s : string) : trimStart s = "" <-> blank s = true.
Proof.
  induction s as [|c s IH]; simpl; [tauto |].
  destruct (isWhiteSpace c); simpl; [exact IH | split; discriminate].
Qed.

Lemma trimStart_head (s : string) (c : ascii) (r : string) :
  trimStart s = String c r -> isWhiteSpace c = false.
Proof.
  induction s as [|c' s IH]; simpl; [discriminate |].
  destruct (isWhiteSpace c') eqn:Hc'; [exact IH |].
  now intros [= <- _].
Qed.

Lemma trimEnd_blank (s : string) : trimEnd s = "" <-> blank s = true.
Proof.
  induction s as [|c s IH]; simpl; [tauto |].
  destruct (trimEnd s) as [|c' r].
  - destruct (isWhiteSpace c); simpl; [tauto |].
    split; discriminate.
  - split; [discriminate |].
    intros H. apply andb_true_iff in H as [_ H]. apply IH in H. discriminate H.
Qed.

Lemma trimEnd_cons (c : ascii) (s : string) :
  isWhiteSpace c = false -> trimEnd (String c s) = String c (trimEnd s).
Proof. intros Hc. simpl. rewrite Hc. now destruct (trimEnd s). Qed.

Lemma trimEnd_idempotent (s : string) : trimEnd (trimEnd s) = trimEnd s.
Proof.
  induction s as [|c s IH]; [reflexivity |].
  simpl. destruct (trimEnd s) as [|c' r] eqn:Hr.
  - destruct (isWhiteSpace c) eqn:Hc; [reflexivity |].
    simpl. now rewrite Hc.
  - change (trimEnd (String c (String c' r))) with
      (match trimEnd (String c' r) with
       | EmptyString => if isWhiteSpace c then EmptyString else String c EmptyString
       | r' => String c r'
       end).
    now rewrite IH.
Qed.

Lemma trim_blank (s : string) : trim s = "" <-> blank s = true.
Proof.
  unfold trim. rewrite trimEnd_blank. split.
  - intros H. destruct (trimStart s) as [|c r] eqn:Hs.
    + now apply trimStart_blank.
    + apply trimStart_head in Hs. simpl in H. now rewrite Hs in H.
  - intros H. apply trimStart_blank in H. now rewrite H.
Qed.

(** [trim] leaves a trimmed string as it is. *)
Lemma trim_idempotent (s : string) : trim (trim s) = trim s.
Proof.
  unfold trim. destruct (trimStart s) as [|c r] eqn:Hs; [reflexivity |].
  pose proof (trimStart_head _ _ _ Hs) as Hc.
  rewrite (trimEnd_cons c r Hc). simpl trimStart. rewrite Hc.
  rewrite <- (trimEnd_cons c r Hc). apply trimEnd_idempotent.
Qed.

(** ** What [createTask] and [updateTask] do *)

Lemma includes_priorities (v : Value) :
  Array_includes TASK_PRIORITIES v = true <->
  v = Str "low" \/ v = Str "medium" \/ v = Str "high".
Proof.
  destruct v as [| | b | n | s]; simpl;
    try (split; [discriminate | intros [H | [H | H]]; discriminate H]).
  rewrite !orb_true_iff, !String.eqb_eq. split.
  - intros [-> | [-> | [-> | H]]]; auto. discriminate H.
  - intros [[= ->] | [[= ->] | [= ->]]]; auto.
Qed.

(** A call [createTask(data)] either throws a validation error and changes
    nothing, or stores a fresh task under the next id of the counter. *)
Lemma createTask_cases (data : TaskData) (now : Z) (this : TaskService) :
  (exists message,
     createTask data None None None now this = (Throw message, this)
     /\ isValidationMessage message = true)
  \/ (createTask data None None None now this =
        (Return (createdTask data now this),
         mkService (JsMap.set (Number_toString (nextId this)) (createdTask data now this)
                      (taskStore this)) (Number_add (nextId this) 1))
      /\ (exists s, data_title data = Str s /\ blank s = false)
      /\ (exists d, data_description data = Str d)
      /\ Array_includes TASK_PRIORITIES (data_priority data) = true).
Proof.
  destruct data as [t d p].
  unfold createTask, createdTask, bind, throwIf;
    cbn [data_title data_description data_priority].
  destruct t as [| | tb | tn | s]; cbn [truthy isString asString negb orb];
    try (left; eexists; split; reflexivity).
  - destruct tb; left; eexists; split; reflexivity.
  - destruct (tn =? 0)%Z; left; eexists; split; reflexivity.
  - destruct (s =? "") eqn:Es; [left; eexists; split; reflexivity |].
    destruct (trim s =? "") eqn:Et; [left; eexists; split; reflexivity |].
    destruct (Array_includes TASK_PRIORITIES p) eqn:Ep;
      [| left; eexists; split; reflexivity].
    destruct d as [| | db | dn | ds]; try (left; eexists; split; reflexivity).
    right. split; [reflexivity |]. split; [| split; [now eexists | reflexivity]].
    exists s. split; [reflexivity |].
    destruct (blank s) eqn:Hb; [| reflexivity].
    apply trim_blank in Hb. rewrite Hb in Et. discriminate Et.
Qed.

Lemma updateTask_absent (id0 : TaskId) (data : TaskData) (this : TaskService) :
  getTaskById id0 this = None -> updateTask id0 data this = (Return None, this).
Proof.
  unfold getTaskById, updateTask, bind, storeGet. intros ->. reflexivity.
Qed.

(** On an id of the store, [updateTask] either throws a validation error
    and changes nothing, or replaces the task by the merged record; in the
    second case every field of [data] is left out or valid. *)
Lemma updateTask_cases (id0 : TaskId) (data : TaskData) (this : TaskService) (task : Task) :
  getTaskById id0 this = Some task ->
  (exists message,
     updateTask id0 data this = (Throw message, this)
     /\ isValidationMessage message = true)
  \/ (updateTask id0 data this =
        (Return (Some (updatedTask task data)),
         mkService (JsMap.set id0 (updatedTask task data) (taskStore this)) (nextId this))
      /\ (data_title data = Undefined
          \/ exists s, data_title data = Str s /\ blank s = false)
      /\ (data_priority data = Undefined
          \/ Array_includes TASK_PRIORITIES (data_priority data) = true)
      /\ (data_description data = Undefined
          \/ exists d, data_description data = Str d)).
Proof.
  unfold getTaskById, updateTask, updatedTask, bind, storeGet, throwIf. intros ->.
  destruct data as [t d p]; cbn [data_title data_description data_priority].
  assert (Ht : (isDefined t && (negb (isString t) || (trim (asString t) =? "")) = true)
               \/ (isDefined t && (negb (isString t) || (trim (asString t) =? "")) = false
                   /\ (t = Undefined \/ exists s, t = Str s /\ blank s = false))).
  { destruct t as [| | tb | tn | s]; cbn [isDefined isString asString negb orb andb]; auto.
    destruct (trim s =? "") eqn:Et; auto. right. split; [reflexivity |].
    right. exists s. split; [reflexivity |].
    destruct (blank s) eqn:Hb; [| reflexivity].
    apply trim_blank in Hb. rewrite Hb in Et. discriminate Et. }
  destruct Ht as [-> | [-> Ht]]; [left; eexists; split; reflexivity |].
  destruct (isDefined p && negb (Array_includes TASK_PRIORITIES p)) eqn:Ep;
    [left; eexists; split; reflexivity |].
  destruct (isDefined d && negb (isString d)) eqn:Ed;
    [left; eexists; split; reflexivity |].
  right. split; [reflexivity |]. split; [exact Ht |]. split.
  - destruct p; auto; right; cbn [isDefined andb] in Ep;
      now apply negb_false_iff in Ep.
  - destruct d; try discriminate Ed; eauto.
Qed.

(** ** Validation failures of an update *)

(** C10: on an id of the store, an update with a field that breaks a
    validation rule throws the validation error and leaves the whole
    service, stored task included, exactly as it was. *)
Theorem updateTask_validation_atomic (id0 : TaskId) (data : TaskData)
    (this : TaskService) (task : Task) :
  getTaskById id0 this = Some task ->
  UpdateViolation data ->
  exists message,
    updateTask id0 data this = (Throw message, this)
    /\ isValidationMessage message = true
    /\ getTaskById id0 this = Some task.
Proof.
  intros Hget Hbad.
  destruct (updateTask_cases id0 data this task Hget)
    as [(message & Hthrow & Hmsg) | (_ & Ht & Hp & Hd)].
  - exists message. auto.
  - exfalso. destruct Hbad as [s Hs Hblank | Hdef Hstr | Hdef Hin | Hdef Hstr].
    + destruct Ht as [Ht | (s' & Ht & Hb)]; rewrite Hs in Ht; [discriminate Ht |].
      injection Ht as <-. apply trim_blank in Hblank. rewrite Hblank in Hb.
      discriminate Hb.
    + destruct Ht as [Ht | (s' & Ht & _)]; [contradiction |].
      rewrite Ht in Hstr. discriminate Hstr.
    + destruct Hp as [Hp | Hp]; [contradiction |].
      apply includes_priorities in Hp. apply Hin.
      destruct Hp as [E | [E | E]]; rewrite E; simpl; auto.
    + destruct Hd as [Hd | (d & Hd)]; [contradiction |].
      rewrite Hd in Hstr. discriminate Hstr.
Qed.

Lemma updateTask_validation_atomic_witness :
  exists message,
    updateTask "1" (mkData (Str "   ") Undefined (Str "urgent")) exampleService
      = (Throw message, exampleService)
    /\ isValidationMessage message = true
    /\ getTaskById "1" exampleService
       = Some (mkTask "1" "Complete the project setup"
                 "Initial setup for the Shoelace and HTMX demo" "medium" false 1000).
Proof.
  apply (updateTask_validation_atomic "1" (mkData (Str "   ") Undefined (Str "urgent"))
           exampleService
           (mkTask "1" "Complete the project setup"
              "Initial setup for the Shoelace and HTMX demo" "medium" false 1000)).
  - reflexivity.
  - apply (title_empty_after_trim _ "   "); reflexivity.
Defined.

(** ** Runs of the service *)

Lemma Number_toString_inj (n m : N) : Number_toString n = Number_toString m -> n = m.
Proof.
  unfold Number_toString. intros H.
  apply (f_equal NilEmpty.uint_of_string) in H. rewrite !NilEmpty.usu in H.
  injection H as H. apply (f_equal N.of_uint) in H.
  now rewrite !Unsigned.of_to in H.
Qed.

Lemma newTaskService_eq (now1 now2 now3 : Z) :
  newTaskService now1 now2 now3 =
    mkService
      [("1", mkTask "1" "Complete the project setup"
               "Initial setup for the Shoelace and HTMX demo" "medium" false now1);
       ("2", mkTask "2" "Research Web Components"
               "Look into Shoelace and other component libraries" "low" true
               (now2 - 86400000)%Z);
       ("3", mkTask "3" "Implement server endpoints"
               "Create the API for task management" "high" false now3)]
      4.
Proof. reflexivity. Qed.

Lemma blank_trim (s : string) : blank s = false -> blank (trim s) = false.
Proof.
  intros H. destruct (blank (trim s)) eqn:Hb; [| reflexivity].
  apply trim_blank in Hb. rewrite trim_idempotent in Hb.
  apply trim_blank in Hb. now rewrite Hb in H.
Qed.

(** Below 2^53 the counter moves by one; at 2^53 it stays. *)
Lemma Number_add_exact (a b : N) :
  (a + b <= counterLimit)%N -> Number_add a b = (a + b)%N.
Proof.
  unfold Number_add, roundToDouble, counterLimit. intros H.
  apply N.leb_le in H. now rewrite H.
Qed.

Lemma Number_add_limit : Number_add counterLimit 1 = counterLimit.
Proof. vm_compute. reflexivity. Qed.

Lemma Number_add_counter (n : N) :
  (n <= counterLimit)%N ->
  (n <= Number_add n 1 <= counterLimit)%N
  /\ ((n < counterLimit)%N -> Number_add n 1 = (n + 1)%N).
Proof.
  intros Hn. destruct (N.eq_dec n counterLimit) as [-> | Hne].
  - rewrite Number_add_limit. split; [lia |]. intros H. lia.
  - rewrite Number_add_exact by lia. split; [lia | reflexivity].
Qed.

Lemma entryOk_mono (next next' : N) (k : TaskId) (task : Task) :
  (next <= next')%N -> entryOk next k task -> entryOk next' k task.
Proof.
  intros Hle (Hid & (n & Hn & Hlt & Hk) & Hb & Ht).
  split; [exact Hid |].
  split; [exists n; split; [exact Hn | split; [lia | exact Hk]] |]. now split.
Qed.

Lemma Invariant_new (now1 now2 now3 : Z) : Invariant (newTaskService now1 now2 now3).
Proof.
  rewrite newTaskService_eq. constructor; cbn [nextId taskStore].
  - unfold counterLimit. lia.
  - unfold JsMap.keys; simpl. repeat constructor; simpl; intuition discriminate.
  - intros k task [E | [E | [E | []]]]; injection E as <- <-;
      (split; [reflexivity |]); (split; [| split; reflexivity]).
    + exists 1%N. split; [lia | split; [left; lia | reflexivity]].
    + exists 2%N. split; [lia | split; [left; lia | reflexivity]].
    + exists 3%N. split; [lia | split; [left; lia | reflexivity]].
Qed.

Lemma Invariant_set (this : TaskService) (k : TaskId) (task : Task) (next : N) :
  Invariant this -> (nextId this <= next <= counterLimit)%N -> entryOk next k task ->
  Invariant (mkService (JsMap.set k task (taskStore this)) next).
Proof.
  intros [Hc Hk He] Hle Hok. constructor; cbn [nextId taskStore].
  - lia.
  - now apply NoDup_keys_set.
  - intros k' task' Hin. apply In_set in Hin as [E | Hin].
    + now injection E as -> ->.
    + apply (entryOk_mono (nextId this)); [lia | now apply He].
Qed.

Lemma Invariant_perform (op : Op) (this : TaskService) :
  Invariant this -> Invariant (perform op this).
Proof.
  intros Hinv. destruct op as [data now | id0 data | id0 | id0]; cbn [perform].
  - destruct (createTask_cases data now this)
      as [(message & -> & _) | (-> & (s & Hs & Hb) & _ & _)]; [exact Hinv |].
    cbn [snd]. assert (Hc : (4 <= nextId this <= counterLimit)%N) by now destruct Hinv.
    destruct (Number_add_counter (nextId this) (proj2 Hc)) as [Hadd Hbelow].
    apply Invariant_set; [exact Hinv | lia |].
    unfold createdTask, entryOk; cbn [id title]. rewrite Hs; cbn [asString].
    split; [reflexivity |]. split; [| split; [now apply blank_trim | apply trim_idempotent]].
    exists (nextId this). split; [lia |]. split; [| reflexivity].
    destruct (N.eq_dec (nextId this) counterLimit) as [E | Hne]; [now right | left].
    rewrite Hbelow by lia. lia.
  - destruct (getTaskById id0 this) as [task|] eqn:Hget;
      [| now rewrite updateTask_absent].
    destruct (updateTask_cases id0 data this task Hget)
      as [(message & -> & _) | (-> & Ht & _ & _)]; [exact Hinv |].
    cbn [snd]. apply Invariant_set; [exact Hinv | destruct Hinv; lia |].
    destruct Hinv as [_ _ He]. apply JsMap_get_entry in Hget.
    destruct (He _ _ Hget) as (Hid & Hn & Hb & Htrim).
    unfold updatedTask, entryOk, withText; cbn [id title].
    split; [exact Hid |]. split; [exact Hn |].
    destruct Ht as [-> | (s & -> & Hs)]; cbn [isDefined asString].
    + now split.
    + split; [now apply blank_trim | apply trim_idempotent].
  - destruct (getTaskById id0 this) as [task|] eqn:Hget;
      [| now rewrite toggle_absent].
    rewrite (toggle_present _ _ _ Hget). cbn [snd].
    apply Invariant_set; [exact Hinv | destruct Hinv; lia |].
    destruct Hinv as [_ _ He]. apply JsMap_get_entry in Hget.
    exact (He _ _ Hget).
  - destruct Hinv as [Hc Hk He]. constructor; cbn [deleteTask storeDelete snd nextId taskStore].
    + exact Hc.
    + now apply NoDup_keys_delete.
    + intros k task Hin. apply He. now apply (In_delete id0).
Qed.

Lemma reachable_Invariant (this : TaskService) : reachable this -> Invariant this.
Proof.
  induction 1 as [now1 now2 now3 | op this _ IH].
  - apply Invariant_new.
  - now apply Invariant_perform.
Qed.

(** ** Stored titles *)

Lemma createTask_blank_title (s : string) (description priority : Value)
    (id0 : option TaskId) (completed0 : option bool) (createdAt0 : option Z)
    (now : Z) (this : TaskService) :
  trim s = "" ->
  createTask (mkData (Str s) description priority) id0 completed0 createdAt0 now this
    = (Throw "Invalid task data: Title is required and cannot be empty.", this).
Proof.
  intros Ht. unfold createTask, bind, throwIf.
  cbn [data_title isString asString negb]. rewrite Ht. cbn [String.eqb].
  now rewrite orb_true_r.
Qed.

Lemma updateTask_blank_title (s : string) (description priority : Value)
    (id0 : TaskId) (this : TaskService) (task : Task) :
  getTaskById id0 this = Some task ->
  trim s = "" ->
  updateTask id0 (mkData (Str s) description priority) this
    = (Throw "Invalid task data: Title cannot be empty.", this).
Proof.
  unfold getTaskById, updateTask, bind, storeGet, throwIf. intros -> Ht.
  cbn [data_title isDefined isString asString negb andb orb]. rewrite Ht.
  reflexivity.
Qed.

(** C7: in every state the service reaches from its seeding by create,
    update, toggle and delete operations, the title of every stored task is
    not empty, not blank, and already trimmed; [createTask] and, on an id
    of the store, [updateTask] throw a validation error on a title that is
    empty after trimming, and change nothing.  On an id that is not in the
    store [updateTask] returns [undefined] and writes nothing. *)
Theorem stored_titles_trimmed_and_not_blank :
  (forall this k task,
      reachable this -> In (k, task) (taskStore this) ->
      title task <> "" /\ blank (title task) = false /\ trim (title task) = title task)
  /\ (forall s description priority now this,
        trim s = "" ->
        exists message,
          createTask (mkData (Str s) description priority) None None None now this
            = (Throw message, this)
          /\ isValidationMessage message = true)
  /\ (forall s description priority id0 this task,
        getTaskById id0 this = Some task ->
        trim s = "" ->
        exists message,
          updateTask id0 (mkData (Str s) description priority) this
            = (Throw message, this)
          /\ isValidationMessage message = true)
  /\ (forall data id0 this,
        getTaskById id0 this = None ->
        updateTask id0 data this = (Return None, this)).
Proof.
  split; [| split; [| split]].
  - intros this k task Hreach Hin.
    destruct (reachable_Invariant this Hreach) as [_ _ He].
    destruct (He k task Hin) as (_ & _ & Hb & Ht).
    split; [| now split]. intros E. rewrite E in Hb. discriminate Hb.
  - intros s description priority now this Ht. eexists. split.
    + now apply createTask_blank_title.
    + reflexivity.
  - intros s description priority id0 this task Hget Ht. eexists. split.
    + now apply (updateTask_blank_title s description priority id0 this task).
    + reflexivity.
  - intros data id0 this Hget. now apply updateTask_absent.
Qed.

Lemma stored_titles_trimmed_and_not_blank_witness :
  "Tea" <> "" /\ blank "Tea" = false /\ trim "Tea" = "Tea".
Proof.
  apply (proj1 stored_titles_trimmed_and_not_blank exampleRun "4"
           (mkTask "4" "Tea" "" "low" false 2000)).
  - unfold exampleRun, exampleService. repeat apply reachable_perform.
    apply reachable_new.
  - vm_compute. tauto.
Defined.

(** ** Identifiers *)

Lemma ids_of_values (this : TaskService) :
  Invariant this -> map id (JsMap.values (taskStore this)) = JsMap.keys (taskStore this).
Proof.
  intros [_ _ He]. unfold JsMap.values, JsMap.keys. rewrite map_map.
  apply map_ext_in. intros [k task] Hin. simpl. now destruct (He k task Hin).
Qed.

Lemma nextId_perform (op : Op) (this : TaskService) :
  (nextId this <= counterLimit)%N ->
  (nextId this <= nextId (perform op this) <= counterLimit)%N.
Proof.
  intros Hle. destruct op as [data now | id0 data | id0 | id0]; cbn [perform].
  - destruct (createTask_cases data now this) as [(message & -> & _) | (-> & _)];
      cbn [snd nextId]; [lia |].
    now destruct (Number_add_counter (nextId this) Hle).
  - destruct (getTaskById id0 this) as [task|] eqn:Hget.
    + destruct (updateTask_cases id0 data this task Hget)
        as [(message & -> & _) | (-> & _)]; cbn [snd nextId]; lia.
    + rewrite updateTask_absent by exact Hget. cbn [snd]. lia.
  - destruct (getTaskById id0 this) as [task|] eqn:Hget.
    + rewrite (toggle_present _ _ _ Hget). cbn [snd nextId]. lia.
    + rewrite toggle_absent by exact Hget. cbn [snd]. lia.
  - cbn [deleteTask storeDelete snd nextId]. lia.
Qed.

(** As long as the counter is below its limit, its numeral is the key of
    no stored task. *)
Lemma fresh_key (this : TaskService) :
  Invariant this -> (nextId this < counterLimit)%N ->
  getTaskById (Number_toString (nextId this)) this = None.
Proof.
  intros [_ _ He] Hlt. unfold getTaskById.
  destruct (JsMap.get _ _) as [task|] eqn:Hget; [| reflexivity].
  apply get_In in Hget. destruct (He _ _ Hget) as (_ & (n & Hn & Hb & E) & _).
  apply Number_toString_inj in E. lia.
Qed.

(** C3, as the code has it: the counter starts at 4, after the seeded ids
    1, 2 and 3, and no operation lowers it.  In every state reached from
    the seeding, the stored tasks have pairwise distinct ids, each stored
    under its own id, and a [createTask] that succeeds takes its id from
    the counter; that id is none of the seeded ids, and the key of the new
    task afterwards.  As long as the counter is below 2^53, the create
    advances it by one and the id is the id of no stored task. *)
Theorem created_ids_are_fresh :
  (forall now1 now2 now3,
      nextId (newTaskService now1 now2 now3) = 4%N
      /\ map id (JsMap.values (taskStore (newTaskService now1 now2 now3)))
         = ["1"; "2"; "3"])
  /\ (forall this,
        reachable this ->
        NoDup (map id (JsMap.values (taskStore this)))
        /\ (forall k task, In (k, task) (taskStore this) ->
              id task = k /\ getTaskById k this = Some task)
        /\ (forall op, (nextId this <= nextId (perform op this))%N)
        /\ (forall data now task this',
              createTask data None None None now this = (Return task, this') ->
              id task = Number_toString (nextId this)
              /\ (4 <= nextId this)%N
              /\ ~ In (id task) ["1"; "2"; "3"]
              /\ getTaskById (id task) this' = Some task
              /\ ((nextId this < counterLimit)%N ->
                  nextId this' = (nextId this + 1)%N
                  /\ ~ In (id task) (map id (JsMap.values (taskStore this)))))).
Proof.
  split; [intros now1 now2 now3; now rewrite newTaskService_eq |].
  intros this Hreach. pose proof (reachable_Invariant this Hreach) as Hinv.
  assert (Hc : (4 <= nextId this <= counterLimit)%N) by now destruct Hinv.
  split; [rewrite (ids_of_values this Hinv); now destruct Hinv |].
  split.
  { intros k task Hin. destruct Hinv as [_ Hk He].
    split; [now destruct (He k task Hin) | now apply In_get]. }
  split; [intros op; apply nextId_perform; lia |].
  intros data now task this' Hcreate.
  destruct (createTask_cases data now this) as [(message & E & _) | (E & _)];
    rewrite E in Hcreate; [discriminate Hcreate |].
  injection Hcreate as <- <-. cbn [createdTask id nextId].
  split; [reflexivity |]. split; [lia |]. split; [| split].
  - intros [E' | [E' | [E' | []]]];
      [ change "1" with (Number_toString 1) in E'
      | change "2" with (Number_toString 2) in E'
      | change "3" with (Number_toString 3) in E' ];
      apply Number_toString_inj in E'; lia.
  - apply get_set_eq.
  - intros Hlt. split; [now apply Number_add_counter |].
    rewrite (ids_of_values this Hinv). apply get_None_keys.
    now apply fresh_key.
Qed.

Lemma created_ids_are_fresh_witness :
  NoDup ["1"; "2"; "3"; "4"]
  /\ (forall k task, In (k, task) (taskStore exampleRun) ->
        id task = k /\ getTaskById k exampleRun = Some task)
  /\ (forall op, (nextId exampleRun <= nextId (perform op exampleRun))%N)
  /\ (forall data now task this',
        createTask data None None None now exampleRun = (Return task, this') ->
        id task = "5"
        /\ nextId this' = 6%N
        /\ ~ In (id task) ["1"; "2"; "3"; "4"]
        /\ getTaskById (id task) this' = Some task).
Proof.
  assert (Hreach : reachable exampleRun).
  { unfold exampleRun, exampleService. repeat apply reachable_perform.
    apply reachable_new. }
  destruct (proj2 created_ids_are_fresh exampleRun Hreach) as (Hnodup & Hown & Hmono & Hnew).
  split; [exact Hnodup |]. split; [exact Hown |]. split; [exact Hmono |].
  intros data now task this' Hcreate.
  destruct (Hnew data now task this' Hcreate) as (Hid & _ & _ & Hget & Hbelow).
  destruct (Hbelow eq_refl) as (Hnext & Hfresh).
  split; [exact Hid |]. split; [exact Hnext |]. split; [exact Hfresh | exact Hget].
Defined.

(** The run to the limit of the counter. *)
Lemma iter_create (data : TaskData) (now : Z) (this : TaskService) (k : N) :
  (exists task this', createTask data None None None now this = (Return task, this')) ->
  reachable this ->
  (nextId this + k <= counterLimit)%N ->
  reachable (N.iter k (perform (Create data now)) this)
  /\ nextId (N.iter k (perform (Create data now)) this) = (nextId this + k)%N.
Proof.
  intros Hvalid Hreach. induction k as [| k IH] using N.peano_ind; intros Hle.
  - cbn [N.iter]. split; [exact Hreach | lia].
  - rewrite N.iter_succ. destruct IH as [IHr IHn]; [lia |].
    split; [now apply reachable_perform |].
    cbn [perform].
    destruct (createTask_cases data now (N.iter k (perform (Create data now)) this))
      as [(message & E & _) | (E & _)].
    + destruct Hvalid as (task & this' & Hvalid).
      destruct (createTask_cases data now this) as [(m & E0 & _) | (_ & Ht & Hd & Hp)];
        [rewrite E0 in Hvalid; discriminate Hvalid |].
      exfalso. revert E. generalize (N.iter k (perform (Create data now)) this).
      intros that E. destruct data as [t d p].
      cbn [data_title data_description data_priority] in *.
      destruct Ht as (s & -> & Hb), Hd as (ds & ->).
      unfold createTask, bind, throwIf in E.
      cbn [data_title data_description data_priority truthy isString asString negb orb]
        in E.
      assert (Hs : (s =? "") = false)
        by (destruct s; [discriminate Hb | reflexivity]).
      assert (Ht : (trim s =? "") = false).
      { apply String.eqb_neq. intros Ht. apply trim_blank in Ht. congruence. }
      rewrite Hs, Ht, Hp in E. discriminate E.
    + rewrite E. cbn [snd nextId]. rewrite IHn.
      rewrite Number_add_exact by lia. lia.
Qed.

Lemma limitRun_reached : reachable limitRun /\ nextId limitRun = counterLimit.
Proof.
  unfold limitRun.
  destruct (iter_create (mkData (Str "Buy milk") (Str "") (Str "low")) 2000
              exampleService (counterLimit - 4)) as [Hr Hn].
  - eexists _, _. lazy. reflexivity.
  - apply reachable_new.
  - change (nextId exampleService) with 4%N. unfold counterLimit. lia.
  - split; [exact Hr |]. rewrite Hn.
    change (nextId exampleService) with 4%N. unfold counterLimit. lia.
Qed.

(** The counterexample to C3 as stated: once the counter has come to 2^53
    it stays there.  In the state after 2^53 - 4 creates, a create stores
    its task under the id 9007199254740992, and the next create is given
    the same id, the id of a task of the store, and replaces that task. *)
Lemma ids_repeat_at_the_limit :
  reachable limitRun
  /\ exists task1 this1 task2 this2,
       createTask (mkData (Str "Tea") (Str "") (Str "low")) None None None 3000 limitRun
         = (Return task1, this1)
       /\ createTask (mkData (Str "Jam") (Str "") (Str "low")) None None None 4000 this1
         = (Return task2, this2)
       /\ id task1 = "9007199254740992"
       /\ id task2 = id task1
       /\ In (id task2) (map id (JsMap.values (taskStore this1)))
       /\ getTaskById (id task1) this1 = Some task1
       /\ getTaskById (id task1) this2 = Some task2
       /\ task2 <> task1.
Proof.
  destruct limitRun_reached as [Hreach Hn]. split; [exact Hreach |].
  generalize dependent limitRun. intros this _ Hn.
  destruct (createTask_cases (mkData (Str "Tea") (Str "") (Str "low")) 3000 this)
    as [(m & E & Hm) | (E1 & _)].
  { unfold createTask, bind, throwIf in E. cbn in E. discriminate E. }
  unfold createdTask in E1. rewrite Hn, Number_add_limit in E1.
  cbn [data_title data_description data_priority asString] in E1.
  change (trim "Tea") with "Tea" in E1.
  match type of E1 with _ = (Return ?t, ?s) => exists t, s end.
  match type of E1 with
  | _ = (_, ?s) =>
      destruct (createTask_cases (mkData (Str "Jam") (Str "") (Str "low")) 4000 s)
        as [(m & E & Hm) | (E2 & _)]
  end.
  { unfold createTask, bind, throwIf in E. cbn in E. discriminate E. }
  unfold createdTask in E2. cbn [nextId taskStore] in E2.
  rewrite Number_add_limit in E2.
  cbn [data_title data_description data_priority asString] in E2.
  change (trim "Jam") with "Jam" in E2.
  match type of E2 with _ = (Return ?t, ?s) => exists t, s end.
  split; [exact E1 |]. split; [exact E2 |]. cbn [id].
  split; [vm_compute; reflexivity |]. split; [reflexivity |].
  unfold getTaskById. cbn [taskStore].
  split.
  { match type of E1 with
    | _ = (Return ?t, _) =>
        apply in_map_iff; exists t; split; [reflexivity |];
        apply in_map_iff; exists (Number_toString counterLimit, t);
        split; [reflexivity | apply get_In, get_set_eq]
    end. }
  split; [apply get_set_eq |]. split; [apply get_set_eq | discriminate].
Qed.

(** ** Sorting and filtering *)

Section Sorting.

Variable A : Type.
Variable key : A -> Z.

(** The comparator of [getAllTasks]: larger keys first. *)
Let compare (a b : A) : Z := (key b - key a)%Z.

Lemma sortInsert_Permutation (x : A) (l : list A) :
  Permutation (sortInsert compare x l) (x :: l).
Proof.
  induction l as [|y l IH]; simpl; [reflexivity |].
  destruct (compare x y <=? 0)%Z; [reflexivity |].
  rewrite IH. apply perm_swap.
Qed.

Lemma Array_sort_Permutation (l : list A) : Permutation (Array_sort compare l) l.
Proof.
  induction l as [|x l IH]; simpl; [reflexivity |].
  rewrite sortInsert_Permutation. now constructor.
Qed.

Lemma sortInsert_sorted (x : A) (l : list A) :
  StronglySorted (fun a b => (key a >= key b)%Z) l ->
  StronglySorted (fun a b => (key a >= key b)%Z) (sortInsert compare x l).
Proof.
  induction 1 as [|y l Hs IH Hy]; simpl.
  - constructor; constructor.
  - unfold compare at 1. destruct (Z.leb_spec (key y - key x) 0) as [Hle | Hgt].
    + constructor; [now constructor |].
      constructor; [lia |].
      apply Forall_forall. intros b Hb.
      rewrite Forall_forall in Hy. specialize (Hy b Hb). lia.
    + constructor; [exact IH |].
      apply Forall_forall. intros b Hb.
      apply (Permutation_in _ (sortInsert_Permutation x l)) in Hb.
      destruct Hb as [<- | Hb]; [lia |].
      rewrite Forall_forall in Hy. now apply Hy.
Qed.

Lemma Array_sort_sorted (l : list A) :
  StronglySorted (fun a b => (key a >= key b)%Z) (Array_sort compare l).
Proof.
  induction l as [|x l IH]; simpl; [constructor | now apply sortInsert_sorted].
Qed.

Lemma sorted_strict (l : list A) :
  NoDup (map key l) ->
  StronglySorted (fun a b => (key a >= key b)%Z) l ->
  StronglySorted (fun a b => (key a > key b)%Z) l.
Proof.
  intros Hnd Hs. induction Hs as [|x l Hs IH Hx]; [constructor |].
  inversion Hnd as [|? ? Hnotin Hnd']; subst.
  constructor; [now apply IH |].
  apply Forall_forall. intros b Hb.
  rewrite Forall_forall in Hx. specialize (Hx b Hb).
  assert (key x <> key b) by (intros E; apply Hnotin; rewrite E; now apply in_map).
  lia.
Qed.

Lemma filter_all (l : list A) : filter (fun _ => true) l = l.
Proof. induction l as [|x l IH]; simpl; [reflexivity | now rewrite IH]. Qed.

Lemma filter_split_Permutation (f : A -> bool) (l : list A) :
  Permutation (filter f l ++ filter (fun x => negb (f x)) l)%list l.
Proof.
  induction l as [|x l IH]; simpl; [reflexivity |].
  destruct (f x); simpl.
  - now constructor.
  - rewrite <- Permutation_middle. now constructor.
Qed.

End Sorting.

Lemma NoDup_map_injective {A B : Type} (f : A -> B) (l : list A) (x y : A) :
  NoDup (map f l) -> In x l -> In y l -> f x = f y -> x = y.
Proof.
  induction l as [|a l IH]; simpl; [easy |].
  intros Hnd Hx Hy E. inversion Hnd as [|? ? Hnotin Hnd']; subst.
  destruct Hx as [-> | Hx], Hy as [-> | Hy]; try reflexivity.
  - exfalso. apply Hnotin. rewrite E. now apply in_map.
  - exfalso. apply Hnotin. rewrite <- E. now apply in_map.
  - now apply IH.
Qed.

Lemma getAllTasks_all (this : TaskService) :
  getAllTasks None this =
    Array_sort (fun a b => (createdAt b - createdAt a)%Z) (JsMap.values (taskStore this)).
Proof. unfold getAllTasks. now rewrite filter_all. Qed.

Lemma getAllTasks_completed (this : TaskService) :
  getAllTasks (Some "completed") this =
    Array_sort (fun a b => (createdAt b - createdAt a)%Z)
      (filter completed (JsMap.values (taskStore this))).
Proof. unfold getAllTasks. f_equal. Qed.

Lemma getAllTasks_active (this : TaskService) :
  getAllTasks (Some "active") this =
    Array_sort (fun a b => (createdAt b - createdAt a)%Z)
      (filter (fun task => negb (completed task)) (JsMap.values (taskStore this))).
Proof. reflexivity. Qed.

(** C5: when the stored tasks have pairwise distinct [createdAt], the
    unfiltered list holds exactly the stored tasks, each one strictly newer
    than all that follow it. *)
Theorem getAllTasks_newest_first (this : TaskService) :
  NoDup (map createdAt (JsMap.values (taskStore this))) ->
  Permutation (getAllTasks None this) (JsMap.values (taskStore this))
  /\ StronglySorted (fun a b => (createdAt a > createdAt b)%Z) (getAllTasks None this).
Proof.
  intros Hnd. rewrite getAllTasks_all.
  pose proof (Array_sort_Permutation Task createdAt (JsMap.values (taskStore this))) as Hp.
  split; [exact Hp |].
  apply sorted_strict; [| apply Array_sort_sorted].
  apply (Permutation_NoDup (l := map createdAt (JsMap.values (taskStore this))));
    [| exact Hnd].
  apply Permutation_map. now symmetry.
Qed.

Lemma getAllTasks_newest_first_witness :
  Permutation (getAllTasks None exampleRun) (JsMap.values (taskStore exampleRun))
  /\ StronglySorted (fun a b => (createdAt a > createdAt b)%Z)
       (getAllTasks None exampleRun).
Proof.
  apply (getAllTasks_newest_first exampleRun).
  vm_compute. repeat constructor; simpl; intuition discriminate.
Defined.

(** C6: no task is both in the completed list and in the active list, and
    the ids of the two lists together are the ids of the unfiltered list,
    each as many times; where the stored ids are pairwise distinct, the
    two lists share no id either. *)
Theorem getAllTasks_completed_active_split (this : TaskService) :
  (forall task,
      In task (getAllTasks (Some "completed") this) ->
      In task (getAllTasks (Some "active") this) -> False)
  /\ Permutation
       (map id (getAllTasks (Some "completed") this)
        ++ map id (getAllTasks (Some "active") this))%list
       (map id (getAllTasks None this))
  /\ (NoDup (map id (JsMap.values (taskStore this))) ->
      forall i,
        In i (map id (getAllTasks (Some "completed") this)) ->
        In i (map id (getAllTasks (Some "active") this)) -> False).
Proof.
  rewrite getAllTasks_completed, getAllTasks_active, getAllTasks_all.
  set (vs := JsMap.values (taskStore this)).
  set (cmp := fun a b : Task => (createdAt b - createdAt a)%Z).
  assert (Hdone : forall task, In task (Array_sort cmp (filter completed vs)) ->
                    In task vs /\ completed task = true).
  { intros task Hin.
    apply (Permutation_in _ (Array_sort_Permutation Task createdAt _)) in Hin.
    now apply filter_In in Hin. }
  assert (Hactive : forall task,
             In task (Array_sort cmp (filter (fun t => negb (completed t)) vs)) ->
             In task vs /\ completed task = false).
  { intros task Hin.
    apply (Permutation_in _ (Array_sort_Permutation Task createdAt _)) in Hin.
    apply filter_In in Hin as [Hin Hc]. split; [exact Hin |].
    now apply negb_true_iff. }
  split; [| split].
  - intros task H1 H2. apply Hdone in H1 as [_ H1]. apply Hactive in H2 as [_ H2].
    rewrite H1 in H2. discriminate H2.
  - rewrite <- map_app. apply Permutation_map. subst cmp.
    rewrite (Array_sort_Permutation Task createdAt vs).
    rewrite <- (filter_split_Permutation Task completed vs) at 3.
    apply Permutation_app; apply Array_sort_Permutation.
  - intros Hnd i H1 H2.
    apply in_map_iff in H1 as (t1 & E1 & H1). apply in_map_iff in H2 as (t2 & E2 & H2).
    apply Hdone in H1 as [Hin1 Hc1]. apply Hactive in H2 as [Hin2 Hc2].
    assert (t1 = t2) by (apply (NoDup_map_injective id vs); congruence).
    subst t2. rewrite Hc1 in Hc2. discriminate Hc2.
Qed.

Lemma getAllTasks_completed_active_split_witness :
  ~ exists i,
      In i (map id (getAllTasks (Some "completed") exampleRun))
      /\ In i (map id (getAllTasks (Some "active") exampleRun)).
Proof.
  intros (i & Hdone & Hactive).
  apply (proj2 (proj2 (getAllTasks_completed_active_split exampleRun)))
    with (i := i); [| exact Hdone | exact Hactive].
  vm_compute. repeat constructor; simpl; intuition discriminate.
Defined.

(** ** Path patterns *)

Lemma stripPrefix_app (p s : string) : stripPrefix p (p ++ s) = Some s.
Proof.
  induction p as [|c p IH]; simpl; [now destruct s |].
  now rewrite Ascii.eqb_refl.
Qed.

Lemma stripPrefix_Some (p s r : string) : stripPrefix p s = Some r -> s = p ++ r.
Proof.
  revert s; induction p as [|c p IH]; intros s; simpl.
  - destruct s; now intros [= ->].
  - destruct s as [|c' s]; [discriminate |].
    destruct (Ascii.eqb_spec c c') as [->|]; [| discriminate].
    intros H. now rewrite (IH s H).
Qed.

Lemma spanWord_app (w rest : string) :
  allWord w = true -> endsToken rest = true -> spanWord (w ++ rest) = (w, rest).
Proof.
  intros Hw Hr. induction w as [|c w IH]; cbn [allWord spanWord append] in *.
  - destruct rest as [|c r]; [reflexivity |]. cbn [endsToken] in Hr.
    apply negb_true_iff in Hr. cbn [spanWord]. now rewrite Hr.
  - apply andb_true_iff in Hw as [Hc Hw]. now rewrite Hc, IH.
Qed.

Lemma spanWord_spec (s w r : string) :
  spanWord s = (w, r) -> s = w ++ r /\ allWord w = true /\ endsToken r = true.
Proof.
  revert w r; induction s as [|c s IH]; intros w r; cbn [spanWord].
  - now intros [= <- <-].
  - destruct (isWordChar c) eqn:Hc.
    + destruct (spanWord s) as [w' r'] eqn:Hs. intros [= <- <-].
      destruct (IH _ _ eq_refl) as (-> & Hw & Hr). cbn [allWord append].
      now rewrite Hc.
    + intros [= <- <-]. cbn [allWord append endsToken]. now rewrite Hc.
Qed.

(** The paths a route's regular expression accepts: [/api/tasks/], a word
    token, the suffix. *)
Lemma matchTaskPath_spec (suffix path : string) :
  endsToken suffix = true ->
  matchTaskPath suffix path = true <->
  exists token, isWordToken token = true /\ path = "/api/tasks/" ++ token ++ suffix.
Proof.
  intros Hsuffix. unfold matchTaskPath, isWordToken. split.
  - destruct (stripPrefix "/api/tasks/" path) as [rest|] eqn:Hp; [| discriminate].
    apply stripPrefix_Some in Hp. destruct (spanWord rest) as [w r] eqn:Hs.
    apply spanWord_spec in Hs as (-> & Hw & _).
    intros H. apply andb_true_iff in H as [Hne Hr]. apply String.eqb_eq in Hr.
    exists w. subst. now rewrite Hne, Hw.
  - intros (token & Ht & ->). apply andb_true_iff in Ht as [Hne Hw].
    rewrite stripPrefix_app, (spanWord_app token suffix Hw Hsuffix).
    now rewrite Hne, String.eqb_refl.
Qed.

Lemma split_token (w rest : string) :
  allWord w = true ->
  split "/" (w ++ String "/" rest) = w :: split "/" rest.
Proof.
  intros Hw. induction w as [|c w IH]; [reflexivity |].
  cbn [allWord] in Hw. apply andb_true_iff in Hw as [Hc Hw].
  cbn [append split]. rewrite (IH Hw).
  destruct (Ascii.eqb_spec c "/") as [-> | _]; [discriminate Hc | reflexivity].
Qed.

Lemma split_last_token (w : string) : allWord w = true -> split "/" w = [w].
Proof.
  intros Hw. induction w as [|c w IH]; [reflexivity |].
  cbn [allWord] in Hw. apply andb_true_iff in Hw as [Hc Hw].
  cbn [split]. rewrite (IH Hw).
  destruct (Ascii.eqb_spec c "/") as [-> | _]; [discriminate Hc | reflexivity].
Qed.

Lemma split_task_path (token : string) :
  allWord token = true ->
  split "/" ("/api/tasks/" ++ token) = [""; "api"; "tasks"; token].
Proof.
  intros Hw.
  change ("/api/tasks/" ++ token)
    with (String "/" ("api" ++ String "/" ("tasks" ++ String "/" token))).
  cbn [split Ascii.eqb Bool.eqb].
  now rewrite !split_token, split_last_token.
Qed.

Lemma split_task_path_suffix (token word : string) :
  allWord token = true -> allWord word = true ->
  split "/" ("/api/tasks/" ++ token ++ String "/" word)
    = [""; "api"; "tasks"; token; word].
Proof.
  intros Hw Hword.
  change ("/api/tasks/" ++ token ++ String "/" word)
    with (String "/" ("api" ++ String "/" ("tasks" ++ String "/" (token ++ String "/" word)))).
  cbn [split Ascii.eqb Bool.eqb].
  now rewrite !split_token, split_last_token.
Qed.

(** Behind a route's regular expression, [params.id] is the token of the
    path. *)
Lemma params_id_task_path (token : string) :
  allWord token = true ->
  params_id (getPathParams "/api/tasks/:id" ("/api/tasks/" ++ token)) = token.
Proof.
  intros Hw. unfold getPathParams. now rewrite (split_task_path token Hw).
Qed.

Lemma params_id_edit_path (token : string) :
  allWord token = true ->
  params_id (getPathParams "/api/tasks/:id/edit" ("/api/tasks/" ++ token ++ "/edit")) = token.
Proof.
  intros Hw. unfold getPathParams.
  now rewrite (split_task_path_suffix token "edit" Hw eq_refl).
Qed.

Lemma params_id_toggle_path (token : string) :
  allWord token = true ->
  params_id (getPathParams "/api/tasks/:id/toggle" ("/api/tasks/" ++ token ++ "/toggle"))
    = token.
Proof.
  intros Hw. unfold getPathParams.
  now rewrite (split_task_path_suffix token "toggle" Hw eq_refl).
Qed.

Lemma task_path_not_collection (rest : string) :
  ("/api/tasks/" ++ rest =? "/api/tasks") = false.
Proof. reflexivity. Qed.

Lemma matchTaskPath_token (suffix token : string) :
  isWordToken token = true -> endsToken suffix = true ->
  matchTaskPath suffix ("/api/tasks/" ++ token ++ suffix) = true.
Proof.
  intros Ht Hs. apply (matchTaskPath_spec suffix _ Hs). now exists token.
Qed.

Lemma matchTaskPath_other_suffix (suffix suffix' token : string) :
  isWordToken token = true -> endsToken suffix = true -> suffix <> suffix' ->
  matchTaskPath suffix' ("/api/tasks/" ++ token ++ suffix) = false.
Proof.
  intros Ht Hs Hne. unfold matchTaskPath, isWordToken in *.
  apply andb_true_iff in Ht as [_ Hw].
  rewrite stripPrefix_app, (spanWord_app token suffix Hw Hs).
  apply String.eqb_neq in Hne. rewrite Hne. apply andb_false_r.
Qed.

(** ** Routing by identifier *)

Lemma isWordToken_allWord (token : string) : isWordToken token = true -> allWord token = true.
Proof. unfold isWordToken. intros H. now apply andb_true_iff in H. Qed.

Lemma delete_absent (k : TaskId) (m : JsMap.t) :
  JsMap.get k m = None -> JsMap.delete k m = m.
Proof.
  induction m as [|[k' v'] m IH]; simpl; [reflexivity |].
  destruct (k =? k'); [discriminate |]. intros H. now rewrite IH.
Qed.

(** The handlers on an id that is not in the store. *)
Lemma handlers_on_unknown_id (req : Request) (id0 : TaskId) (this : TaskService) :
  getTaskById id0 this = None ->
  getTaskByIdHandler req id0 this
    = (Return (alertResponse "Task not found." 404 "danger"), this)
  /\ getTaskEditFormHandler req id0 this
    = (Return (alertResponse "Task not found." 404 "danger"), this)
  /\ toggleTaskHandler req id0 this
    = (Return (alertResponse "Task not found." 404 "danger"), this)
  /\ deleteTaskHandler req id0 this
    = (Return (envelopeResponse "Task not found or could not be deleted." 404), this)
  /\ (forall entries, formData req = Return entries ->
      updateTaskHandler req id0 this
        = (Return (alertResponse "Task not found." 404 "danger"), this)).
Proof.
  intros Hget. repeat split.
  - unfold getTaskByIdHandler. now rewrite Hget.
  - unfold getTaskEditFormHandler. now rewrite Hget.
  - unfold toggleTaskHandler, bind. now rewrite (toggle_absent _ _ Hget).
  - unfold deleteTaskHandler, deleteTask, storeDelete, bind, JsMap.has.
    unfold getTaskById in Hget. rewrite Hget, (delete_absent _ _ Hget).
    now destruct this.
  - intros entries Hform. unfold updateTaskHandler, tryCatch, bind, lift.
    rewrite Hform. now rewrite (updateTask_absent _ _ _ Hget).
Qed.

(** A character that is neither a word character nor a slash is in no
    word token and in no suffix of the route table. *)
Lemma count_allWord (c : ascii) (w : string) :
  isWordChar c = false -> allWord w = true -> count c w = 0%nat.
Proof.
  intros Hc. induction w as [|x w IH]; [reflexivity |].
  cbn [allWord count]. intros H. apply andb_true_iff in H as [Hx Hw].
  rewrite (IH Hw). destruct (Ascii.eqb_spec c x) as [-> |]; [congruence | reflexivity].
Qed.

Lemma count_route_suffix (c : ascii) (suffix : string) :
  isWordChar c = false -> c <> "/"%char -> In suffix [""; "/edit"; "/toggle"] ->
  count c suffix = 0%nat.
Proof.
  intros Hc Hslash [<- | [<- | [<- | []]]]; cbn [count];
    repeat match goal with
           | |- context [Ascii.eqb c ?x] =>
               destruct (Ascii.eqb_spec c x) as [E | _];
               [first [contradiction | rewrite E in Hc; discriminate Hc] |]
           end;
    reflexivity.
Qed.

(** A path whose identifier holds such a character matches none of the
    three route expressions, whatever follows the identifier. *)
Lemma matchTaskPath_other_character (c : ascii) (id0 suffix suffix' : string) :
  (0 < count c id0)%nat -> isWordChar c = false -> c <> "/"%char ->
  In suffix' [""; "/edit"; "/toggle"] ->
  matchTaskPath suffix' ("/api/tasks/" ++ id0 ++ suffix) = false.
Proof.
  intros Hin Hc Hslash Hs'.
  destruct (matchTaskPath suffix' ("/api/tasks/" ++ id0 ++ suffix)) eqn:Hm;
    [| reflexivity].
  assert (Hends : endsToken suffix' = true)
    by (destruct Hs' as [<- | [<- | [<- | []]]]; reflexivity).
  apply (matchTaskPath_spec suffix' _ Hends) in Hm as (token & Ht & E).
  apply (f_equal (stripPrefix "/api/tasks/")) in E.
  rewrite !stripPrefix_app in E. injection E as E.
  apply (f_equal (count c)) in E. rewrite !count_app in E.
  rewrite (count_allWord c token Hc (isWordToken_allWord token Ht)) in E.
  rewrite (count_route_suffix c suffix' Hc Hslash Hs') in E. lia.
Qed.

(** C2, as the code has it: the identifier segment of a task route is a
    word token, one or more letters, digits and underscores, not digits
    only.  A GET, PUT or DELETE on [/api/tasks/{id}], a GET on its [/edit]
    and a PUT on its [/toggle] with such an id go to the handler of the
    route with that id, and the handler reports an unknown id as a task
    that was not found.  An id that holds any other character than a word
    character or a slash is matched by no route: whatever the method, the
    request on [/api/tasks/{id}], on its [/edit] and on its [/toggle] gets
    the route-not-found response. *)
Theorem word_token_ids_are_routed (req : Request) (id0 : TaskId) (now : Z) :
  (isWordToken id0 = true ->
   handleApiRequest req ("/api/tasks/" ++ id0) "GET" now = getTaskByIdHandler req id0
   /\ handleApiRequest req ("/api/tasks/" ++ id0) "PUT" now = updateTaskHandler req id0
   /\ handleApiRequest req ("/api/tasks/" ++ id0) "DELETE" now = deleteTaskHandler req id0
   /\ handleApiRequest req ("/api/tasks/" ++ id0 ++ "/edit") "GET" now
      = getTaskEditFormHandler req id0
   /\ handleApiRequest req ("/api/tasks/" ++ id0 ++ "/toggle") "PUT" now
      = toggleTaskHandler req id0
   /\ (forall this,
         getTaskById id0 this = None ->
         getTaskByIdHandler req id0 this
           = (Return (alertResponse "Task not found." 404 "danger"), this)
         /\ getTaskEditFormHandler req id0 this
           = (Return (alertResponse "Task not found." 404 "danger"), this)
         /\ toggleTaskHandler req id0 this
           = (Return (alertResponse "Task not found." 404 "danger"), this)
         /\ deleteTaskHandler req id0 this
           = (Return (envelopeResponse "Task not found or could not be deleted." 404), this)
         /\ (forall entries, formData req = Return entries ->
             updateTaskHandler req id0 this
               = (Return (alertResponse "Task not found." 404 "danger"), this))))
  /\ (forall c suffix method0 this,
        (0 < count c id0)%nat -> isWordChar c = false -> c <> "/"%char ->
        In suffix [""; "/edit"; "/toggle"] ->
        handleApiRequest req ("/api/tasks/" ++ id0 ++ suffix) method0 now this
          = (Return (envelopeResponse "API Endpoint Not Found" 404), this)).
Proof.
  split.
  - intros Ht. pose proof (isWordToken_allWord id0 Ht) as Hw.
    pose proof (matchTaskPath_token "" id0 Ht eq_refl) as Hplain.
    rewrite append_empty_r in Hplain.
    assert (Hedit : matchTaskPath "" ("/api/tasks/" ++ id0 ++ "/edit") = false)
      by (apply matchTaskPath_other_suffix; [exact Ht | reflexivity | discriminate]).
    assert (Htoggle : matchTaskPath "" ("/api/tasks/" ++ id0 ++ "/toggle") = false)
      by (apply matchTaskPath_other_suffix; [exact Ht | reflexivity | discriminate]).
    assert (Htoggle' : matchTaskPath "/edit" ("/api/tasks/" ++ id0 ++ "/toggle") = false)
      by (apply matchTaskPath_other_suffix; [exact Ht | reflexivity | discriminate]).
    unfold handleApiRequest.
    rewrite !task_path_not_collection, Hplain, Hedit, Htoggle, Htoggle'.
    rewrite (matchTaskPath_token "/edit" id0 Ht eq_refl).
    rewrite (matchTaskPath_token "/toggle" id0 Ht eq_refl).
    rewrite (params_id_task_path id0 Hw), (params_id_edit_path id0 Hw),
      (params_id_toggle_path id0 Hw).
    cbn [andb String.eqb Ascii.eqb Bool.eqb].
    repeat (split; [reflexivity |]).
    intros this. apply handlers_on_unknown_id.
  - intros c suffix method0 this Hin Hc Hslash Hsuffix.
    unfold handleApiRequest.
    rewrite task_path_not_collection.
    rewrite !(matchTaskPath_other_character c id0 suffix) by (simpl; auto).
    reflexivity.
Qed.

Lemma word_token_ids_are_routed_witness :
  let req := mkRequest "GET" "/api/tasks/task_9a" [] (Return []) in
  (handleApiRequest req ("/api/tasks/" ++ "task_9a") "GET" 0 = getTaskByIdHandler req "task_9a"
  /\ handleApiRequest req ("/api/tasks/" ++ "task_9a") "PUT" 0 = updateTaskHandler req "task_9a"
  /\ handleApiRequest req ("/api/tasks/" ++ "task_9a") "DELETE" 0
     = deleteTaskHandler req "task_9a"
  /\ handleApiRequest req ("/api/tasks/" ++ "task_9a" ++ "/edit") "GET" 0
     = getTaskEditFormHandler req "task_9a"
  /\ handleApiRequest req ("/api/tasks/" ++ "task_9a" ++ "/toggle") "PUT" 0
     = toggleTaskHandler req "task_9a"
  /\ (forall this,
        getTaskById "task_9a" this = None ->
        getTaskByIdHandler req "task_9a" this
          = (Return (alertResponse "Task not found." 404 "danger"), this)
        /\ getTaskEditFormHandler req "task_9a" this
          = (Return (alertResponse "Task not found." 404 "danger"), this)
        /\ toggleTaskHandler req "task_9a" this
          = (Return (alertResponse "Task not found." 404 "danger"), this)
        /\ deleteTaskHandler req "task_9a" this
          = (Return (envelopeResponse "Task not found or could not be deleted." 404), this)
        /\ (forall entries, formData req = Return entries ->
            updateTaskHandler req "task_9a" this
              = (Return (alertResponse "Task not found." 404 "danger"), this))))
  /\ handleApiRequest req ("/api/tasks/" ++ "a.b" ++ "/toggle") "PUT" 0 exampleService
     = (Return (envelopeResponse "API Endpoint Not Found" 404), exampleService).
Proof.
  cbv zeta. split.
  - exact (proj1 (word_token_ids_are_routed
                    (mkRequest "GET" "/api/tasks/task_9a" [] (Return [])) "task_9a" 0)
             eq_refl).
  - apply (proj2 (word_token_ids_are_routed
                    (mkRequest "GET" "/api/tasks/task_9a" [] (Return [])) "a.b" 0)
             "."%char "/toggle" "PUT" exampleService).
    + cbn. lia.
    + reflexivity.
    + discriminate.
    + simpl. auto.
Defined.

(** An id without a slash that is not a word token reaches no handler: the
    request falls through to the route-not-found response. *)
Lemma other_ids_fall_through (req : Request) (id0 : TaskId) (method0 : string)
    (now : Z) (this : TaskService) :
  count "/" id0 = 0 -> isWordToken id0 = false ->
  handleApiRequest req ("/api/tasks/" ++ id0) method0 now this
    = (Return (envelopeResponse "API Endpoint Not Found" 404), this).
Proof.
  intros Hslash Hnot.
  assert (Hno : forall suffix,
             suffix = "" \/ (exists s, suffix = String "/" s) ->
             matchTaskPath suffix ("/api/tasks/" ++ id0) = false).
  { intros suffix Hsuffix. unfold matchTaskPath. rewrite stripPrefix_app.
    destruct (spanWord id0) as [w r] eqn:Hs.
    apply spanWord_spec in Hs as (-> & Hw & Hr).
    destruct (w =? "") eqn:Hwe; [reflexivity |]. cbn [negb andb].
    apply String.eqb_neq. intros ->.
    destruct Hsuffix as [-> | (s & ->)].
    - rewrite append_empty_r in Hnot. unfold isWordToken in Hnot.
      now rewrite Hwe, Hw in Hnot.
    - rewrite count_app in Hslash. cbn [count Ascii.eqb Bool.eqb] in Hslash. lia. }
  unfold handleApiRequest.
  rewrite task_path_not_collection, !Hno by (auto; right; eexists; reflexivity).
  reflexivity.
Qed.

(** The counterexample to C2 as stated: [a-b] holds no slash, and yet a GET
    on [/api/tasks/a-b] gets the route-not-found response in place of the
    answer of [getTaskByIdHandler]. *)
Lemma hyphenated_id_falls_through :
  count "/" "a-b" = 0
  /\ handleApiRequest (mkRequest "GET" "/api/tasks/a-b" [] (Return []))
       "/api/tasks/a-b" "GET" 0 exampleService
     = (Return (envelopeResponse "API Endpoint Not Found" 404), exampleService)
  /\ getTaskByIdHandler (mkRequest "GET" "/api/tasks/a-b" [] (Return [])) "a-b"
       exampleService
     = (Return (alertResponse "Task not found." 404 "danger"), exampleService)
  /\ envelopeResponse "API Endpoint Not Found" 404
     <> alertResponse "Task not found." 404 "danger".
Proof.
  repeat split; try reflexivity. intros H. discriminate H.
Qed.

(** ** Error envelopes *)

(** Every request under [/api] other than a pre-flight goes to the API
    router. *)
Lemma handleRequest_api (serveStaticFile : Request -> string -> Response)
    (req : Request) (now : Z) :
  (method req =? "OPTIONS") = false ->
  startsWith (pathname req) "/api" = true ->
  handleRequest serveStaticFile req now
    = handleApiRequest req (pathname req) (method req) now.
Proof.
  intros Hm Hp. unfold handleRequest. rewrite Hm, Hp.
  destruct (pathname req =? "/") eqn:E; [| reflexivity].
  apply String.eqb_eq in E. rewrite E in Hp. discriminate Hp.
Qed.

(** The alert opens with its tag and holds the escaped message. *)
Lemma alertHtml_shape (message variant : string) :
  occurs (template ["<sl-alert variant="; dq; variant; dq; " open closable>"])
    (alertHtml message variant)
  /\ occurs (htmlEscape message) (alertHtml message variant).
Proof.
  unfold alertHtml. split.
  - destruct (occurs_template_window
                [nl; "    "; "<sl-alert variant="; dq; variant; dq; " open closable>"; nl;
                 "      <sl-icon slot="; dq; "icon"; dq; " name="; dq;
                 (if variant =? "danger" then "exclamation-octagon"
                  else "exclamation-triangle"); dq; "></sl-icon>"; nl;
                 "      "; htmlEscape message; nl; "    </sl-alert>"; nl; "  "] 2 5)
      as (pre & post & E).
    exists pre, post. exact E.
  - match goal with
    | |- occurs _ (template ?ps) => exact (occurs_template_window ps 18 1)
    end.
Qed.

Lemma HtmlResponse_facts (r : Response) :
  HtmlResponse r ->
  contentType r = Some "text/html"
  /\ ((400 <= status r)%Z ->
      (status r = 400%Z \/ status r = 404%Z \/ status r = 500%Z)
      /\ exists message,
           r = mkResponse (Some (alertHtml message "danger")) (status r)
                 (headersWith "text/html")).
Proof.
  intros [html | message st Hst]; (split; [reflexivity |]).
  - cbn [status htmlResponse]. lia.
  - intros _. split; [exact Hst | now exists message].
Qed.

Lemma getTasksHandler_html (req : Request) (this : TaskService) :
  exists r, getTasksHandler req this = (Return r, this) /\ HtmlResponse r.
Proof.
  unfold getTasksHandler.
  destruct (List.length _ =? 0)%nat; eexists; split; try reflexivity; constructor.
Qed.

Lemma getTaskByIdHandler_html (req : Request) (id0 : TaskId) (this : TaskService) :
  exists r, getTaskByIdHandler req id0 this = (Return r, this) /\ HtmlResponse r.
Proof.
  unfold getTaskByIdHandler.
  destruct (getTaskById id0 this); eexists; split; try reflexivity; constructor; auto.
Qed.

Lemma getTaskEditFormHandler_html (req : Request) (id0 : TaskId) (this : TaskService) :
  exists r, getTaskEditFormHandler req id0 this = (Return r, this) /\ HtmlResponse r.
Proof.
  unfold getTaskEditFormHandler.
  destruct (getTaskById id0 this); eexists; split; try reflexivity; constructor; auto.
Qed.

Lemma toggleTaskHandler_html (req : Request) (id0 : TaskId) (this : TaskService) :
  exists r this', toggleTaskHandler req id0 this = (Return r, this') /\ HtmlResponse r.
Proof.
  unfold toggleTaskHandler, bind.
  destruct (getTaskById id0 this) as [task|] eqn:Hget.
  - rewrite (toggle_present _ _ _ Hget). eexists _, _. split; [reflexivity | constructor].
  - rewrite (toggle_absent _ _ Hget). eexists _, _. split; [reflexivity |].
    constructor; auto.
Qed.

Lemma createTaskHandler_html (req : Request) (now : Z) (this : TaskService) :
  exists r this', createTaskHandler req now this = (Return r, this') /\ HtmlResponse r.
Proof.
  unfold createTaskHandler, tryCatch, bind, lift.
  destruct (formData req) as [entries | message].
  - match goal with
    | |- context [createTask ?d None None None now this] =>
        destruct (createTask_cases d now this) as [(m & -> & Hm) | (-> & _)]
    end.
    + unfold isValidationMessage in Hm. rewrite Hm.
      eexists _, _. split; [reflexivity |]. constructor; auto.
    + eexists _, _. split; [reflexivity | constructor].
  - destruct (startsWith message "Invalid task data:");
      eexists _, _; (split; [reflexivity |]); constructor; auto.
Qed.

Lemma updateTaskHandler_html (req : Request) (id0 : TaskId) (this : TaskService) :
  exists r this', updateTaskHandler req id0 this = (Return r, this') /\ HtmlResponse r.
Proof.
  unfold updateTaskHandler, tryCatch, bind, lift.
  destruct (formData req) as [entries | message].
  - destruct (getTaskById id0 this) as [task|] eqn:Hget.
    + match goal with
      | |- context [updateTask id0 ?d this] =>
          destruct (updateTask_cases id0 d this task Hget) as [(m & -> & Hm) | (-> & _)]
      end.
      * unfold isValidationMessage in Hm. rewrite Hm.
        eexists _, _. split; [reflexivity |]. constructor; auto.
      * eexists _, _. split; [reflexivity | constructor].
    + rewrite (updateTask_absent _ _ _ Hget).
      eexists _, _. split; [reflexivity |]. constructor; auto.
  - destruct (startsWith message "Invalid task data:");
      eexists _, _; (split; [reflexivity |]); constructor; auto.
Qed.

Lemma deleteTaskHandler_cases (req : Request) (id0 : TaskId) (this : TaskService) :
  exists this',
    deleteTaskHandler req id0 this =
      (Return (if JsMap.has id0 (taskStore this)
               then mkResponse None 204 DEFAULT_CORS_HEADERS
               else envelopeResponse "Task not found or could not be deleted." 404),
       this').
Proof.
  unfold deleteTaskHandler, deleteTask, storeDelete, bind.
  destruct (JsMap.has id0 (taskStore this)); eexists; reflexivity.
Qed.

(** The answers of the router: the route-not-found envelope when no route
    accepts the request, the delete envelope on a DELETE of an unknown id,
    and otherwise an HTML response or the empty 204 of a delete. *)
Lemma handleApiRequest_cases (req : Request) (path method : string) (now : Z)
    (this : TaskService) :
  exists r this',
    handleApiRequest req path method now this = (Return r, this')
    /\ ((routed path method = false
         /\ r = envelopeResponse "API Endpoint Not Found" 404)
        \/ (routed path method = true /\ deletesUnknownId path method this = true
            /\ r = envelopeResponse "Task not found or could not be deleted." 404)
        \/ (routed path method = true /\ deletesUnknownId path method this = false
            /\ (HtmlResponse r \/ r = mkResponse None 204 DEFAULT_CORS_HEADERS))).
Proof.
  unfold handleApiRequest, routed, deletesUnknownId.
  destruct (path =? "/api/tasks") eqn:Pc.
  { apply String.eqb_eq in Pc. subst path.
    change (matchTaskPath "" "/api/tasks") with false.
    change (matchTaskPath "/edit" "/api/tasks") with false.
    change (matchTaskPath "/toggle" "/api/tasks") with false.
    cbn [andb orb].
    destruct (method =? "GET") eqn:Mg; cbn [andb orb].
    - destruct (getTasksHandler_html req this) as (r & -> & Hr).
      exists r, this. split; [reflexivity |]. right; right. auto.
    - destruct (method =? "POST") eqn:Mp; cbn [andb orb].
      + destruct (createTaskHandler_html req now this) as (r & this' & -> & Hr).
        exists r, this'. split; [reflexivity |]. right; right. auto.
      + eexists _, _. split; [reflexivity |]. left. auto. }
  cbn [andb orb].
  destruct (matchTaskPath "" path) eqn:Pt; cbn [andb orb].
  { destruct (method =? "GET") eqn:Mg; cbn [andb orb].
    - apply String.eqb_eq in Mg. subst method. cbn [String.eqb Ascii.eqb Bool.eqb andb].
      destruct (getTaskByIdHandler_html req
                  (params_id (getPathParams "/api/tasks/:id" path)) this)
        as (r & -> & Hr).
      exists r, this. split; [reflexivity |]. right; right. auto.
    - destruct (method =? "PUT") eqn:Mu; cbn [andb orb].
      + apply String.eqb_eq in Mu. subst method.
        cbn [String.eqb Ascii.eqb Bool.eqb andb].
        destruct (updateTaskHandler_html req
                    (params_id (getPathParams "/api/tasks/:id" path)) this)
          as (r & this' & -> & Hr).
        exists r, this'. split; [reflexivity |]. right; right. auto.
      + destruct (method =? "DELETE") eqn:Md; cbn [andb orb].
        * destruct (deleteTaskHandler_cases req
                      (params_id (getPathParams "/api/tasks/:id" path)) this)
            as (this' & ->).
          eexists _, this'. split; [reflexivity |].
          destruct (JsMap.has _ _); cbn [negb]; right; [right | left]; auto.
        * assert (He : matchTaskPath "/edit" path = false).
          { apply (matchTaskPath_spec "" path eq_refl) in Pt as (token & Ht & ->).
            apply matchTaskPath_other_suffix; [exact Ht | reflexivity | discriminate]. }
          assert (Hg : matchTaskPath "/toggle" path = false).
          { apply (matchTaskPath_spec "" path eq_refl) in Pt as (token & Ht & ->).
            apply matchTaskPath_other_suffix; [exact Ht | reflexivity | discriminate]. }
          rewrite He, Hg. cbn [andb orb].
          eexists _, _. split; [reflexivity |]. left. auto. }
  destruct (matchTaskPath "/edit" path && (method =? "GET")) eqn:Ge; cbn [andb orb].
  { apply andb_true_iff in Ge as [_ Mg].
    destruct (getTaskEditFormHandler_html req
                (params_id (getPathParams "/api/tasks/:id/edit" path)) this)
      as (r & -> & Hr).
    exists r, this. split; [reflexivity |]. right; right. auto. }
  destruct (matchTaskPath "/toggle" path && (method =? "PUT")) eqn:Gt; cbn [andb orb].
  { destruct (toggleTaskHandler_html req
                (params_id (getPathParams "/api/tasks/:id/toggle" path)) this)
      as (r & this' & -> & Hr).
    exists r, this'. split; [reflexivity |]. right; right. auto. }
  eexists _, _. split; [reflexivity |]. left. auto.
Qed.

Lemma deletesUnknownId_routed (path method : string) (this : TaskService) :
  deletesUnknownId path method this = true -> routed path method = true.
Proof.
  unfold deletesUnknownId, routed. intros H.
  apply andb_true_iff in H as [H _]. rewrite H.
  now rewrite orb_true_r.
Qed.

(** C8: the router always answers, and its answer carries the JSON error
    envelope in exactly two cases, both with status 404: no route accepts
    the method and path, or the request is a DELETE of an id that is not in
    the store.  In these two cases the body is the envelope with the
    message of the case, character by character, under the content type
    [application/json].  Every other answer with a failure status has
    status 400, 404 or 500 and an HTML alert as body, under the content
    type [text/html]: the body is the [alertHtml] of a message, which
    opens with the tag of the alert and holds the escaped message. *)
Theorem json_envelope_for_two_failures (req : Request) (path method : string)
    (now : Z) (this : TaskService) :
  exists r this',
    handleApiRequest req path method now this = (Return r, this')
    /\ (contentType r = Some "application/json" <->
        routed path method = false \/ deletesUnknownId path method this = true)
    /\ (routed path method = false ->
        r = mkResponse
              (Some (template ["{"; dq; "error"; dq; ":"; dq; "API Endpoint Not Found"; dq;
                               "}"]))
              404 (headersWith "application/json"))
    /\ (deletesUnknownId path method this = true ->
        r = mkResponse
              (Some (template ["{"; dq; "error"; dq; ":"; dq;
                               "Task not found or could not be deleted."; dq; "}"]))
              404 (headersWith "application/json"))
    /\ ((400 <= status r)%Z ->
        contentType r <> Some "application/json" ->
        contentType r = Some "text/html"
        /\ (status r = 400%Z \/ status r = 404%Z \/ status r = 500%Z)
        /\ exists message html,
             r = mkResponse (Some html) (status r) (headersWith "text/html")
             /\ html = alertHtml message "danger"
             /\ occurs (template ["<sl-alert variant="; dq; "danger"; dq;
                                  " open closable>"]) html
             /\ occurs (htmlEscape message) html).
Proof.
  destruct (handleApiRequest_cases req path method now this)
    as (r & this' & Hrun & Hcases).
  exists r, this'. split; [exact Hrun |].
  destruct Hcases as [(Hr & ->) | [(Hr & Hd & ->) | (Hr & Hd & Hhtml)]].
  - split; [split; [now left | reflexivity] |].
    split; [reflexivity |]. split.
    + intros Hd. apply deletesUnknownId_routed in Hd. congruence.
    + intros _ Hct. now contradiction Hct.
  - split; [split; [now right | reflexivity] |].
    split; [congruence |]. split; [reflexivity |].
    intros _ Hct. now contradiction Hct.
  - assert (Hct : contentType r <> Some "application/json").
    { destruct Hhtml as [Hhtml | ->]; [| discriminate].
      apply HtmlResponse_facts in Hhtml as [-> _]. discriminate. }
    split; [split; [intros E; contradiction | intros [E | E]; congruence] |].
    split; [congruence |]. split; [congruence |].
    intros Hfail _. destruct Hhtml as [Hhtml | ->].
    + apply HtmlResponse_facts in Hhtml as [Hc Hbody]. split; [exact Hc |].
      destruct (Hbody Hfail) as (Hst & message & Hr'). split; [exact Hst |].
      exists message, (alertHtml message "danger").
      split; [exact Hr' |]. split; [reflexivity | apply alertHtml_shape].
    + cbn [status] in Hfail. lia.
Qed.

(** * Further properties of the service, the handlers and the renderers *)

(** ** More on the store *)


Lemma set_same (k : TaskId) (v : Task) (m : JsMap.t) :
  JsMap.get k m = Some v -> JsMap.set k v m = m.
Proof.
  induction m as [|[k' v'] m IH]; simpl; [discriminate |].
  destruct (String.eqb_spec k k') as [-> | Hne].
  - now intros [= ->].
  - intros H. now rewrite IH.
Qed.

Lemma set_twice (k : TaskId) (v w : Task) (m : JsMap.t) :
  JsMap.set k w (JsMap.set k v m) = JsMap.set k w m.
Proof.
  induction m as [|[k' v'] m IH]; simpl.
  - now rewrite String.eqb_refl.
  - destruct (String.eqb_spec k k') as [-> | Hne]; simpl.
    + now rewrite String.eqb_refl.
    + apply String.eqb_neq in Hne. now rewrite Hne, IH.
Qed.

Lemma get_delete_ne (k k' : TaskId) (m : JsMap.t) :
  k <> k' -> JsMap.get k' (JsMap.delete k m) = JsMap.get k' m.
Proof.
  intros Hne. induction m as [|[k0 v0] m IH]; simpl; [reflexivity |].
  destruct (String.eqb_spec k k0) as [-> | Hk]; simpl.
  - apply not_eq_sym, String.eqb_neq in Hne. now rewrite Hne.
  - now rewrite IH.
Qed.

Lemma get_delete_eq (k : TaskId) (m : JsMap.t) :
  NoDup (JsMap.keys m) -> JsMap.get k (JsMap.delete k m) = None.
Proof.
  induction m as [|[k0 v0] m IH]; simpl; [reflexivity |].
  intros Hnd. inversion Hnd as [|? ? Hk Hnd']; subst.
  destruct (String.eqb_spec k k0) as [-> | Hne]; simpl.
  - now apply get_None_keys.
  - apply String.eqb_neq in Hne. rewrite Hne. now apply IH.
Qed.

Lemma keys_delete (k : TaskId) (m : JsMap.t) :
  NoDup (JsMap.keys m) ->
  JsMap.keys (JsMap.delete k m) = filter (fun k' => negb (k' =? k)) (JsMap.keys m).
Proof.
  induction m as [|[k0 v0] m IH]; simpl; [reflexivity |].
  intros Hnd. inversion Hnd as [|? ? Hk Hnd']; subst.
  destruct (String.eqb_spec k k0) as [-> | Hne]; simpl.
  - rewrite String.eqb_refl. simpl.
    symmetry. apply forallb_filter_id. apply forallb_forall.
    intros k' Hin. apply negb_true_iff, String.eqb_neq. intros ->. contradiction.
  - apply not_eq_sym, String.eqb_neq in Hne. rewrite Hne. simpl. f_equal. now apply IH.
Qed.

Lemma service_eta (this : TaskService) : mkService (taskStore this) (nextId this) = this.
Proof. now destruct this. Qed.

(** ** Creating *)

Lemma trim_empty : trim "" = "".
Proof. reflexivity. Qed.

Lemma validData_checks (data : TaskData) :
  validData data ->
  exists s d p,
    data = mkData (Str s) (Str d) (Str p)
    /\ (s =? "") = false /\ (trim s =? "") = false
    /\ Array_includes TASK_PRIORITIES (Str p) = true.
Proof.
  destruct data as [t d p]. intros ((s & Hs & Ht) & Hp & (d' & Hd)); simpl in *; subst.
  assert (Hp' : Array_includes TASK_PRIORITIES p = true)
    by (apply includes_priorities; destruct Hp as [<- | [<- | [<- | []]]]; auto).
  destruct p as [| | b | n | p]; try discriminate Hp'.
  exists s, d', p. split; [reflexivity |]. split; [| split; [| exact Hp']].
  - apply String.eqb_neq. intros ->. now apply Ht.
  - now apply String.eqb_neq.
Qed.

(** Valid data and no id: the counter gives the id. *)
Lemma createTask_valid_counter (data : TaskData) (now : Z) (this : TaskService) :
  validData data ->
  createTask data None None None now this
    = (Return (createdTask data now this),
       mkService (JsMap.set (Number_toString (nextId this)) (createdTask data now this)
                    (taskStore this)) (Number_add (nextId this) 1)).
Proof.
  intros Hv. destruct (validData_checks data Hv) as (s & d & p & -> & Hs & Ht & Hp).
  unfold createTask, createdTask, bind, throwIf.
  cbn [data_title data_description data_priority truthy isString asString].
  rewrite Hs, Ht, Hp. reflexivity.
Qed.




Lemma createTask_title_error (data : TaskData) (id0 : option TaskId)
    (completed0 : option bool) (createdAt0 : option Z) (now : Z) (this : TaskService) :
  (forall s, data_title data = Str s -> trim s = "") ->
  createTask data id0 completed0 createdAt0 now this
    = (Throw "Invalid task data: Title is required and cannot be empty.", this).
Proof.
  destruct data as [t d p]; cbn [data_title]. intros Ht.
  unfold createTask, bind, throwIf.
  cbn [data_title data_description data_priority].
  destruct t as [| | b | n | s]; cbn [truthy isString asString negb orb];
    try reflexivity.
  - now destruct b.
  - now destruct (n =? 0)%Z.
  - rewrite (Ht s eq_refl). cbn [String.eqb]. now rewrite orb_true_r.
Qed.

Lemma createTask_priority_error (s : string) (d p : Value) (id0 : option TaskId)
    (completed0 : option bool) (createdAt0 : option Z) (now : Z) (this : TaskService) :
  trim s <> "" ->
  ~ In p [Str "low"; Str "medium"; Str "high"] ->
  createTask (mkData (Str s) d p) id0 completed0 createdAt0 now this
    = (Throw "Invalid task data: Priority must be one of low, medium, high.", this).
Proof.
  intros Ht Hp. unfold createTask, bind, throwIf.
  cbn [data_title data_description data_priority truthy isString asString].
  assert (Hs : (s =? "") = false)
    by (apply String.eqb_neq; intros ->; now apply Ht).
  apply String.eqb_neq in Ht. rewrite Hs, Ht.
  destruct (Array_includes TASK_PRIORITIES p) eqn:Hin; [| reflexivity].
  exfalso. apply Hp. apply includes_priorities in Hin.
  simpl. destruct Hin as [-> | [-> | ->]]; auto.
Qed.

Lemma createTask_description_error (s : string) (d p : Value) (id0 : option TaskId)
    (completed0 : option bool) (createdAt0 : option Z) (now : Z) (this : TaskService) :
  trim s <> "" ->
  In p [Str "low"; Str "medium"; Str "high"] ->
  isString d = false ->
  createTask (mkData (Str s) d p) id0 completed0 createdAt0 now this
    = (Throw "Invalid task data: Description must be a string.", this).
Proof.
  intros Ht Hp Hd. unfold createTask, bind, throwIf.
  cbn [data_title data_description data_priority truthy isString asString].
  assert (Hs : (s =? "") = false)
    by (apply String.eqb_neq; intros ->; now apply Ht).
  apply String.eqb_neq in Ht. rewrite Hs, Ht.
  assert (Hin : Array_includes TASK_PRIORITIES p = true)
    by (apply includes_priorities; destruct Hp as [<- | [<- | [<- | []]]]; auto).
  rewrite Hin, Hd. reflexivity.
Qed.

(** X2: a [createTask] that fails throws before any write, and reports the
    first rule that is broken: the title rule, then the priority rule, then
    the description rule. *)
Theorem createTask_reports_first_broken_rule (data : TaskData) (id0 : option TaskId)
    (completed0 : option bool) (createdAt0 : option Z) (now : Z) (this : TaskService) :
  ((forall s, data_title data = Str s -> trim s = "") ->
   createTask data id0 completed0 createdAt0 now this
     = (Throw "Invalid task data: Title is required and cannot be empty.", this))
  /\ (forall s, data_title data = Str s -> trim s <> "" ->
      ~ In (data_priority data) [Str "low"; Str "medium"; Str "high"] ->
      createTask data id0 completed0 createdAt0 now this
        = (Throw "Invalid task data: Priority must be one of low, medium, high.", this))
  /\ (forall s, data_title data = Str s -> trim s <> "" ->
      In (data_priority data) [Str "low"; Str "medium"; Str "high"] ->
      isString (data_description data) = false ->
      createTask data id0 completed0 createdAt0 now this
        = (Throw "Invalid task data: Description must be a string.", this)).
Proof.
  split; [now apply createTask_title_error |].
  destruct data as [t d p]; cbn [data_title data_description data_priority].
  split.
  - intros s -> Ht Hp. now apply createTask_priority_error.
  - intros s -> Ht Hp Hd. now apply createTask_description_error.
Qed.

(** X3: with an id of its own, the way the seeding calls it, [createTask]
    stores the record under that id, in place of any record already there,
    and leaves the counter alone; an empty id counts as no id. *)
Theorem createTask_with_given_id (data : TaskData) (id0 : TaskId)
    (completed0 : option bool) (createdAt0 : option Z) (now : Z) (this : TaskService) :
  validData data ->
  (id0 <> "" ->
   exists task this',
     createTask data (Some id0) completed0 createdAt0 now this = (Return task, this')
     /\ id task = id0
     /\ completed task = match completed0 with Some b => b | None => false end
     /\ createdAt task = match createdAt0 with Some d => d | None => now end
     /\ getTaskById id0 this' = Some task
     /\ (forall k, k <> id0 -> getTaskById k this' = getTaskById k this)
     /\ nextId this' = nextId this)
  /\ createTask data (Some "") completed0 createdAt0 now this
     = createTask data None completed0 createdAt0 now this.
Proof.
  intros Hv. destruct (validData_checks data Hv) as (s & d & p & -> & Hs & Ht & Hp).
  split; [| reflexivity].
  intros Hid. apply String.eqb_neq in Hid.
  unfold createTask, bind, throwIf.
  cbn [data_title data_description data_priority truthy isString asString].
  rewrite Hs, Ht, Hp, Hid. cbn.
  eexists _, _. split; [reflexivity |]. cbn [id completed createdAt nextId].
  repeat (split; [reflexivity |]). split; [apply get_set_eq |].
  split; [| reflexivity].
  intros k Hk. apply get_set_ne. now apply not_eq_sym.
Qed.

Lemma createTask_with_given_id_witness :
  ("2" <> "" ->
   exists task this',
     createTask (mkData (Str "Plan") (Str "") (Str "low")) (Some "2") (Some true) None 7
       exampleService = (Return task, this')
     /\ id task = "2"
     /\ completed task = true
     /\ createdAt task = 7%Z
     /\ getTaskById "2" this' = Some task
     /\ (forall k, k <> "2" -> getTaskById k this' = getTaskById k exampleService)
     /\ nextId this' = nextId exampleService)
  /\ createTask (mkData (Str "Plan") (Str "") (Str "low")) (Some "") (Some true) None 7
       exampleService
     = createTask (mkData (Str "Plan") (Str "") (Str "low")) None (Some true) None 7
         exampleService.
Proof.
  apply (createTask_with_given_id (mkData (Str "Plan") (Str "") (Str "low")) "2"
           (Some true) None 7 exampleService).
  split; [exists "Plan"; split; [reflexivity | discriminate] |].
  split; [simpl; auto | now exists ""].
Defined.

Lemma createTask_reports_first_broken_rule_witness :
  createTask (mkData (Str "Plan") (Num 3) (Str "urgent")) None None None 7 exampleService
    = (Throw "Invalid task data: Priority must be one of low, medium, high.",
       exampleService).
Proof.
  apply (proj1 (proj2 (createTask_reports_first_broken_rule
                         (mkData (Str "Plan") (Num 3) (Str "urgent")) None None None 7
                         exampleService)) "Plan").
  - reflexivity.
  - discriminate.
  - simpl. intuition discriminate.
Defined.

(** ** Updating *)

Lemma withText_same (task : Task) :
  withText task (title task) (description task) (priority task) = task.
Proof. now destruct task. Qed.

Lemma updatedTask_twice (task : Task) (data : TaskData) :
  updatedTask (updatedTask task data) data = updatedTask task data.
Proof.
  unfold updatedTask, withText; cbn [id title description priority completed createdAt].
  destruct (isDefined (data_title data)), (isDefined (data_description data)),
    (isDefined (data_priority data)); reflexivity.
Qed.

(** X4: an update that supplies no field succeeds on every stored id,
    returns the stored record, and leaves the service exactly as it was. *)
Theorem updateTask_without_fields (id0 : TaskId) (this : TaskService) (task : Task) :
  getTaskById id0 this = Some task ->
  updateTask id0 (mkData Undefined Undefined Undefined) this = (Return (Some task), this).
Proof.
  intros Hget.
  destruct (updateTask_cases id0 (mkData Undefined Undefined Undefined) this task Hget)
    as [(message & E & _) | (E & _)].
  - unfold updateTask, bind, storeGet, throwIf in E. unfold getTaskById in Hget.
    rewrite Hget in E. discriminate E.
  - rewrite E. unfold updatedTask; cbn [isDefined data_title data_description data_priority].
    rewrite withText_same, (set_same _ _ _ Hget). now rewrite service_eta.
Qed.

Lemma updateTask_without_fields_witness :
  updateTask "2" (mkData Undefined Undefined Undefined) exampleService
    = (Return (Some (mkTask "2" "Research Web Components"
                       "Look into Shoelace and other component libraries" "low" true
                       (1001 - 86400000))),
       exampleService).
Proof.
  apply (updateTask_without_fields "2" exampleService). reflexivity.
Defined.

(** X5: an update that succeeds can be repeated: the same call on the
    resulting service returns the same record and changes nothing more. *)
Theorem updateTask_repeated (id0 : TaskId) (data : TaskData) (this this1 : TaskService)
    (updated : Task) :
  updateTask id0 data this = (Return (Some updated), this1) ->
  updateTask id0 data this1 = (Return (Some updated), this1).
Proof.
  intros H.
  destruct (getTaskById id0 this) as [task|] eqn:Hget;
    [| rewrite (updateTask_absent _ _ _ Hget) in H; discriminate H].
  destruct (updateTask_cases id0 data this task Hget) as [(m & E & _) | (E & _)];
    rewrite E in H; [discriminate H |].
  injection H as <- <-.
  assert (Hget1 : getTaskById id0
            (mkService (JsMap.set id0 (updatedTask task data) (taskStore this))
               (nextId this)) = Some (updatedTask task data))
    by apply get_set_eq.
  destruct (updateTask_cases id0 data _ _ Hget1) as [(m & E1 & _) | (E1 & _)].
  - exfalso. revert E E1. unfold updateTask, bind, storeGet, throwIf.
    unfold getTaskById in Hget, Hget1. rewrite Hget, Hget1.
    destruct (isDefined (data_title data) && _); [discriminate |].
    destruct (isDefined (data_priority data) && _); [discriminate |].
    destruct (isDefined (data_description data) && _); discriminate.
  - rewrite E1. cbn [taskStore nextId]. now rewrite updatedTask_twice, set_twice.
Qed.

Lemma updateTask_repeated_witness :
  updateTask "1" (mkData (Str " Tidy up ") Undefined (Str "high"))
    (snd (updateTask "1" (mkData (Str " Tidy up ") Undefined (Str "high")) exampleService))
  = (Return (Some (mkTask "1" "Tidy up" "Initial setup for the Shoelace and HTMX demo"
                     "high" false 1000)),
     snd (updateTask "1" (mkData (Str " Tidy up ") Undefined (Str "high")) exampleService)).
Proof.
  apply (updateTask_repeated "1" (mkData (Str " Tidy up ") Undefined (Str "high"))
           exampleService). reflexivity.
Defined.

(** X6: an update that succeeds merges the supplied fields over the stored
    record: a field left out keeps its value, a supplied title is stored
    trimmed, a supplied description and priority as given; [id],
    [completed] and [createdAt] never change.  The merged record replaces
    the old one in place; no other task, the order of the entries and the
    counter are touched. *)
Theorem updateTask_merges_supplied_fields (id0 : TaskId) (data : TaskData)
    (this this' : TaskService) (task updated : Task) :
  getTaskById id0 this = Some task ->
  updateTask id0 data this = (Return (Some updated), this') ->
  id updated = id task
  /\ completed updated = completed task
  /\ createdAt updated = createdAt task
  /\ title updated
     = match data_title data with Undefined => title task | v => trim (asString v) end
  /\ description updated
     = match data_description data with Undefined => description task | v => asString v end
  /\ priority updated
     = match data_priority data with Undefined => priority task | v => asString v end
  /\ getTaskById id0 this' = Some updated
  /\ (forall k, k <> id0 -> getTaskById k this' = getTaskById k this)
  /\ JsMap.keys (taskStore this') = JsMap.keys (taskStore this)
  /\ nextId this' = nextId this.
Proof.
  intros Hget H.
  destruct (updateTask_cases id0 data this task Hget) as [(m & E & _) | (E & _)];
    rewrite E in H; [discriminate H |].
  injection H as <- <-. unfold updatedTask, withText.
  cbn [id title description priority completed createdAt taskStore nextId].
  repeat (split; [reflexivity |]).
  split; [now destruct (data_title data) |].
  split; [now destruct (data_description data) |].
  split; [now destruct (data_priority data) |].
  split; [apply get_set_eq |].
  split; [intros k Hk; apply get_set_ne; now apply not_eq_sym |].
  split; [| reflexivity].
  now apply (keys_set_present _ _ task).
Qed.

Lemma updateTask_merges_supplied_fields_witness :
  id (mkTask "1" "Tidy up" "Initial setup for the Shoelace and HTMX demo" "high" false 1000)
    = "1"
  /\ false = false
  /\ 1000%Z = 1000%Z
  /\ "Tidy up" = trim " Tidy up "
  /\ "Initial setup for the Shoelace and HTMX demo"
     = "Initial setup for the Shoelace and HTMX demo"
  /\ "high" = "high"
  /\ getTaskById "1"
       (snd (updateTask "1" (mkData (Str " Tidy up ") Undefined (Str "high")) exampleService))
     = Some (mkTask "1" "Tidy up" "Initial setup for the Shoelace and HTMX demo" "high"
               false 1000)
  /\ (forall k, k <> "1" ->
      getTaskById k
        (snd (updateTask "1" (mkData (Str " Tidy up ") Undefined (Str "high"))
                exampleService))
      = getTaskById k exampleService)
  /\ JsMap.keys
       (taskStore
          (snd (updateTask "1" (mkData (Str " Tidy up ") Undefined (Str "high"))
                  exampleService)))
     = JsMap.keys (taskStore exampleService)
  /\ nextId
       (snd (updateTask "1" (mkData (Str " Tidy up ") Undefined (Str "high")) exampleService))
     = nextId exampleService.
Proof.
  apply (updateTask_merges_supplied_fields "1"
           (mkData (Str " Tidy up ") Undefined (Str "high")) exampleService
           (snd (updateTask "1" (mkData (Str " Tidy up ") Undefined (Str "high"))
                   exampleService))
           (mkTask "1" "Complete the project setup"
              "Initial setup for the Shoelace and HTMX demo" "medium" false 1000)
           (mkTask "1" "Tidy up" "Initial setup for the Shoelace and HTMX demo" "high"
              false 1000));
    reflexivity.
Defined.

(** ** Deleting *)

Lemma has_true_iff (k : TaskId) (m : JsMap.t) :
  JsMap.has k m = true <-> exists v, JsMap.get k m = Some v.
Proof.
  unfold JsMap.has. destruct (JsMap.get k m) as [v|].
  - split; [now exists v | reflexivity].
  - split; [discriminate | now intros (v & H)].
Qed.

(** X7: in a reachable state [deleteTask(id)] tells whether the id was
    stored; afterwards the id is gone, every other task is where it was,
    in the same order, and the counter is untouched.  Deleting once more
    returns [false] and changes nothing. *)
Theorem deleteTask_removes_one_record (id0 : TaskId) (this : TaskService) :
  reachable this ->
  exists this',
    deleteTask id0 this
      = (Return (match getTaskById id0 this with Some _ => true | None => false end), this')
    /\ getTaskById id0 this' = None
    /\ (forall k, k <> id0 -> getTaskById k this' = getTaskById k this)
    /\ JsMap.keys (taskStore this')
       = filter (fun k => negb (k =? id0)) (JsMap.keys (taskStore this))
    /\ nextId this' = nextId this
    /\ deleteTask id0 this' = (Return false, this').
Proof.
  intros Hreach. destruct (reachable_Invariant this Hreach) as [_ Hnd _].
  unfold deleteTask, storeDelete, getTaskById, JsMap.has.
  eexists. split; [reflexivity |]. cbn [taskStore nextId].
  pose proof (get_delete_eq id0 (taskStore this) Hnd) as Hgone.
  split; [exact Hgone |].
  split; [intros k Hk; apply get_delete_ne; now apply not_eq_sym |].
  split; [now apply keys_delete |].
  split; [reflexivity |].
  now rewrite Hgone, (delete_absent _ _ Hgone).
Qed.

Lemma deleteTask_removes_one_record_witness :
  exists this',
    deleteTask "2" exampleRun = (Return true, this')
    /\ getTaskById "2" this' = None
    /\ (forall k, k <> "2" -> getTaskById k this' = getTaskById k exampleRun)
    /\ JsMap.keys (taskStore this') = ["1"; "3"; "4"]
    /\ nextId this' = 5%N
    /\ deleteTask "2" this' = (Return false, this').
Proof.
  apply (deleteTask_removes_one_record "2" exampleRun).
  unfold exampleRun, exampleService. repeat apply reachable_perform. apply reachable_new.
Defined.

(** ** Identifiers over a run *)

Lemma nextId_performAll (ops : list Op) (this : TaskService) :
  (nextId this <= counterLimit)%N ->
  (nextId this <= nextId (performAll ops this) <= counterLimit)%N.
Proof.
  unfold performAll. revert this.
  induction ops as [|op ops IH]; intros this Hle; cbn [fold_left]; [lia |].
  pose proof (nextId_perform op this Hle) as Hop.
  specialize (IH (perform op this) (proj2 Hop)). lia.
Qed.

Lemma reachable_performAll (ops : list Op) (this : TaskService) :
  reachable this -> reachable (performAll ops this).
Proof.
  unfold performAll. revert this.
  induction ops as [|op ops IH]; intros this H; cbn [fold_left]; [exact H |].
  apply IH. now apply reachable_perform.
Qed.

Lemma created_id (data : TaskData) (now : Z) (this this' : TaskService) (task : Task) :
  createTask data None None None now this = (Return task, this') ->
  id task = Number_toString (nextId this) /\ nextId this' = Number_add (nextId this) 1.
Proof.
  intros H. destruct (createTask_cases data now this) as [(m & E & _) | (E & _)];
    rewrite E in H; [discriminate H |].
  injection H as <- <-. now split.
Qed.

(** X8: an id handed out while the counter is below 2^53 is handed out
    once.  Whatever operations follow the create that returned it,
    deletion of the new task included, no later create returns that id
    again. *)
Theorem created_ids_are_never_reused (data1 data2 : TaskData) (now1 now2 : Z)
    (ops : list Op) (this this1 this2 : TaskService) (task1 task2 : Task) :
  (nextId this < counterLimit)%N ->
  createTask data1 None None None now1 this = (Return task1, this1) ->
  createTask data2 None None None now2 (performAll ops this1) = (Return task2, this2) ->
  id task1 <> id task2.
Proof.
  intros Hlt H1 H2. apply created_id in H1 as [E1 Hn1]. apply created_id in H2 as [E2 _].
  rewrite Number_add_exact in Hn1 by lia.
  rewrite E1, E2. intros E. apply Number_toString_inj in E.
  assert (Hle : (nextId this1 <= counterLimit)%N) by lia.
  pose proof (nextId_performAll ops this1 Hle). lia.
Qed.

Lemma created_ids_are_never_reused_witness :
  id (mkTask "4" "Buy milk" "" "low" false 2000)
    <> id (mkTask "5" "Buy milk" "" "low" false 2100).
Proof.
  apply (created_ids_are_never_reused
           (mkData (Str "Buy milk") (Str "") (Str "low"))
           (mkData (Str "Buy milk") (Str "") (Str "low")) 2000 2100
           [Delete "4"; Toggle "1"] exampleService
           (snd (createTask (mkData (Str "Buy milk") (Str "") (Str "low")) None None None
                   2000 exampleService))
           (snd (createTask (mkData (Str "Buy milk") (Str "") (Str "low")) None None None
                   2100
                   (performAll [Delete "4"; Toggle "1"]
                      (snd (createTask (mkData (Str "Buy milk") (Str "") (Str "low")) None
                              None None 2000 exampleService))))));
    reflexivity.
Defined.

(** ** What an operation may change of a stored task *)

Lemma perform_get (op : Op) (this : TaskService) (k : TaskId) (task task' : Task) :
  reachable this ->
  (forall data now, op = Create data now -> (nextId this < counterLimit)%N) ->
  getTaskById k this = Some task ->
  getTaskById k (perform op this) = Some task' ->
  task' = task
  \/ (exists data, op = Update k data /\ task' = updatedTask task data)
  \/ (op = Toggle k /\ task' = withCompleted task (negb (completed task))).
Proof.
  intros Hreach Hlt Hget Hget'. pose proof (reachable_Invariant this Hreach) as Hinv.
  destruct op as [data now | id0 data | id0 | id0]; cbn [perform] in Hget'.
  - destruct (createTask_cases data now this) as [(m & E & _) | (E & _)];
      rewrite E in Hget'; cbn [snd] in Hget'; [left; congruence |].
    left. unfold getTaskById in Hget'. cbn [taskStore] in Hget'.
    rewrite get_set_ne in Hget'; [unfold getTaskById in Hget; congruence |].
    intros <-. pose proof (fresh_key this Hinv (Hlt data now eq_refl)). congruence.
  - destruct (getTaskById id0 this) as [t0|] eqn:H0;
      [| rewrite (updateTask_absent _ _ _ H0) in Hget'; left; cbn [snd] in Hget'; congruence].
    destruct (updateTask_cases id0 data this t0 H0) as [(m & E & _) | (E & _)];
      rewrite E in Hget'; cbn [snd] in Hget'; [left; congruence |].
    unfold getTaskById in Hget'. cbn [taskStore] in Hget'.
    destruct (String.eqb_spec id0 k) as [-> | Hne].
    + rewrite get_set_eq in Hget'. right; left. exists data. split; congruence.
    + rewrite get_set_ne in Hget' by exact Hne. left. unfold getTaskById in Hget. congruence.
  - destruct (getTaskById id0 this) as [t0|] eqn:H0;
      [| rewrite (toggle_absent _ _ H0) in Hget'; left; cbn [snd] in Hget'; congruence].
    rewrite (toggle_present _ _ _ H0) in Hget'. cbn [snd] in Hget'.
    unfold getTaskById in Hget'. cbn [taskStore] in Hget'.
    destruct (String.eqb_spec id0 k) as [-> | Hne].
    + rewrite get_set_eq in Hget'. right; right. split; congruence.
    + rewrite get_set_ne in Hget' by exact Hne. left. unfold getTaskById in Hget. congruence.
  - cbn [deleteTask storeDelete snd] in Hget'. unfold getTaskById in Hget'.
    cbn [taskStore] in Hget'.
    destruct (String.eqb_spec id0 k) as [-> | Hne].
    + destruct Hinv as [_ Hnd _]. rewrite (get_delete_eq k _ Hnd) in Hget'. discriminate.
    + rewrite get_delete_ne in Hget' by exact Hne. left. unfold getTaskById in Hget. congruence.
Qed.

(** X9: whatever single operation runs in a reachable state, a create only
    while the counter is below 2^53, a task that is still stored afterwards
    has the [id] and the [createdAt] it had before; its [completed] flag
    changes only under a toggle of that task, and its title, description
    and priority only under an update of that task. *)
Theorem stored_task_changes_only_by_its_own_operations (op : Op) (this : TaskService)
    (k : TaskId) (task task' : Task) :
  reachable this ->
  (forall data now, op = Create data now -> (nextId this < counterLimit)%N) ->
  getTaskById k this = Some task ->
  getTaskById k (perform op this) = Some task' ->
  id task' = id task
  /\ createdAt task' = createdAt task
  /\ (op <> Toggle k -> completed task' = completed task)
  /\ ((forall data, op <> Update k data) ->
      title task' = title task
      /\ description task' = description task
      /\ priority task' = priority task).
Proof.
  intros Hreach Hlt Hget Hget'.
  destruct (perform_get op this k task task' Hreach Hlt Hget Hget')
    as [-> | [(data & -> & ->) | (-> & ->)]].
  - split; [reflexivity |]. split; [reflexivity |]. split; [reflexivity |].
    intros _. now repeat split.
  - split; [reflexivity |]. split; [reflexivity |]. split; [reflexivity |].
    intros Hno. now contradiction (Hno data).
  - split; [reflexivity |]. split; [reflexivity |].
    split; [intros Hno; now contradiction Hno |].
    intros _. now repeat split.
Qed.

Lemma stored_task_changes_only_by_its_own_operations_witness :
  id (mkTask "1" "Complete the project setup"
        "Initial setup for the Shoelace and HTMX demo" "medium" false 1000) = "1"
  /\ 1000%Z = 1000%Z
  /\ (Create (mkData (Str "Buy milk") (Str "") (Str "low")) 2000 <> Toggle "1" ->
      false = false)
  /\ ((forall data,
         Create (mkData (Str "Buy milk") (Str "") (Str "low")) 2000 <> Update "1" data) ->
      "Complete the project setup" = "Complete the project setup"
      /\ "Initial setup for the Shoelace and HTMX demo"
         = "Initial setup for the Shoelace and HTMX demo"
      /\ "medium" = "medium").
Proof.
  apply (stored_task_changes_only_by_its_own_operations
           (Create (mkData (Str "Buy milk") (Str "") (Str "low")) 2000) exampleService "1"
           (mkTask "1" "Complete the project setup"
              "Initial setup for the Shoelace and HTMX demo" "medium" false 1000)
           (mkTask "1" "Complete the project setup"
              "Initial setup for the Shoelace and HTMX demo" "medium" false 1000)).
  - apply reachable_new.
  - intros data now _. reflexivity.
  - reflexivity.
  - reflexivity.
Defined.

(** ** Stored priorities *)

Lemma includes_asString (v : Value) :
  Array_includes TASK_PRIORITIES v = true -> In (asString v) TASK_PRIORITIES.
Proof.
  intros H. apply includes_priorities in H.
  destruct H as [-> | [-> | ->]]; simpl; auto.
Qed.

Lemma priorities_perform (op : Op) (this : TaskService) :
  (forall k t, In (k, t) (taskStore this) -> In (priority t) TASK_PRIORITIES) ->
  forall k t, In (k, t) (taskStore (perform op this)) -> In (priority t) TASK_PRIORITIES.
Proof.
  intros Hall k t. destruct op as [data now | id0 data | id0 | id0]; cbn [perform].
  - destruct (createTask_cases data now this) as [(m & -> & _) | (-> & _ & _ & Hp)];
      cbn [snd taskStore]; [apply Hall |].
    intros Hin. apply In_set in Hin as [E | Hin]; [| now apply (Hall k)].
    injection E as -> ->. cbn [createdTask priority]. now apply includes_asString.
  - destruct (getTaskById id0 this) as [t0|] eqn:H0;
      [| rewrite (updateTask_absent _ _ _ H0); apply Hall].
    destruct (updateTask_cases id0 data this t0 H0) as [(m & -> & _) | (-> & _ & Hp & _)];
      cbn [snd taskStore]; [apply Hall |].
    intros Hin. apply In_set in Hin as [E | Hin]; [| now apply (Hall k)].
    injection E as -> ->. unfold updatedTask, withText; cbn [priority].
    destruct Hp as [-> | Hp].
    + cbn [isDefined]. apply (Hall id0). now apply JsMap_get_entry.
    + destruct (data_priority data); try discriminate Hp.
      cbn [isDefined]. now apply includes_asString.
  - destruct (getTaskById id0 this) as [t0|] eqn:H0;
      [| rewrite (toggle_absent _ _ H0); apply Hall].
    rewrite (toggle_present _ _ _ H0). cbn [snd taskStore].
    intros Hin. apply In_set in Hin as [E | Hin]; [| now apply (Hall k)].
    injection E as -> ->. cbn [withCompleted priority].
    apply (Hall id0). now apply JsMap_get_entry.
  - cbn [deleteTask storeDelete snd taskStore]. intros Hin.
    apply (Hall k). now apply (In_delete id0).
Qed.

(** X10: in every reachable state the priority of every stored task is
    [low], [medium] or [high]. *)
Theorem stored_priorities_are_enumerated (this : TaskService) (k : TaskId) (task : Task) :
  reachable this ->
  In (k, task) (taskStore this) ->
  priority task = "low" \/ priority task = "medium" \/ priority task = "high".
Proof.
  intros Hreach Hin.
  assert (H : In (priority task) TASK_PRIORITIES).
  { revert k task Hin. induction Hreach as [now1 now2 now3 | op this _ IH].
    - rewrite newTaskService_eq. cbn [taskStore].
      intros k task [E | [E | [E | []]]]; injection E as <- <-; simpl; auto.
    - now apply priorities_perform. }
  simpl in H. destruct H as [<- | [<- | [<- | []]]]; auto.
Qed.

Lemma stored_priorities_are_enumerated_witness :
  "low" = "low" \/ "low" = "medium" \/ "low" = "high".
Proof.
  apply (stored_priorities_are_enumerated exampleRun "4"
           (mkTask "4" "Tea" "" "low" false 2000)).
  - unfold exampleRun, exampleService. repeat apply reachable_perform.
    apply reachable_new.
  - vm_compute. tauto.
Defined.

(** ** Listing *)

Section Stability.

Variable A : Type.
Variable key : A -> Z.

(** Elements with one key come out of the sort in the order they went
    in. *)
Lemma sortInsert_same_key (c : Z) (x : A) (l : list A) :
  filter (fun a => (key a =? c)%Z) (sortInsert (fun a b => (key b - key a)%Z) x l)
    = filter (fun a => (key a =? c)%Z) (x :: l).
Proof.
  induction l as [|y l IH]; [reflexivity |].
  cbn [sortInsert]. destruct (Z.leb_spec (key y - key x) 0) as [Hle | Hgt]; [reflexivity |].
  cbn [filter] in *. rewrite IH.
  destruct (Z.eqb_spec (key x) c) as [Hx | Hx], (Z.eqb_spec (key y) c) as [Hy | Hy];
    try reflexivity.
  lia.
Qed.

Lemma Array_sort_same_key (c : Z) (l : list A) :
  filter (fun a => (key a =? c)%Z) (Array_sort (fun a b => (key b - key a)%Z) l)
    = filter (fun a => (key a =? c)%Z) l.
Proof.
  induction l as [|x l IH]; [reflexivity |].
  cbn [Array_sort]. rewrite sortInsert_same_key. cbn [filter]. now rewrite IH.
Qed.

End Stability.

(** X11: [getAllTasks("completed")] holds exactly the stored tasks that are
    completed, [getAllTasks("active")] exactly those that are not, and any
    other status value lists what no status lists.  Whatever the status,
    no task of the list is older than one that follows it. *)
Theorem getAllTasks_filters_by_status (this : TaskService) :
  (forall task,
      In task (getAllTasks (Some "completed") this)
      <-> In task (JsMap.values (taskStore this)) /\ completed task = true)
  /\ (forall task,
        In task (getAllTasks (Some "active") this)
        <-> In task (JsMap.values (taskStore this)) /\ completed task = false)
  /\ (forall s, s <> "active" -> s <> "completed" ->
      getAllTasks (Some s) this = getAllTasks None this)
  /\ (forall status,
        StronglySorted (fun a b => (createdAt a >= createdAt b)%Z)
          (getAllTasks status this)).
Proof.
  split; [| split; [| split]].
  - intros task. rewrite getAllTasks_completed. rewrite <- filter_In. split; intros H.
    + now apply (Permutation_in _ (Array_sort_Permutation Task createdAt _)).
    + now apply (Permutation_in _ (Permutation_sym (Array_sort_Permutation Task createdAt _))).
  - intros task. rewrite getAllTasks_active.
    rewrite <- negb_true_iff, <- (filter_In (fun t => negb (completed t))). split; intros H.
    + now apply (Permutation_in _ (Array_sort_Permutation Task createdAt _)).
    + now apply (Permutation_in _ (Permutation_sym (Array_sort_Permutation Task createdAt _))).
  - intros s Ha Hc. unfold getAllTasks.
    apply String.eqb_neq in Ha, Hc. now rewrite Ha, Hc.
  - intros status. unfold getAllTasks. apply Array_sort_sorted.
Qed.

(** X12: the sort of [getAllTasks] is stable: tasks created in the same
    millisecond are listed in the order of the store, that is, the order in
    which they were first stored. *)
Theorem getAllTasks_keeps_insertion_order_on_ties (this : TaskService) (c : Z) :
  filter (fun task => (createdAt task =? c)%Z) (getAllTasks None this)
    = filter (fun task => (createdAt task =? c)%Z) (JsMap.values (taskStore this)).
Proof. rewrite getAllTasks_all. apply Array_sort_same_key. Qed.

(** Seeded in one millisecond, tasks 1 and 3 are listed in that order. *)
Example seeded_same_millisecond :
  map id (getAllTasks None (newTaskService 1000 1000 1000)) = ["1"; "3"; "2"].
Proof. reflexivity. Qed.

(** ** Stored ids and the router *)

Lemma allWord_string_of_uint (d : Decimal.uint) :
  allWord (NilEmpty.string_of_uint d) = true.
Proof. induction d; simpl; auto. Qed.

(** The decimal form of a number is a word token. *)
Lemma Number_toString_token (n : N) : isWordToken (Number_toString n) = true.
Proof.
  unfold isWordToken, Number_toString. rewrite allWord_string_of_uint, andb_true_r.
  apply negb_true_iff, String.eqb_neq.
  destruct n as [|p]; [discriminate |]. cbn [N.to_uint].
  pose proof (DecimalPos.Unsigned.to_uint_nonnil p) as Hp.
  destruct (Pos.to_uint p); [contradiction | | | | | | | | | |]; discriminate.
Qed.

Lemma stored_key_token (this : TaskService) (k : TaskId) (task : Task) :
  reachable this -> In (k, task) (taskStore this) -> isWordToken k = true.
Proof.
  intros Hreach Hin. destruct (reachable_Invariant this Hreach) as [_ _ He].
  destruct (He k task Hin) as (_ & (n & _ & _ & ->) & _). apply Number_toString_token.
Qed.

(** Where the router sends the five task routes of a word token. *)
Lemma routes_of_token (req : Request) (token : string) (now : Z) :
  isWordToken token = true ->
  handleApiRequest req ("/api/tasks/" ++ token) "GET" now = getTaskByIdHandler req token
  /\ handleApiRequest req ("/api/tasks/" ++ token) "PUT" now = updateTaskHandler req token
  /\ handleApiRequest req ("/api/tasks/" ++ token) "DELETE" now
     = deleteTaskHandler req token
  /\ handleApiRequest req ("/api/tasks/" ++ token ++ "/edit") "GET" now
     = getTaskEditFormHandler req token
  /\ handleApiRequest req ("/api/tasks/" ++ token ++ "/toggle") "PUT" now
     = toggleTaskHandler req token.
Proof.
  intros Ht. pose proof (isWordToken_allWord token Ht) as Hw.
  pose proof (matchTaskPath_token "" token Ht eq_refl) as Hplain.
  rewrite append_empty_r in Hplain.
  unfold handleApiRequest.
  rewrite !task_path_not_collection, Hplain.
  rewrite !(matchTaskPath_other_suffix "/edit" "" token Ht eq_refl) by discriminate.
  rewrite !(matchTaskPath_other_suffix "/toggle" "" token Ht eq_refl) by discriminate.
  rewrite !(matchTaskPath_other_suffix "/toggle" "/edit" token Ht eq_refl) by discriminate.
  rewrite (matchTaskPath_token "/edit" token Ht eq_refl).
  rewrite (matchTaskPath_token "/toggle" token Ht eq_refl).
  rewrite (params_id_task_path token Hw), (params_id_edit_path token Hw),
    (params_id_toggle_path token Hw).
  cbn [andb String.eqb Ascii.eqb Bool.eqb]. now repeat split.
Qed.

(** X13: every task of a reachable store can be addressed through the API:
    its id is a word token, so a GET on [/api/tasks/{id}] answers 200 with
    its fragment and a GET on [/api/tasks/{id}/edit] with its edit form,
    and neither changes the service. *)
Theorem stored_tasks_are_addressable (req : Request) (now : Z) (this : TaskService)
    (k : TaskId) (task : Task) :
  reachable this ->
  In (k, task) (taskStore this) ->
  isWordToken k = true
  /\ handleApiRequest req ("/api/tasks/" ++ k) "GET" now this
     = (Return (htmlResponse (taskToHtml task)), this)
  /\ handleApiRequest req ("/api/tasks/" ++ k ++ "/edit") "GET" now this
     = (Return (htmlResponse (taskEditFormHtml task)), this).
Proof.
  intros Hreach Hin. pose proof (stored_key_token this k task Hreach Hin) as Ht.
  destruct (reachable_Invariant this Hreach) as [_ Hnd _].
  pose proof (In_get k task _ Hnd Hin) as Hget.
  destruct (routes_of_token req k now Ht) as (-> & _ & _ & -> & _).
  split; [exact Ht |].
  unfold getTaskByIdHandler, getTaskEditFormHandler, getTaskById. now rewrite Hget.
Qed.

Lemma stored_tasks_are_addressable_witness :
  isWordToken "4" = true
  /\ handleApiRequest (mkRequest "GET" "/api/tasks/4" [] (Return [])) ("/api/tasks/" ++ "4")
       "GET" 0 exampleRun
     = (Return (htmlResponse (taskToHtml (mkTask "4" "Tea" "" "low" false 2000))),
        exampleRun)
  /\ handleApiRequest (mkRequest "GET" "/api/tasks/4" [] (Return []))
       ("/api/tasks/" ++ "4" ++ "/edit") "GET" 0 exampleRun
     = (Return (htmlResponse (taskEditFormHtml (mkTask "4" "Tea" "" "low" false 2000))),
        exampleRun).
Proof.
  apply (stored_tasks_are_addressable (mkRequest "GET" "/api/tasks/4" [] (Return [])) 0
           exampleRun "4" (mkTask "4" "Tea" "" "low" false 2000)).
  - unfold exampleRun, exampleService. repeat apply reachable_perform.
    apply reachable_new.
  - vm_compute. tauto.
Defined.

(** X14: toggling through the router is its own inverse.  For a task of a
    reachable store, a PUT on [/api/tasks/{id}/toggle] answers with the
    fragment of the task with its flag flipped, and a second PUT answers
    with the fragment of the task as it was and restores the service. *)
Theorem toggle_route_twice (req : Request) (now : Z) (this : TaskService)
    (k : TaskId) (task : Task) :
  reachable this ->
  In (k, task) (taskStore this) ->
  exists this1,
    handleApiRequest req ("/api/tasks/" ++ k ++ "/toggle") "PUT" now this
      = (Return (htmlResponse (taskToHtml (withCompleted task (negb (completed task))))),
         this1)
    /\ handleApiRequest req ("/api/tasks/" ++ k ++ "/toggle") "PUT" now this1
      = (Return (htmlResponse (taskToHtml task)), this).
Proof.
  intros Hreach Hin. pose proof (stored_key_token this k task Hreach Hin) as Ht.
  destruct (reachable_Invariant this Hreach) as [_ Hnd _].
  pose proof (In_get k task _ Hnd Hin) as Hget.
  destruct (routes_of_token req k now Ht) as (_ & _ & _ & _ & ->).
  unfold toggleTaskHandler, bind.
  rewrite (toggle_present k this task Hget).
  eexists. split; [reflexivity |].
  assert (Hget1 : getTaskById k
            (mkService (JsMap.set k (withCompleted task (negb (completed task)))
                          (taskStore this)) (nextId this))
          = Some (withCompleted task (negb (completed task))))
    by apply get_set_eq.
  rewrite (toggle_present _ _ _ Hget1). cbn [taskStore nextId].
  rewrite withCompleted_twice, (set_set_restore _ _ _ _ Hget). now rewrite service_eta.
Qed.

Lemma toggle_route_twice_witness :
  exists this1,
    handleApiRequest (mkRequest "PUT" "/api/tasks/1/toggle" [] (Return []))
      ("/api/tasks/" ++ "1" ++ "/toggle") "PUT" 0 exampleService
      = (Return (htmlResponse
                   (taskToHtml (mkTask "1" "Complete the project setup"
                                  "Initial setup for the Shoelace and HTMX demo" "medium"
                                  true 1000))), this1)
    /\ handleApiRequest (mkRequest "PUT" "/api/tasks/1/toggle" [] (Return []))
         ("/api/tasks/" ++ "1" ++ "/toggle") "PUT" 0 this1
      = (Return (htmlResponse
                   (taskToHtml (mkTask "1" "Complete the project setup"
                                  "Initial setup for the Shoelace and HTMX demo" "medium"
                                  false 1000))), exampleService).
Proof.
  apply (toggle_route_twice (mkRequest "PUT" "/api/tasks/1/toggle" [] (Return [])) 0
           exampleService "1"
           (mkTask "1" "Complete the project setup"
              "Initial setup for the Shoelace and HTMX demo" "medium" false 1000)).
  - apply reachable_new.
  - vm_compute. tauto.
Defined.

(** X15: deleting through the router.  For a task of a reachable store, a
    DELETE on [/api/tasks/{id}] answers 204 with no body; after it a GET on
    the same path answers the HTML alert with status 404, and a second
    DELETE the JSON envelope with status 404, neither changing the service
    again. *)
Theorem delete_route_then_get (req : Request) (now : Z) (this : TaskService)
    (k : TaskId) (task : Task) :
  reachable this ->
  In (k, task) (taskStore this) ->
  exists this1,
    handleApiRequest req ("/api/tasks/" ++ k) "DELETE" now this
      = (Return (mkResponse None 204 DEFAULT_CORS_HEADERS), this1)
    /\ handleApiRequest req ("/api/tasks/" ++ k) "GET" now this1
      = (Return (alertResponse "Task not found." 404 "danger"), this1)
    /\ handleApiRequest req ("/api/tasks/" ++ k) "DELETE" now this1
      = (Return (envelopeResponse "Task not found or could not be deleted." 404), this1).
Proof.
  intros Hreach Hin. pose proof (stored_key_token this k task Hreach Hin) as Ht.
  destruct (reachable_Invariant this Hreach) as [_ Hnd _].
  pose proof (In_get k task _ Hnd Hin) as Hget.
  destruct (routes_of_token req k now Ht) as (-> & _ & -> & _ & _).
  pose proof (get_delete_eq k (taskStore this) Hnd) as Hgone.
  exists (mkService (JsMap.delete k (taskStore this)) (nextId this)).
  split; [| split].
  - unfold deleteTaskHandler, deleteTask, storeDelete, bind, JsMap.has. now rewrite Hget.
  - unfold getTaskByIdHandler, getTaskById. cbn [taskStore]. now rewrite Hgone.
  - unfold deleteTaskHandler, deleteTask, storeDelete, bind, JsMap.has. cbn [taskStore nextId].
    now rewrite Hgone, (delete_absent _ _ Hgone).
Qed.

Lemma delete_route_then_get_witness :
  exists this1,
    handleApiRequest (mkRequest "DELETE" "/api/tasks/3" [] (Return [])) ("/api/tasks/" ++ "3")
      "DELETE" 0 exampleService
      = (Return (mkResponse None 204 DEFAULT_CORS_HEADERS), this1)
    /\ handleApiRequest (mkRequest "DELETE" "/api/tasks/3" [] (Return []))
         ("/api/tasks/" ++ "3") "GET" 0 this1
      = (Return (alertResponse "Task not found." 404 "danger"), this1)
    /\ handleApiRequest (mkRequest "DELETE" "/api/tasks/3" [] (Return []))
         ("/api/tasks/" ++ "3") "DELETE" 0 this1
      = (Return (envelopeResponse "Task not found or could not be deleted." 404), this1).
Proof.
  apply (delete_route_then_get (mkRequest "DELETE" "/api/tasks/3" [] (Return [])) 0
           exampleService "3"
           (mkTask "3" "Implement server endpoints" "Create the API for task management"
              "high" false 1002)).
  - apply reachable_new.
  - vm_compute. tauto.
Defined.

(** ** What a request may change *)

Lemma Harmless_read (method0 : string) (this : TaskService) (r : Response) :
  HtmlResponse r -> Harmless method0 this (Return r, this).
Proof.
  intros Hr. exists r, this. split; [reflexivity |].
  split; [now destruct Hr |]. now split.
Qed.

Lemma Harmless_write (method0 : string) (this this' : TaskService) (r : Response) :
  method0 <> "GET" -> firstn 3 (headers r) = DEFAULT_CORS_HEADERS ->
  ((400 <= status r)%Z -> this' = this) ->
  Harmless method0 this (Return r, this').
Proof.
  intros Hm Hh Hs. exists r, this'. split; [reflexivity |].
  split; [exact Hh |]. split; [exact Hs |]. intros E. contradiction.
Qed.

Lemma createTaskHandler_harmless (req : Request) (now : Z) (this : TaskService) :
  Harmless "POST" this (createTaskHandler req now this).
Proof.
  unfold createTaskHandler, tryCatch, bind, lift.
  destruct (formData req) as [entries | message].
  - match goal with
    | |- context [createTask ?d None None None now this] =>
        destruct (createTask_cases d now this) as [(m & -> & Hm) | (-> & _)]
    end.
    + unfold isValidationMessage in Hm. rewrite Hm.
      apply Harmless_write; [discriminate | reflexivity | reflexivity].
    + apply Harmless_write; [discriminate | reflexivity |].
      cbn [status htmlResponse]. lia.
  - destruct (startsWith message "Invalid task data:");
      (apply Harmless_write; [discriminate | reflexivity | reflexivity]).
Qed.

Lemma updateTaskHandler_harmless (req : Request) (id0 : TaskId) (this : TaskService) :
  Harmless "PUT" this (updateTaskHandler req id0 this).
Proof.
  unfold updateTaskHandler, tryCatch, bind, lift.
  destruct (formData req) as [entries | message].
  - destruct (getTaskById id0 this) as [task|] eqn:Hget.
    + match goal with
      | |- context [updateTask id0 ?d this] =>
          destruct (updateTask_cases id0 d this task Hget) as [(m & -> & Hm) | (-> & _)]
      end.
      * unfold isValidationMessage in Hm. rewrite Hm.
        apply Harmless_write; [discriminate | reflexivity | reflexivity].
      * apply Harmless_write; [discriminate | reflexivity |].
        cbn [status htmlResponse]. lia.
    + rewrite (updateTask_absent _ _ _ Hget).
      apply Harmless_write; [discriminate | reflexivity | reflexivity].
  - destruct (startsWith message "Invalid task data:");
      (apply Harmless_write; [discriminate | reflexivity | reflexivity]).
Qed.

Lemma toggleTaskHandler_harmless (req : Request) (id0 : TaskId) (this : TaskService) :
  Harmless "PUT" this (toggleTaskHandler req id0 this).
Proof.
  unfold toggleTaskHandler, bind.
  destruct (getTaskById id0 this) as [task|] eqn:Hget.
  - rewrite (toggle_present _ _ _ Hget).
    apply Harmless_write; [discriminate | reflexivity |]. cbn [status htmlResponse]. lia.
  - rewrite (toggle_absent _ _ Hget).
    apply Harmless_write; [discriminate | reflexivity | reflexivity].
Qed.

Lemma deleteTaskHandler_harmless (req : Request) (id0 : TaskId) (this : TaskService) :
  Harmless "DELETE" this (deleteTaskHandler req id0 this).
Proof.
  unfold deleteTaskHandler, deleteTask, storeDelete, bind, JsMap.has.
  destruct (JsMap.get id0 (taskStore this)) as [task|] eqn:Hget; cbn [negb].
  - apply Harmless_write; [discriminate | reflexivity |]. cbn. lia.
  - rewrite (delete_absent _ _ Hget), service_eta.
    apply Harmless_write; [discriminate | reflexivity | reflexivity].
Qed.

Lemma Harmless_method (method0 method1 : string) (this : TaskService)
    (result : Outcome Response * TaskService) :
  (method0 =? method1) = true -> Harmless method1 this result -> Harmless method0 this result.
Proof. intros E. apply String.eqb_eq in E. now subst. Qed.

(** Every answer of the API router is harmless in the sense above. *)
Lemma handleApiRequest_harmless (req : Request) (path method0 : string) (now : Z)
    (this : TaskService) :
  Harmless method0 this (handleApiRequest req path method0 now this).
Proof.
  assert (Hfall : Harmless method0 this
            (ret (envelopeResponse "API Endpoint Not Found" 404) this)).
  { exists (envelopeResponse "API Endpoint Not Found" 404), this.
    split; [reflexivity |]. split; [reflexivity |]. now split. }
  unfold handleApiRequest.
  destruct ((path =? "/api/tasks") && (method0 =? "GET")) eqn:G1.
  { destruct (getTasksHandler_html req this) as (r & -> & Hr). now apply Harmless_read. }
  destruct ((path =? "/api/tasks") && (method0 =? "POST")) eqn:G2.
  { apply andb_true_iff in G2 as [_ G2].
    apply (Harmless_method _ _ _ _ G2), createTaskHandler_harmless. }
  destruct (matchTaskPath "" path && (method0 =? "GET")) eqn:G3.
  { destruct (getTaskByIdHandler_html req
                (params_id (getPathParams "/api/tasks/:id" path)) this) as (r & -> & Hr).
    now apply Harmless_read. }
  destruct (matchTaskPath "" path && (method0 =? "PUT")) eqn:G4.
  { apply andb_true_iff in G4 as [_ G4].
    apply (Harmless_method _ _ _ _ G4), updateTaskHandler_harmless. }
  destruct (matchTaskPath "" path && (method0 =? "DELETE")) eqn:G5.
  { apply andb_true_iff in G5 as [_ G5].
    apply (Harmless_method _ _ _ _ G5), deleteTaskHandler_harmless. }
  destruct (matchTaskPath "/edit" path && (method0 =? "GET")) eqn:G6.
  { destruct (getTaskEditFormHandler_html req
                (params_id (getPathParams "/api/tasks/:id/edit" path)) this)
      as (r & -> & Hr).
    now apply Harmless_read. }
  destruct (matchTaskPath "/toggle" path && (method0 =? "PUT")) eqn:G7.
  { apply andb_true_iff in G7 as [_ G7].
    apply (Harmless_method _ _ _ _ G7), toggleTaskHandler_harmless. }
  exact Hfall.
Qed.

(** X16: a request the API router answers with a failure status, 400 or
    above, has changed nothing: the service after it is the service before
    it. *)
Theorem failed_requests_change_nothing (req : Request) (path method0 : string) (now : Z)
    (this this' : TaskService) (r : Response) :
  handleApiRequest req path method0 now this = (Return r, this') ->
  (400 <= status r)%Z ->
  this' = this.
Proof.
  intros Hrun Hfail.
  destruct (handleApiRequest_harmless req path method0 now this)
    as (r0 & this0 & E & _ & Hs & _).
  rewrite Hrun in E. injection E as <- <-. now apply Hs.
Qed.

Lemma failed_requests_change_nothing_witness :
  snd (handleApiRequest
         (mkRequest "PUT" "/api/tasks/1" [] (Return [("title", "  "); ("priority", "high")]))
         "/api/tasks/1" "PUT" 0 exampleService)
  = exampleService.
Proof.
  apply (failed_requests_change_nothing
           (mkRequest "PUT" "/api/tasks/1" [] (Return [("title", "  "); ("priority", "high")]))
           "/api/tasks/1" "PUT" 0 exampleService _
           (alertResponse "Invalid task data: Title cannot be empty." 400 "danger")).
  - reflexivity.
  - cbn [status alertResponse]. lia.
Defined.

(** X17: a GET never changes the service, whatever its path and query. *)
Theorem get_requests_change_nothing (req : Request) (path : string) (now : Z)
    (this : TaskService) :
  snd (handleApiRequest req path "GET" now this) = this.
Proof.
  destruct (handleApiRequest_harmless req path "GET" now this)
    as (r0 & this0 & -> & _ & _ & Hg).
  cbn [snd]. now apply Hg.
Qed.

(** ** Forms *)

Lemma entriesHas_get (name : string) (entries : Entries) :
  entriesHas name entries = false -> entriesGet name entries = None.
Proof. unfold entriesHas. now destruct (entriesGet name entries). Qed.

(** The data [createTaskHandler] hands to the service. *)
Lemma createTaskHandler_data (entries : Entries) :
  (if negb (entriesHas "priority" entries)
   then mkData (Str (orElse (entriesGet "title" entries) ""))
          (Str (orElse (entriesGet "description" entries) "")) (Str "medium")
   else mkData (Str (orElse (entriesGet "title" entries) ""))
          (Str (orElse (entriesGet "description" entries) ""))
          (Str (orElse (entriesGet "priority" entries) "medium")))
  = mkData (Str (orElse (entriesGet "title" entries) ""))
      (Str (orElse (entriesGet "description" entries) ""))
      (Str (orElse (entriesGet "priority" entries) "medium")).
Proof.
  destruct (entriesHas "priority" entries) eqn:Hhas; [reflexivity |].
  now rewrite (entriesHas_get _ _ Hhas).
Qed.

Lemma In_priority_values (p : string) :
  In p TASK_PRIORITIES <-> In (Str p) [Str "low"; Str "medium"; Str "high"].
Proof.
  simpl. split; intros [H | [H | [H | []]]]; try injection H as H; subst; auto.
Qed.

(** X19: what a POST on [/api/tasks] does with its form.  A title that is
    missing or blank is answered with status 400 and the title message, a
    priority outside the three with status 400 and the priority message,
    both without a write.  Otherwise the task is created with the trimmed
    title, the description (empty when missing) and the priority, where a
    missing or empty priority counts as [medium], and the answer is its
    fragment; the task is stored under the numeral of the counter, and the
    counter, which is 2^53 at most, moves by one unless it has come to
    2^53, where it stays. *)
Theorem createTaskHandler_reads_the_form (req : Request) (entries : Entries) (now : Z)
    (this : TaskService) :
  formData req = Return entries ->
  (trim (orElse (entriesGet "title" entries) "") = "" ->
   createTaskHandler req now this
     = (Return (alertResponse
                  "Invalid task data: Title is required and cannot be empty." 400 "danger"),
        this))
  /\ (trim (orElse (entriesGet "title" entries) "") <> "" ->
      ~ In (orElse (entriesGet "priority" entries) "medium") TASK_PRIORITIES ->
      createTaskHandler req now this
        = (Return (alertResponse
                     "Invalid task data: Priority must be one of low, medium, high." 400
                     "danger"),
           this))
  /\ (trim (orElse (entriesGet "title" entries) "") <> "" ->
      In (orElse (entriesGet "priority" entries) "medium") TASK_PRIORITIES ->
      (nextId this <= counterLimit)%N ->
      exists task,
        task = mkTask (Number_toString (nextId this))
                 (trim (orElse (entriesGet "title" entries) ""))
                 (orElse (entriesGet "description" entries) "")
                 (orElse (entriesGet "priority" entries) "medium") false now
        /\ createTaskHandler req now this
           = (Return (htmlResponse (taskToHtml task)),
              mkService (JsMap.set (id task) task (taskStore this))
                (if (nextId this <? counterLimit)%N
                 then nextId this + 1 else nextId this))).
Proof.
  intros Hform. unfold createTaskHandler, tryCatch, bind, lift. rewrite Hform.
  cbn [data_title data_description]. rewrite createTaskHandler_data.
  split; [| split].
  - intros Ht. rewrite createTask_title_error; [reflexivity |].
    cbn [data_title]. now intros s [= <-].
  - intros Ht Hp. rewrite createTask_priority_error; [reflexivity | exact Ht |].
    now rewrite <- In_priority_values.
  - intros Ht Hp Hle. eexists. split; [reflexivity |].
    rewrite createTask_valid_counter.
    + assert (Hnext : Number_add (nextId this) 1
                      = if (nextId this <? counterLimit)%N
                        then (nextId this + 1)%N else nextId this).
      { destruct (nextId this <? counterLimit)%N eqn:Hlt.
        - apply N.ltb_lt in Hlt. now apply Number_add_counter.
        - apply N.ltb_ge in Hlt. assert (E : nextId this = counterLimit) by lia.
          rewrite E. apply Number_add_limit. }
      rewrite Hnext. reflexivity.
    + split; [eexists; split; [reflexivity | exact Ht] |].
      split; [now apply In_priority_values | now eexists].
Qed.

Lemma createTaskHandler_reads_the_form_witness :
  exists task,
    task = mkTask "4" "Buy milk" "" "medium" false 2000
    /\ createTaskHandler
         (mkRequest "POST" "/api/tasks" [] (Return [("title", "Buy milk "); ("priority", "")]))
         2000 exampleService
       = (Return (htmlResponse (taskToHtml task)),
          mkService (JsMap.set (id task) task (taskStore exampleService)) 5).
Proof.
  apply (proj2 (proj2 (createTaskHandler_reads_the_form
                         (mkRequest "POST" "/api/tasks" []
                            (Return [("title", "Buy milk "); ("priority", "")]))
                         [("title", "Buy milk "); ("priority", "")] 2000 exampleService
                         eq_refl))).
  - discriminate.
  - simpl. auto.
  - vm_compute. discriminate.
Defined.

Lemma includes_In (p : string) :
  Array_includes TASK_PRIORITIES (Str p) = true <-> In p TASK_PRIORITIES.
Proof.
  rewrite includes_priorities, In_priority_values. simpl. split.
  - intros [H | [H | H]]; rewrite H; auto.
  - intros [H | [H | [H | []]]]; rewrite <- H; auto.
Qed.

(** [updateTask] on data read from a form. *)
Lemma updateTask_form (t d p : option string) (id0 : TaskId) (this : TaskService)
    (task : Task) :
  getTaskById id0 this = Some task ->
  updateTask id0 (mkData (ofOption t) (ofOption d) (ofOption p)) this
  = match t with
    | Some s =>
        if trim s =? "" then (Throw "Invalid task data: Title cannot be empty.", this)
        else match p with
             | Some q =>
                 if Array_includes TASK_PRIORITIES (Str q)
                 then (Return (Some (withText task (trim s)
                                       (match d with Some x => x | None => description task end)
                                       q)),
                       mkService (JsMap.set id0
                                    (withText task (trim s)
                                       (match d with Some x => x | None => description task end)
                                       q) (taskStore this)) (nextId this))
                 else (Throw priorityMessage, this)
             | None =>
                 (Return (Some (withText task (trim s)
                                  (match d with Some x => x | None => description task end)
                                  (priority task))),
                  mkService (JsMap.set id0
                               (withText task (trim s)
                                  (match d with Some x => x | None => description task end)
                                  (priority task)) (taskStore this)) (nextId this))
             end
    | None =>
        match p with
        | Some q =>
            if Array_includes TASK_PRIORITIES (Str q)
            then (Return (Some (withText task (title task)
                                  (match d with Some x => x | None => description task end)
                                  q)),
                  mkService (JsMap.set id0
                               (withText task (title task)
                                  (match d with Some x => x | None => description task end)
                                  q) (taskStore this)) (nextId this))
            else (Throw priorityMessage, this)
        | None =>
            (Return (Some (withText task (title task)
                             (match d with Some x => x | None => description task end)
                             (priority task))),
             mkService (JsMap.set id0
                          (withText task (title task)
                             (match d with Some x => x | None => description task end)
                             (priority task)) (taskStore this)) (nextId this))
        end
    end.
Proof.
  unfold getTaskById, updateTask, bind, storeGet, throwIf. intros ->.
  cbn [data_title data_description data_priority].
  destruct t as [s|]; cbn [ofOption isDefined isString asString negb andb orb].
  - destruct (trim s =? ""); [reflexivity |].
    destruct p as [q|]; cbn [ofOption isDefined isString asString negb andb orb].
    + destruct (Array_includes TASK_PRIORITIES (Str q)); [| reflexivity].
      now destruct d.
    + now destruct d.
  - destruct p as [q|]; cbn [ofOption isDefined isString asString negb andb orb].
    + destruct (Array_includes TASK_PRIORITIES (Str q)); [| reflexivity].
      now destruct d.
    + now destruct d.
Qed.

(** X20: the order of the checks of a PUT on [/api/tasks/{id}].  A form that
    cannot be read, with an error message that does not begin with
    [Invalid task data:], is answered with status 500 and a fixed message,
    whether the id is stored or not; then an unknown id with status 404, whatever
    the fields; then a title field that is empty after trimming with status
    400, and a priority field outside the three with status 400; none of
    these writes.  Otherwise the fields of the form are merged over the
    task: the title trimmed, the description even when empty, and a field
    that is missing keeps its value. *)
Theorem updateTaskHandler_order_of_checks (req : Request) (id0 : TaskId)
    (this : TaskService) :
  (forall message,
      formData req = Throw message ->
      startsWith message "Invalid task data:" = false ->
      updateTaskHandler req id0 this
        = (Return (alertResponse "Failed to update task due to an unexpected error."
                     500 "danger"), this))
  /\ (forall entries,
        formData req = Return entries ->
        getTaskById id0 this = None ->
        updateTaskHandler req id0 this
          = (Return (alertResponse "Task not found." 404 "danger"), this))
  /\ (forall entries task s,
        formData req = Return entries ->
        getTaskById id0 this = Some task ->
        entriesGet "title" entries = Some s -> trim s = "" ->
        updateTaskHandler req id0 this
          = (Return (alertResponse "Invalid task data: Title cannot be empty." 400
                       "danger"), this))
  /\ (forall entries task p,
        formData req = Return entries ->
        getTaskById id0 this = Some task ->
        (forall s, entriesGet "title" entries = Some s -> trim s <> "") ->
        entriesGet "priority" entries = Some p -> ~ In p TASK_PRIORITIES ->
        updateTaskHandler req id0 this
          = (Return (alertResponse
                       "Invalid task data: Priority must be one of low, medium, high." 400
                       "danger"), this))
  /\ (forall entries task,
        formData req = Return entries ->
        getTaskById id0 this = Some task ->
        (forall s, entriesGet "title" entries = Some s -> trim s <> "") ->
        (forall p, entriesGet "priority" entries = Some p -> In p TASK_PRIORITIES) ->
        exists merged,
          merged = withText task
                     (match entriesGet "title" entries with
                      | Some s => trim s | None => title task end)
                     (match entriesGet "description" entries with
                      | Some d => d | None => description task end)
                     (match entriesGet "priority" entries with
                      | Some p => p | None => priority task end)
          /\ updateTaskHandler req id0 this
             = (Return (htmlResponse (taskToHtml merged)),
                mkService (JsMap.set id0 merged (taskStore this)) (nextId this))).
Proof.
  unfold updateTaskHandler, tryCatch, bind, lift.
  split; [| split; [| split; [| split]]].
  - intros message -> Hm. now rewrite Hm.
  - intros entries -> Hget. now rewrite (updateTask_absent _ _ _ Hget).
  - intros entries task s -> Hget Ht Hs.
    rewrite (updateTask_form _ _ _ _ _ _ Hget), Ht, Hs. reflexivity.
  - intros entries task p -> Hget Ht Hp Hin.
    rewrite (updateTask_form _ _ _ _ _ _ Hget), Hp.
    assert (Hinc : Array_includes TASK_PRIORITIES (Str p) = false).
    { destruct (Array_includes TASK_PRIORITIES (Str p)) eqn:E; [| reflexivity].
      apply includes_In in E. contradiction. }
    rewrite Hinc.
    destruct (entriesGet "title" entries) as [s|]; [| reflexivity].
    specialize (Ht s eq_refl). apply String.eqb_neq in Ht. now rewrite Ht.
  - intros entries task -> Hget Ht Hp. eexists. split; [reflexivity |].
    rewrite (updateTask_form _ _ _ _ _ _ Hget).
    destruct (entriesGet "title" entries) as [s|].
    + specialize (Ht s eq_refl). apply String.eqb_neq in Ht. rewrite Ht.
      destruct (entriesGet "priority" entries) as [p|]; [| reflexivity].
      specialize (Hp p eq_refl). apply includes_In in Hp. now rewrite Hp.
    + destruct (entriesGet "priority" entries) as [p|]; [| reflexivity].
      specialize (Hp p eq_refl). apply includes_In in Hp. now rewrite Hp.
Qed.

Lemma updateTaskHandler_order_of_checks_witness :
  updateTaskHandler
    (mkRequest "PUT" "/api/tasks/77" [] (Return [("title", " "); ("priority", "urgent")]))
    "77" exampleService
  = (Return (alertResponse "Task not found." 404 "danger"), exampleService).
Proof.
  apply (proj1 (proj2 (updateTaskHandler_order_of_checks
                         (mkRequest "PUT" "/api/tasks/77" []
                            (Return [("title", " "); ("priority", "urgent")]))
                         "77" exampleService))
           [("title", " "); ("priority", "urgent")]);
    reflexivity.
Defined.

(** ** Escaping in the other renderers *)

Lemma count_taskEditFormHtml (c : ascii) (task : Task) :
  isMarkup c = true ->
  count c (taskEditFormHtml task) = count c (taskEditFormHtml (withoutText task)).
Proof.
  intros Hc. unfold taskEditFormHtml.
  rewrite !count_template.
  cbn [withoutText withText id title description priority completed createdAt map
       list_sum htmlEscape].
  rewrite !(count_htmlEscape c _ Hc).
  reflexivity.
Qed.

Lemma refsOnly_taskEditFormHtml (task : Task) : refsOnly (taskEditFormHtml task) = true.
Proof.
  unfold taskEditFormHtml. apply refsOnly_template.
  repeat first
    [ apply Forall_nil
    | apply Forall_cons;
      [ first [ reflexivity | apply refsOnly_htmlEscape ] | ] ].
Qed.

(** X21: the edit form carries the task's text only in escaped form, the
    title inside the [value] attribute and the description inside the text
    area: the angle brackets and quotes of the form are those of the form
    of the same task without its title and description, every ampersand
    opens a character reference, and the text [<script>] does not occur. *)
Theorem taskEditFormHtml_escapes_text (task : Task) :
  (forall c, isMarkup c = true ->
     count c (taskEditFormHtml task) = count c (taskEditFormHtml (withoutText task)))
  /\ refsOnly (taskEditFormHtml task) = true
  /\ ~ occurs "<script>" (taskEditFormHtml task)
  /\ occurs (template [" value="; dq; htmlEscape (title task); dq; "></sl-input>"])
       (taskEditFormHtml task)
  /\ occurs (template [">"; htmlEscape (description task); "</sl-textarea>"])
       (taskEditFormHtml task).
Proof.
  split; [intros c Hc; now apply count_taskEditFormHtml |].
  split; [apply refsOnly_taskEditFormHtml |].
  split; [apply taskEditFormHtml_no_script |].
  unfold taskEditFormHtml. split.
  - match goal with
    | |- occurs _ (template ?ps) => exact (occurs_template_window ps 34 5)
    end.
  - match goal with
    | |- occurs _ (template ?ps) => exact (occurs_template_window ps 50 3)
    end.
Qed.

Section AlertFacts.

Import ScriptTag.

Lemma run_alert (message variant : string) :
  variant = "danger" \/ variant = "warning" -> run 0 (alertHtml message variant) = 0.
Proof.
  intros Hv. apply run_template.
  destruct Hv as [-> | ->];
    repeat first
      [ apply Forall_nil
      | apply Forall_cons; [ first [ reflexivity | apply run_htmlEscape ] | ] ].
Qed.

Lemma run_concat_fragments (tasks : list Task) :
  run 0 (String.concat "" (map taskToHtml tasks)) = 0.
Proof.
  apply (run_template (map taskToHtml tasks)).
  apply Forall_forall. intros p Hp. apply in_map_iff in Hp as (task & <- & _).
  apply run_taskToHtml.
Qed.

Lemma run_no_script (s : string) : run 0 s = 0 -> ~ occurs "<script>" s.
Proof. intros H Hocc. apply occurs_run in Hocc. rewrite H in Hocc. discriminate Hocc. Qed.

End AlertFacts.

(** What the constructor of a response accepts and what it throws on. *)
Lemma newResponse_accepts (body0 : option string) (st : Z) (hs : Entries) :
  (200 <= st <= 599)%Z -> body0 = None \/ isNullBodyStatus st = false ->
  newResponse body0 st hs = Return (mkResponse body0 st hs).
Proof.
  intros Hst Hbody. unfold newResponse.
  rewrite Z.mod_small by lia.
  assert (Hlo : (st <? 200)%Z = false) by (apply Z.ltb_ge; lia).
  assert (Hhi : (599 <? st)%Z = false) by (apply Z.ltb_ge; lia).
  rewrite Hlo, Hhi. cbn [orb andb].
  destruct Hbody as [-> | ->]; [reflexivity | now destruct body0].
Qed.

Lemma newResponse_rejects (text : string) (st : Z) (hs : Entries) :
  (st mod 65536 < 200)%Z \/ (599 < st mod 65536)%Z
  \/ isNullBodyStatus (st mod 65536) = true ->
  exists error, newResponse (Some text) st hs = Throw error.
Proof.
  intros H. unfold newResponse.
  destruct (((st mod 65536 <? 200)%Z || (599 <? st mod 65536)%Z)
            && negb (st mod 65536 =? 101)%Z) eqn:Hrange; [now eexists |].
  assert (Hnull : isNullBodyStatus (st mod 65536) = true).
  { apply andb_false_iff in Hrange as [Hrange | Hrange].
    - apply orb_false_iff in Hrange as [Hlo Hhi]. apply Z.ltb_ge in Hlo, Hhi.
      destruct H as [H | [H | H]]; [lia | lia | exact H].
    - apply negb_false_iff in Hrange. unfold isNullBodyStatus. now rewrite Hrange. }
  rewrite Hnull. now eexists.
Qed.

(** X22: an HTML error response carries its message only in escaped form.
    For the two variants it is called with and a status from 200 to 599
    other than 204, 205 and 304, [htmlErrorResponse] gives a response with
    that status and the content type [text/html], whose body is an alert:
    its angle brackets and quotes do not depend on the message, the text
    [<script>] does not occur in it and the escaped message does.  For a
    status that, taken modulo 2^16, is outside 200..599 or one of the
    three, it throws in place of an answer. *)
Theorem htmlErrorResponse_escapes_message (message variant : string) (st : Z) :
  variant = "danger" \/ variant = "warning" ->
  ((200 <= st <= 599)%Z -> isNullBodyStatus st = false ->
   exists r html blank,
     htmlErrorResponse message st variant = Return r
     /\ body r = Some html
     /\ htmlErrorResponse "" st variant
        = Return (mkResponse (Some blank) st (headersWith "text/html"))
     /\ (forall c, isMarkup c = true -> count c html = count c blank)
     /\ ~ occurs "<script>" html
     /\ occurs (htmlEscape message) html
     /\ status r = st
     /\ entriesGet "Content-Type" (headers r) = Some "text/html")
  /\ ((st mod 65536 < 200)%Z \/ (599 < st mod 65536)%Z
      \/ isNullBodyStatus (st mod 65536) = true ->
      exists error, htmlErrorResponse message st variant = Throw error).
Proof.
  intros Hv. split; [| apply newResponse_rejects].
  intros Hst Hnull. unfold htmlErrorResponse.
  rewrite !newResponse_accepts by auto.
  eexists _, _, _. split; [reflexivity |]. split; [reflexivity |].
  split; [reflexivity |].
  split; [| split; [| split; [| split; reflexivity]]].
  - intros c Hc. unfold alertHtml. rewrite !count_template.
    cbn [map list_sum htmlEscape].
    rewrite (count_htmlEscape c _ Hc). reflexivity.
  - apply run_no_script. now apply run_alert.
  - unfold alertHtml.
    match goal with
    | |- occurs _ (template ?ps) => exact (occurs_template_window ps 18 1)
    end.
Qed.

Lemma htmlErrorResponse_escapes_message_witness :
  exists r html blank,
    htmlErrorResponse "<b>no</b>" 400 "warning" = Return r
    /\ body r = Some html
    /\ htmlErrorResponse "" 400 "warning"
       = Return (mkResponse (Some blank) 400 (headersWith "text/html"))
    /\ (forall c, isMarkup c = true -> count c html = count c blank)
    /\ ~ occurs "<script>" html
    /\ occurs "&lt;b&gt;no&lt;/b&gt;" html
    /\ status r = 400%Z
    /\ entriesGet "Content-Type" (headers r) = Some "text/html".
Proof.
  apply (proj1 (htmlErrorResponse_escapes_message "<b>no</b>" "warning" 400
                  (or_intror eq_refl))).
  - lia.
  - reflexivity.
Defined.

(** X23: the list endpoint answers 200 with an HTML body and leaves the
    service alone.  The body is the empty-state alert when no task passes
    the status filter; otherwise it is the fragments of the listed tasks,
    newest first, one after the other, so each listed task's fragment
    occurs in it; in both cases the text [<script>] does not occur in the
    body. *)
Theorem getTasksHandler_lists_fragments (req : Request) (this : TaskService) :
  exists html,
    getTasksHandler req this = (Return (htmlResponse html), this)
    /\ (getAllTasks (entriesGet "status" (searchParams req)) this = [] ->
        html = emptyStateHtml)
    /\ (getAllTasks (entriesGet "status" (searchParams req)) this <> [] ->
        html = String.concat ""
                 (map taskToHtml (getAllTasks (entriesGet "status" (searchParams req)) this)))
    /\ (forall task,
          In task (getAllTasks (entriesGet "status" (searchParams req)) this) ->
          occurs (taskToHtml task) html)
    /\ ~ occurs "<script>" html.
Proof.
  unfold getTasksHandler.
  destruct (getAllTasks (entriesGet "status" (searchParams req)) this) as [|t ts] eqn:Hl.
  - exists emptyStateHtml. split; [reflexivity |]. split; [reflexivity |].
    split; [intros H; now contradiction H |]. split; [intros task [] |].
    apply run_no_script. reflexivity.
  - cbn [List.length Nat.eqb]. eexists. split; [reflexivity |].
    split; [discriminate |]. split; [reflexivity |]. split.
    + intros task Hin. apply in_split in Hin as (l1 & l2 & ->).
      exists (template (map taskToHtml l1)), (template (map taskToHtml l2)).
      change (String.concat "" (map taskToHtml (l1 ++ task :: l2)))
        with (template (map taskToHtml (l1 ++ task :: l2))).
      rewrite map_app. cbn [map]. now rewrite template_app, template_cons.
    + apply run_no_script, run_concat_fragments.
Qed.

(** ** Path parameters *)

(** X24: behind each of the three route expressions, [getPathParams] finds
    exactly one parameter, [id], and its value is the word token of the
    path: the router never hands [undefined] to a handler.  The path
    [/api/tasks], which has no segment for the id, gives [undefined]. *)
Theorem route_params_hold_the_token (path : string) :
  (matchTaskPath "" path = true ->
   exists token,
     isWordToken token = true /\ path = "/api/tasks/" ++ token
     /\ getPathParams "/api/tasks/:id" path = [("id", Some token)])
  /\ (matchTaskPath "/edit" path = true ->
      exists token,
        isWordToken token = true /\ path = "/api/tasks/" ++ token ++ "/edit"
        /\ getPathParams "/api/tasks/:id/edit" path = [("id", Some token)])
  /\ (matchTaskPath "/toggle" path = true ->
      exists token,
        isWordToken token = true /\ path = "/api/tasks/" ++ token ++ "/toggle"
        /\ getPathParams "/api/tasks/:id/toggle" path = [("id", Some token)])
  /\ getPathParams "/api/tasks/:id" "/api/tasks" = [("id", None)].
Proof.
  split; [| split; [| split; [| reflexivity]]].
  - intros H. apply (matchTaskPath_spec "" path eq_refl) in H as (token & Ht & ->).
    rewrite append_empty_r. exists token. split; [exact Ht |]. split; [reflexivity |].
    unfold getPathParams. now rewrite (split_task_path token (isWordToken_allWord _ Ht)).
  - intros H. apply (matchTaskPath_spec "/edit" path eq_refl) in H as (token & Ht & ->).
    exists token. split; [exact Ht |]. split; [reflexivity |].
    unfold getPathParams.
    now rewrite (split_task_path_suffix token "edit" (isWordToken_allWord _ Ht) eq_refl).
  - intros H. apply (matchTaskPath_spec "/toggle" path eq_refl) in H as (token & Ht & ->).
    exists token. split; [exact Ht |]. split; [reflexivity |].
    unfold getPathParams.
    now rewrite (split_task_path_suffix token "toggle" (isWordToken_allWord _ Ht) eq_refl).
Qed.

Lemma route_params_hold_the_token_witness :
  exists token,
    isWordToken token = true /\ "/api/tasks/42/edit" = "/api/tasks/" ++ token ++ "/edit"
    /\ getPathParams "/api/tasks/:id/edit" "/api/tasks/42/edit" = [("id", Some token)].
Proof.
  apply (proj1 (proj2 (route_params_hold_the_token "/api/tasks/42/edit"))). reflexivity.
Defined.

(** ** The element builder *)

Section ElementBuilder.

Import ShoelaceHTMX.

Lemma concat_cons_cons (sep x y : string) (l : list string) :
  String.concat sep (x :: y :: l) = x ++ sep ++ String.concat sep (y :: l).
Proof. reflexivity. Qed.

Lemma count_concat_congruence (c : ascii) (sep : string) (l1 l2 : list string) :
  map (count c) l1 = map (count c) l2 ->
  count c (String.concat sep l1) = count c (String.concat sep l2).
Proof.
  revert l2. induction l1 as [|x l1 IH]; intros [|y l2] H; try discriminate H.
  - reflexivity.
  - cbn [map] in H. injection H as Hxy H.
    destruct l1 as [|x' l1], l2 as [|y' l2]; try discriminate H.
    + exact Hxy.
    + rewrite !concat_cons_cons, !count_app, Hxy. f_equal. f_equal.
      now apply IH.
Qed.

Lemma count_concat_zero (c : ascii) (sep : string) (l : list string) :
  count c sep = 0 -> Forall (fun s => count c s = 0) l ->
  count c (String.concat sep l) = 0.
Proof.
  intros Hsep Hl. induction Hl as [|x l Hx Hl IH]; [reflexivity |].
  destruct l as [|y l]; [exact Hx |].
  rewrite concat_cons_cons, !count_app, Hx, Hsep. exact IH.
Qed.

Lemma attributeStrings_filter (attributes : Attributes) :
  flat_map attributeString (filter (fun e => isRendered (snd e)) attributes)
    = flat_map attributeString attributes.
Proof.
  induction attributes as [|[k v] l IH]; [reflexivity |].
  cbn [filter snd]. destruct v as [[] | s | n | | | t]; cbn [isRendered flat_map];
    now rewrite IH.
Qed.

(** X25: [renderElement] leaves out the attributes whose value is [false],
    [null] or [undefined]: the element is the same as without them.  With
    no attribute left it opens with the bare tag, and leaving out the inner
    HTML is the same as giving the empty text. *)
Theorem renderElement_leaves_out_absent_values (tagName : string)
    (attributes : Attributes) (innerHTML : option string) :
  renderElement tagName attributes innerHTML
    = renderElement tagName (filter (fun e => isRendered (snd e)) attributes) innerHTML
  /\ (forallb (fun e => negb (isRendered (snd e))) attributes = true ->
      renderElement tagName attributes None = template ["<"; tagName; "></"; tagName; ">"])
  /\ renderElement tagName attributes None = renderElement tagName attributes (Some "").
Proof.
  split; [| split].
  - unfold renderElement. now rewrite attributeStrings_filter.
  - intros Hnone. unfold renderElement.
    assert (E : flat_map attributeString attributes = []).
    { induction attributes as [|[k v] l IH]; [reflexivity |].
      cbn [forallb snd] in Hnone. apply andb_true_iff in Hnone as [Hv Hl].
      cbn [flat_map]. rewrite (IH Hl).
      destruct v as [[] | s | n | | | t]; try discriminate Hv; reflexivity. }
    rewrite E. reflexivity.
  - unfold renderElement. rewrite !template_cons. reflexivity.
Qed.

Lemma count_attributeString (c : ascii) (k : string) (v : AttrValue) :
  isMarkup c = true ->
  map (count c) (attributeString (k, v))
    = map (count c) (attributeString (k, withoutValue v)).
Proof.
  intros Hc.
  destruct v as [[] | s | n | | | t]; cbn [attributeString withoutValue map];
    try reflexivity;
    rewrite !count_template; cbn [map list_sum htmlEscape];
    now rewrite (count_htmlEscape c _ Hc).
Qed.

Lemma count_attributeStrings (c : ascii) (attributes : Attributes) :
  isMarkup c = true ->
  map (count c) (flat_map attributeString attributes)
    = map (count c)
        (flat_map attributeString (map (fun e => (fst e, withoutValue (snd e))) attributes)).
Proof.
  intros Hc. induction attributes as [|[k v] l IH]; [reflexivity |].
  cbn [map flat_map fst snd]. rewrite !map_app, IH.
  now rewrite (count_attributeString c k v Hc).
Qed.

(** X26: [renderElement] writes attribute values only in escaped form: the
    angle brackets and quotes of the element are those of the same element
    with every value emptied, whatever the values hold. *)
Theorem renderElement_escapes_values (c : ascii) (tagName : string)
    (attributes : Attributes) (innerHTML : option string) :
  isMarkup c = true ->
  count c (renderElement tagName attributes innerHTML)
    = count c (renderElement tagName
                 (map (fun e => (fst e, withoutValue (snd e))) attributes) innerHTML).
Proof.
  intros Hc. pose proof (count_attributeStrings c attributes Hc) as Hmap.
  unfold renderElement.
  assert (Hlen : List.length (flat_map attributeString attributes)
                 = List.length
                     (flat_map attributeString
                        (map (fun e => (fst e, withoutValue (snd e))) attributes))).
  { apply (f_equal (@List.length nat)) in Hmap. now rewrite !length_map in Hmap. }
  rewrite <- Hlen.
  pose proof (count_concat_congruence c " " _ _ Hmap) as Hcount.
  destruct (0 <? List.length (flat_map attributeString attributes))%nat;
    destruct innerHTML as [inner|];
    rewrite !count_template; cbn [map list_sum]; rewrite ?count_template;
    cbn [map list_sum]; rewrite ?Hcount; reflexivity.
Qed.

Lemma renderElement_escapes_values_witness :
  count "034"
    (renderElement "sl-input"
       [("value", AString (dq ++ " onfocus=" ++ dq ++ "x")); ("required", ABool true)] None)
  = count "034"
      (renderElement "sl-input" [("value", AString ""); ("required", ABool true)] None).
Proof.
  apply (renderElement_escapes_values "034" "sl-input"
           [("value", AString (dq ++ " onfocus=" ++ dq ++ "x")); ("required", ABool true)]
           None).
  reflexivity.
Defined.

End ElementBuilder.

Section Buttons.

Import ShoelaceHTMX.

Lemma plainNames_Object_set (key : string) (value : AttrValue) (attributes : Attributes) :
  count "<" key = 0 -> count ">" key = 0 ->
  plainNames attributes -> plainNames (Object_set key value attributes).
Proof.
  intros Hl Hg Hp. induction Hp as [|[k v] l Hk Hp IH]; cbn [Object_set].
  - constructor; [now split | constructor].
  - destruct (key =? k); constructor; auto.
Qed.

Lemma plainNames_setString (key : string) (x : option string) (attributes : Attributes) :
  count "<" key = 0 -> count ">" key = 0 ->
  plainNames attributes -> plainNames (setString key x attributes).
Proof.
  intros Hl Hg Hp. unfold setString. destruct x as [s|]; [| exact Hp].
  destruct (s =? ""); [exact Hp | now apply plainNames_Object_set].
Qed.

Lemma plainNames_setFlag (key : string) (x : option bool) (attributes : Attributes) :
  count "<" key = 0 -> count ">" key = 0 ->
  plainNames attributes -> plainNames (setFlag key x attributes).
Proof.
  intros Hl Hg Hp. unfold setFlag. destruct x as [[]|]; try exact Hp.
  now apply plainNames_Object_set.
Qed.

Lemma plainNames_buttonAttributes (options : SlButtonOptions.t) :
  plainNames (SlButtonOptions.otherAttributes options) ->
  plainNames (buttonAttributes options).
Proof.
  intros Hp. unfold buttonAttributes.
  repeat first
    [ exact Hp
    | apply plainNames_setString; [reflexivity | reflexivity |]
    | apply plainNames_setFlag; [reflexivity | reflexivity |] ].
Qed.

Lemma plainNames_checkboxAttributes (options : SlCheckboxOptions.t) :
  plainNames (SlCheckboxOptions.otherAttributes options) ->
  plainNames (checkboxAttributes options).
Proof.
  intros Hp. unfold checkboxAttributes.
  destruct (given (SlCheckboxOptions.hxGet options) || _ || _ || _ || _);
    repeat first
      [ exact Hp
      | apply plainNames_setString; [reflexivity | reflexivity |]
      | apply plainNames_setFlag; [reflexivity | reflexivity |]
      | apply plainNames_Object_set; [reflexivity | reflexivity |] ].
Qed.

Lemma count_attributeStrings_plain (c : ascii) (attributes : Attributes) :
  c = "<"%char \/ c = ">"%char ->
  plainNames attributes ->
  Forall (fun s => count c s = 0) (flat_map attributeString attributes).
Proof.
  intros Hc Hp.
  assert (Hm : isMarkup c = true) by (destruct Hc as [-> | ->]; reflexivity).
  induction Hp as [|[k v] l [Hl Hg] Hp IH]; [constructor |].
  cbn [flat_map]. apply Forall_app. split; [| exact IH]. cbn [fst] in Hl, Hg.
  assert (Hk : count c k = 0) by (destruct Hc as [-> | ->]; assumption).
  assert (Hq : count c dq = 0) by (destruct Hc as [-> | ->]; reflexivity).
  assert (He : count c "=" = 0) by (destruct Hc as [-> | ->]; reflexivity).
  destruct v as [[] | s | n | | | t]; cbn [attributeString];
    repeat constructor; try exact Hk;
    rewrite count_template; cbn [map list_sum];
    rewrite (count_htmlEscape c _ Hm), Hk, Hq, He; reflexivity.
Qed.

(** An element with plain attribute names and an escaped inner text has the
    angle brackets of its two tags and no other. *)
Lemma count_renderElement_plain (c : ascii) (tagName : string) (attributes : Attributes)
    (text : string) :
  c = "<"%char \/ c = ">"%char ->
  count c tagName = 0 ->
  plainNames attributes ->
  count c (renderElement tagName attributes (Some (htmlEscape text))) = 2.
Proof.
  intros Hc Ht Hp.
  assert (Hm : isMarkup c = true) by (destruct Hc as [-> | ->]; reflexivity).
  assert (Hsp : count c " " = 0) by (destruct Hc as [-> | ->]; reflexivity).
  pose proof (count_concat_zero c " " _ Hsp (count_attributeStrings_plain c _ Hc Hp)) as Ha.
  unfold renderElement.
  destruct (0 <? List.length (flat_map attributeString attributes))%nat;
    rewrite !count_template; cbn [map list_sum]; rewrite ?count_template;
    cbn [map list_sum]; rewrite ?Ha, ?Hsp, Ht, (count_htmlEscape c _ Hm);
    destruct Hc as [-> | ->]; reflexivity.
Qed.

(** X27: a button and a checkbox are one element each, whatever their label
    and option values hold: as long as the names of the extra attributes
    hold no angle bracket, the rendered text has exactly two [<] and two
    [>], those of its opening and closing tag. *)
Theorem rendered_controls_are_single_elements :
  (forall options,
      plainNames (SlButtonOptions.otherAttributes options) ->
      count "<" (renderButton options) = 2 /\ count ">" (renderButton options) = 2)
  /\ (forall options,
        plainNames (SlCheckboxOptions.otherAttributes options) ->
        count "<" (renderCheckbox options) = 2
        /\ count ">" (renderCheckbox options) = 2).
Proof.
  split.
  - intros options Hp. apply plainNames_buttonAttributes in Hp.
    unfold renderButton. split; apply count_renderElement_plain; auto.
  - intros options Hp. apply plainNames_checkboxAttributes in Hp.
    unfold renderCheckbox.
    assert (E : match SlCheckboxOptions.label options with
                | Some l => if l =? "" then "" else htmlEscape l
                | None => ""
                end
                = htmlEscape (match SlCheckboxOptions.label options with
                              | Some l => l | None => "" end)).
    { destruct (SlCheckboxOptions.label options) as [l|]; [| reflexivity].
      destruct (String.eqb_spec l "") as [-> | _]; reflexivity. }
    rewrite E. split; apply count_renderElement_plain; auto.
Qed.

Lemma rendered_controls_are_single_elements_witness :
  count "<"
    (renderButton
       (SlButtonOptions.make "</sl-button><script>" (Some "primary") None None (Some true)
          None None None (Some "go") None None (Some "/api/tasks?x=<1>") None None None
          None None None [("data-kind", AString "<b>")])) = 2
  /\ count ">"
       (renderButton
          (SlButtonOptions.make "</sl-button><script>" (Some "primary") None None (Some true)
             None None None (Some "go") None None (Some "/api/tasks?x=<1>") None None None
             None None None [("data-kind", AString "<b>")])) = 2.
Proof.
  apply (proj1 rendered_controls_are_single_elements).
  repeat constructor.
Defined.

Lemma Object_get_set_eq (key : string) (value : AttrValue) (attributes : Attributes) :
  Object_get key (Object_set key value attributes) = Some value.
Proof.
  induction attributes as [|[k v] l IH]; cbn [Object_set Object_get].
  - now rewrite String.eqb_refl.
  - destruct (key =? k) eqn:E; cbn [Object_get]; [now rewrite String.eqb_refl |].
    now rewrite E.
Qed.

Lemma Object_get_set_ne (key key' : string) (value : AttrValue) (attributes : Attributes) :
  key' <> key ->
  Object_get key' (Object_set key value attributes) = Object_get key' attributes.
Proof.
  intros Hne. apply String.eqb_neq in Hne.
  induction attributes as [|[k v] l IH]; cbn [Object_set Object_get].
  - now rewrite Hne.
  - destruct (String.eqb_spec key k) as [-> | Hk]; cbn [Object_get].
    + now rewrite Hne.
    + now rewrite IH.
Qed.

Lemma Object_get_setString_ne (key key' : string) (x : option string)
    (attributes : Attributes) :
  key' <> key ->
  Object_get key' (setString key x attributes) = Object_get key' attributes.
Proof.
  intros Hne. unfold setString. destruct x as [s|]; [| reflexivity].
  destruct (s =? ""); [reflexivity | now apply Object_get_set_ne].
Qed.

Lemma occurs_concat_member (sep a : string) (l1 l2 : list string) :
  occurs (sep ++ a) (sep ++ String.concat sep (l1 ++ a :: l2)).
Proof.
  induction l1 as [|x l1 IH].
  - exists "". destruct l2 as [|y l2].
    + exists "". cbn [app String.concat append]. now rewrite append_empty_r.
    + exists (sep ++ String.concat sep (y :: l2)).
      cbn [app]. rewrite concat_cons_cons. cbn [append]. now rewrite !append_assoc.
  - destruct IH as (pre & post & IH).
    exists (sep ++ x ++ pre), post.
    change ((x :: l1) ++ a :: l2)%list with (x :: (l1 ++ a :: l2))%list.
    destruct (l1 ++ a :: l2)%list as [|z rest] eqn:Ez; [now destruct l1 |].
    rewrite concat_cons_cons, IH. now rewrite !append_assoc.
Qed.

Lemma occurs_inside (needle hay pre post : string) :
  occurs needle hay -> occurs needle (pre ++ hay ++ post).
Proof.
  intros (p & q & ->). exists (pre ++ p), (q ++ post). now rewrite !append_assoc.
Qed.

(** An attribute with a text value is written out as [name="value"], the
    value escaped. *)
Lemma occurs_attribute (tagName key text : string) (attributes : Attributes)
    (innerHTML : option string) :
  Object_get key attributes = Some (AString text) ->
  occurs (template [" "; key; "="; dq; htmlEscape text; dq])
    (renderElement tagName attributes innerHTML).
Proof.
  intros Hget.
  assert (Hin : exists l1 l2,
             flat_map attributeString attributes
             = (l1 ++ template [key; "="; dq; htmlEscape text; dq] :: l2)%list).
  { induction attributes as [|[k v] l IH]; [discriminate Hget |].
    cbn [Object_get] in Hget. cbn [flat_map].
    destruct (String.eqb_spec key k) as [-> | Hne].
    - injection Hget as ->. exists [], (flat_map attributeString l). reflexivity.
    - destruct (IH Hget) as (l1 & l2 & ->).
      exists (attributeString (k, v) ++ l1)%list, l2. now rewrite app_assoc. }
  destruct Hin as (l1 & l2 & E). unfold renderElement. rewrite E.
  assert (Hlen : (0 <? List.length
                         (l1 ++ template [key; "="; dq; htmlEscape text; dq] :: l2))%nat
                 = true)
    by (apply Nat.ltb_lt; rewrite length_app; cbn [List.length]; lia).
  rewrite Hlen.
  set (a := template [key; "="; dq; htmlEscape text; dq]).
  change (template [" "; key; "="; dq; htmlEscape text; dq]) with (" " ++ a).
  destruct (occurs_concat_member " " a l1 l2) as (pre & post & Hocc).
  assert (Hattrs : template [" "; String.concat " " (l1 ++ a :: l2)]
                   = pre ++ (" " ++ a) ++ post).
  { rewrite !template_cons. change (template []) with "".
    now rewrite append_empty_r. }
  rewrite Hattrs.
  destruct innerHTML as [inner|]; rewrite !template_cons;
    eexists ("<" ++ tagName ++ pre), _; rewrite !append_assoc; reflexivity.
Qed.

(** X28: a checkbox with an action always has a trigger.  When one of
    [hxGet], [hxPost], [hxPut], [hxDelete] and [hxPatch] is given, the
    [hx-trigger] attribute is the given [hxTrigger], or [sl-change] when
    none is given, and it is written out in the element; without an action
    a given [hxTrigger] is kept as it is. *)
Theorem checkbox_action_has_a_trigger (options : SlCheckboxOptions.t) :
  (given (SlCheckboxOptions.hxGet options) || given (SlCheckboxOptions.hxPost options)
   || given (SlCheckboxOptions.hxPut options) || given (SlCheckboxOptions.hxDelete options)
   || given (SlCheckboxOptions.hxPatch options) = true ->
   Object_get "hx-trigger" (checkboxAttributes options)
     = Some (AString (orElse (SlCheckboxOptions.hxTrigger options) "sl-change"))
   /\ occurs (template [" hx-trigger="; dq;
                        htmlEscape (orElse (SlCheckboxOptions.hxTrigger options) "sl-change");
                        dq])
        (renderCheckbox options))
  /\ (given (SlCheckboxOptions.hxGet options) || given (SlCheckboxOptions.hxPost options)
      || given (SlCheckboxOptions.hxPut options) || given (SlCheckboxOptions.hxDelete options)
      || given (SlCheckboxOptions.hxPatch options) = false ->
      forall trigger,
        SlCheckboxOptions.hxTrigger options = Some trigger -> trigger <> "" ->
        Object_get "hx-trigger" (checkboxAttributes options) = Some (AString trigger)).
Proof.
  split.
  - intros Haction.
    assert (Hget : Object_get "hx-trigger" (checkboxAttributes options)
                   = Some (AString (orElse (SlCheckboxOptions.hxTrigger options) "sl-change"))).
    { unfold checkboxAttributes. rewrite Haction.
      rewrite !Object_get_setString_ne by discriminate.
      apply Object_get_set_eq. }
    split; [exact Hget |].
    unfold renderCheckbox.
    apply (occurs_attribute "sl-checkbox" "hx-trigger" _ _ _ Hget).
  - intros Haction trigger Ht Hne.
    unfold checkboxAttributes. rewrite Haction.
    rewrite !Object_get_setString_ne by discriminate.
    unfold setString at 1. rewrite Ht.
    apply String.eqb_neq in Hne. rewrite Hne. apply Object_get_set_eq.
Qed.

Lemma checkbox_action_has_a_trigger_witness :
  Object_get "hx-trigger"
    (checkboxAttributes
       (SlCheckboxOptions.make (Some "Done") None None None (Some true) None None None None
          (Some "/api/tasks/1/toggle") None None None None None None None []))
    = Some (AString "sl-change")
  /\ occurs (template [" hx-trigger="; dq; "sl-change"; dq])
       (renderCheckbox
          (SlCheckboxOptions.make (Some "Done") None None None (Some true) None None None None
             (Some "/api/tasks/1/toggle") None None None None None None None [])).
Proof.
  apply (proj1 (checkbox_action_has_a_trigger
                  (SlCheckboxOptions.make (Some "Done") None None None (Some true) None None
                     None None (Some "/api/tasks/1/toggle") None None None None None None
                     None []))).
  reflexivity.
Defined.

End Buttons.

(** ** Static files and the entry point *)

Lemma sameName_true (a b : string) :
  sameName a b = true <-> toLowerCase a = toLowerCase b.
Proof. unfold sameName. apply String.eqb_eq. Qed.

Lemma sameName_refl (a : string) : sameName a a = true.
Proof. now apply sameName_true. Qed.

(** Names that are the same without regard to case compare alike with any
    third name. *)
Lemma sameName_congruence (a b k : string) :
  sameName a b = true -> sameName a k = sameName b k.
Proof.
  intros H. apply sameName_true in H. unfold sameName. now rewrite H.
Qed.

Lemma Headers_get_app (name : string) (hs1 hs2 : Entries) :
  Headers_get name (hs1 ++ hs2)%list
  = match Headers_get name hs1 with
    | Some v => Some v
    | None => Headers_get name hs2
    end.
Proof.
  induction hs1 as [|[k v] hs1 IH]; [reflexivity |].
  cbn [Headers_get app]. now destruct (sameName name k).
Qed.

Lemma Headers_get_filter_same (name name' : string) (hs : Entries) :
  sameName name name' = true ->
  Headers_get name (filter (fun e => negb (sameName name' (fst e))) hs) = None.
Proof.
  intros Hsame. induction hs as [|[k v] hs IH]; [reflexivity |].
  cbn [filter fst]. destruct (sameName name' k) eqn:Hk; cbn [negb]; [exact IH |].
  cbn [Headers_get]. now rewrite (sameName_congruence _ _ k Hsame), Hk.
Qed.

Lemma Headers_get_filter_other (name name' : string) (hs : Entries) :
  sameName name name' = false ->
  Headers_get name (filter (fun e => negb (sameName name' (fst e))) hs)
  = Headers_get name hs.
Proof.
  intros Hother. induction hs as [|[k v] hs IH]; [reflexivity |].
  cbn [filter fst]. destruct (sameName name' k) eqn:Hk; cbn [negb Headers_get].
  - assert (Hnk : sameName name k = false).
    { destruct (sameName name k) eqn:E; [| reflexivity].
      apply sameName_true in E. apply sameName_true in Hk.
      assert (sameName name name' = true) by (apply sameName_true; congruence).
      congruence. }
    now rewrite Hnk.
  - now rewrite IH.
Qed.

(** [get] after [set] of the same name, whatever its letter case. *)
Lemma Headers_get_set_same (name name' value : string) (hs : Entries) :
  sameName name name' = true ->
  Headers_get name (Headers_set name' value hs) = Some value.
Proof.
  intros Hsame. unfold Headers_set.
  rewrite Headers_get_app, (Headers_get_filter_same _ _ _ Hsame).
  cbn [Headers_get]. now rewrite Hsame.
Qed.

(** [get] after [set] of another name. *)
Lemma Headers_get_set_other (name name' value : string) (hs : Entries) :
  sameName name name' = false ->
  Headers_get name (Headers_set name' value hs) = Headers_get name hs.
Proof.
  intros Hother. unfold Headers_set.
  rewrite Headers_get_app, (Headers_get_filter_other _ _ _ Hother).
  cbn [Headers_get]. rewrite Hother. now destruct (Headers_get name hs).
Qed.

(** A response whose headers begin with the three cross-origin headers
    gives them back through [get]. *)
Lemma Headers_get_cors (hs : Entries) :
  firstn 3 hs = DEFAULT_CORS_HEADERS ->
  Headers_get "Access-Control-Allow-Origin" hs = Some "*"
  /\ Headers_get "Access-Control-Allow-Methods" hs = Some "GET, POST, PUT, DELETE, OPTIONS"
  /\ Headers_get "Access-Control-Allow-Headers" hs = Some "Content-Type".
Proof.
  intros Hh. destruct hs as [|h1 [|h2 [|h3 rest]]]; try discriminate Hh.
  injection Hh as -> -> ->. now repeat split.
Qed.

Lemma sameName_sym (a b : string) : sameName a b = sameName b a.
Proof. unfold sameName. apply String.eqb_sym. Qed.

Lemma headerCount_set_same (name name' value : string) (hs : Entries) :
  sameName name name' = true ->
  headerCount name (Headers_set name' value hs) = 1.
Proof.
  intros Hsame. unfold headerCount, Headers_set.
  rewrite filter_app, length_app. cbn [filter fst]. rewrite Hsame. cbn [List.length].
  assert (Hnone : filter (fun e => sameName name (fst e))
                    (filter (fun e => negb (sameName name' (fst e))) hs) = []).
  { induction hs as [|[k v] hs IH]; [reflexivity |].
    cbn [filter fst]. destruct (sameName name' k) eqn:Hk; cbn [negb]; [exact IH |].
    cbn [filter fst]. now rewrite (sameName_congruence _ _ k Hsame), Hk. }
  now rewrite Hnone.
Qed.

Lemma headerCount_set_other (name name' value : string) (hs : Entries) :
  sameName name name' = false ->
  headerCount name (Headers_set name' value hs) = headerCount name hs.
Proof.
  intros Hother. unfold headerCount, Headers_set.
  rewrite filter_app, length_app. cbn [filter fst]. rewrite Hother. cbn [List.length].
  rewrite Nat.add_0_r. f_equal.
  induction hs as [|[k v] hs IH]; [reflexivity |].
  cbn [filter fst]. destruct (sameName name' k) eqn:Hk; cbn [negb filter fst].
  - assert (Hnk : sameName name k = false).
    { destruct (sameName name k) eqn:E; [| reflexivity].
      apply sameName_true in E. apply sameName_true in Hk.
      assert (sameName name name' = true) by (apply sameName_true; congruence).
      congruence. }
    now rewrite Hnk.
  - destruct (sameName name k); [now rewrite IH | exact IH].
Qed.

Section StaticFileProofs.

Variable extname : string -> string.
Variable contentType : string -> option string.
Variable serveFile : Request -> string -> FileOutcome.

(** The headers [serveStaticFile] gives a file that was found. *)
Lemma serveStaticFile_cors (req : Request) (path : string) :
  let r := serveStaticFile extname contentType serveFile req path in
  Headers_get "Access-Control-Allow-Origin" (headers r) = Some "*"
  /\ Headers_get "Access-Control-Allow-Methods" (headers r)
     = Some "GET, POST, PUT, DELETE, OPTIONS"
  /\ Headers_get "Access-Control-Allow-Headers" (headers r) = Some "Content-Type".
Proof.
  cbv zeta. unfold serveStaticFile.
  destruct (serveFile req _) as [fileResponse | |];
    [| now apply Headers_get_cors | now apply Headers_get_cors].
  cbn [headers DEFAULT_CORS_HEADERS fold_left fst snd]. repeat split.
  - rewrite Headers_get_set_other by reflexivity.
    rewrite Headers_get_set_other by reflexivity.
    now apply Headers_get_set_same.
  - rewrite Headers_get_set_other by reflexivity.
    now apply Headers_get_set_same.
  - now apply Headers_get_set_same.
Qed.

(** X29: a static file that is found keeps the status and the body
    [serveFile] gave it; its [Content-Type] is the type of the extension of
    [./public/index.html] for the path [/] and of [./public] followed by
    the path otherwise, or [application/octet-stream] when the extension
    has no type, whatever type and whatever letter case of the header name
    [serveFile] had set; and every header under another name than
    [Content-Type] and the three cross-origin headers is kept. *)
Theorem serveStaticFile_keeps_the_file (req : Request) (path : string)
    (fileResponse : Response) :
  let filePath := if path =? "/" then "./public/index.html" else "./public" ++ path in
  let r := serveStaticFile extname contentType serveFile req path in
  serveFile req filePath = FileResponse fileResponse ->
  status r = status fileResponse
  /\ body r = body fileResponse
  /\ Headers_get "content-type" (headers r)
     = Some (orElse (contentType (extname filePath)) "application/octet-stream")
  /\ forall name,
       sameName name "Content-Type" = false ->
       Forall (fun e => sameName name (fst e) = false) DEFAULT_CORS_HEADERS ->
       Headers_get name (headers r) = Headers_get name (headers fileResponse).
Proof.
  cbv zeta. intros Hfile. unfold serveStaticFile. rewrite Hfile.
  cbn [status body headers DEFAULT_CORS_HEADERS fold_left fst snd].
  split; [reflexivity |]. split; [reflexivity |]. split.
  - rewrite !Headers_get_set_other by reflexivity.
    now apply Headers_get_set_same.
  - intros name Hct Hcors.
    inversion Hcors as [| e1 l1 H1 Hcors1]; subst.
    inversion Hcors1 as [| e2 l2 H2 Hcors2]; subst.
    inversion Hcors2 as [| e3 l3 H3 _]; subst.
    cbn [fst] in H1, H2, H3.
    now rewrite !Headers_get_set_other by assumption.
Qed.

(** X30: the answers of [serveStaticFile] when [serveFile] fails, and the
    headers of every answer.  A file that is missing is answered with 404
    and the plain text [File Not Found], any other failure with 500 and
    [Internal Server Error].  Whatever [serveFile] did, and whatever
    headers its response had, under whatever letter case and however many
    times, the answer has exactly one header of each of the four names
    that are set: [Content-Type] and the three cross-origin headers. *)
Theorem serveStaticFile_sets_each_header_once (req : Request) (path : string) :
  let filePath := if path =? "/" then "./public/index.html" else "./public" ++ path in
  let r := serveStaticFile extname contentType serveFile req path in
  (serveFile req filePath = ThrowsNotFound ->
   status r = 404%Z /\ body r = Some "File Not Found"
   /\ Headers_get "content-type" (headers r) = Some "text/plain")
  /\ (serveFile req filePath = ThrowsOther ->
      status r = 500%Z /\ body r = Some "Internal Server Error"
      /\ Headers_get "content-type" (headers r) = Some "text/plain")
  /\ (forall name, isSetByServer name = true -> headerCount name (headers r) = 1).
Proof.
  cbv zeta. split; [| split].
  - unfold serveStaticFile. intros ->. now repeat split.
  - unfold serveStaticFile. intros ->. now repeat split.
  - intros name Hname. unfold isSetByServer in Hname.
    cbn [existsb DEFAULT_CORS_HEADERS fst] in Hname. rewrite orb_false_r in Hname.
    assert (Hfail : forall t, headerCount name (headersWith t) = 1).
    { intros t. unfold headerCount, headersWith.
      cbn [DEFAULT_CORS_HEADERS app filter fst].
      apply orb_true_iff in Hname as [H | H];
        [| apply orb_true_iff in H as [H | H]; [| apply orb_true_iff in H as [H | H]]];
        rewrite !(sameName_congruence _ _ _ H); reflexivity. }
    unfold serveStaticFile.
    destruct (serveFile req _) as [fileResponse | |]; [| apply Hfail | apply Hfail].
    cbn [headers DEFAULT_CORS_HEADERS fold_left fst snd].
    apply orb_true_iff in Hname as [H | H];
      [| apply orb_true_iff in H as [H | H]; [| apply orb_true_iff in H as [H | H]]].
    + rewrite !headerCount_set_other
        by (rewrite (sameName_congruence _ _ _ H); reflexivity).
      now apply headerCount_set_same.
    + rewrite !headerCount_set_other
        by (rewrite (sameName_congruence _ _ _ H); reflexivity).
      now apply headerCount_set_same.
    + rewrite headerCount_set_other
        by (rewrite (sameName_congruence _ _ _ H); reflexivity).
      now apply headerCount_set_same.
    + now apply headerCount_set_same.
Qed.

(** X18: every request is answered, and every answer allows cross-origin
    use.  [handleRequest] never throws; its response carries the three
    cross-origin headers, whether it is the answer to a preflight, a static
    file, a failure to serve one, or an answer of the API, success or
    failure.  A preflight is answered with 204 and no body before the path
    is looked at, and a request whose path does not begin with [/api] is
    answered by [serveStaticFile] alone; neither changes the service. *)
Theorem every_answer_allows_cross_origin (req : Request) (now : Z) (this : TaskService) :
  exists r this',
    handleRequest (serveStaticFile extname contentType serveFile) req now this
    = (Return r, this')
    /\ (Headers_get "Access-Control-Allow-Origin" (headers r) = Some "*"
        /\ Headers_get "Access-Control-Allow-Methods" (headers r)
           = Some "GET, POST, PUT, DELETE, OPTIONS"
        /\ Headers_get "Access-Control-Allow-Headers" (headers r) = Some "Content-Type")
    /\ (method req = "OPTIONS" ->
        status r = 204%Z /\ body r = None /\ this' = this)
    /\ (method req <> "OPTIONS" -> startsWith (pathname req) "/api" = false ->
        r = serveStaticFile extname contentType serveFile req (pathname req)
        /\ this' = this).
Proof.
  unfold handleRequest.
  destruct (method req =? "OPTIONS") eqn:Hopt.
  { apply String.eqb_eq in Hopt.
    exists (mkResponse None 204 DEFAULT_CORS_HEADERS), this.
    split; [reflexivity |]. split; [now repeat split |].
    split; [now intros _ | intros Hne; contradiction]. }
  apply String.eqb_neq in Hopt.
  destruct ((pathname req =? "/") || negb (startsWith (pathname req) "/api")) eqn:Hstatic.
  { exists (serveStaticFile extname contentType serveFile req (pathname req)), this.
    split; [reflexivity |]. split; [apply serveStaticFile_cors |].
    split; [intros Hm; contradiction | now intros _ _]. }
  apply orb_false_iff in Hstatic as [_ Hapi]. apply negb_false_iff in Hapi.
  destruct (handleApiRequest_harmless req (pathname req) (method req) now this)
    as (r & this' & E & Hh & _ & _).
  exists r, this'. split; [exact E |]. split; [now apply Headers_get_cors |].
  split; [intros Hm; contradiction | intros _ Hno; congruence].
Qed.

End StaticFileProofs.

Lemma serveStaticFile_keeps_the_file_witness :
  status (serveStaticFile (fun _ => ".css") (fun _ => Some "text/css; charset=UTF-8")
            (fun _ _ => FileResponse styleSheet) styleSheetRequest "/styles.css") = 200%Z
  /\ Headers_get "content-type"
       (headers (serveStaticFile (fun _ => ".css") (fun _ => Some "text/css; charset=UTF-8")
                   (fun _ _ => FileResponse styleSheet) styleSheetRequest "/styles.css"))
     = Some "text/css; charset=UTF-8"
  /\ Headers_get "ETag"
       (headers (serveStaticFile (fun _ => ".css") (fun _ => Some "text/css; charset=UTF-8")
                   (fun _ _ => FileResponse styleSheet) styleSheetRequest "/styles.css"))
     = Some "W/1a2b".
Proof.
  destruct (serveStaticFile_keeps_the_file (fun _ => ".css")
              (fun _ => Some "text/css; charset=UTF-8") (fun _ _ => FileResponse styleSheet)
              styleSheetRequest "/styles.css" styleSheet
              eq_refl) as (Hstatus & _ & Htype & Hrest).
  split; [exact Hstatus |]. split; [exact Htype |].
  apply (Hrest "ETag"); [reflexivity |]. repeat constructor.
Defined.
